(** * threads_poster: the posting pipeline, embedded and verified

    The Python package [threads_poster] picks a random PNG from an object
    storage bucket, issues a time-limited link for it, optionally asks a
    language model for a caption, posts the image to Threads and cleans up.

    The embedding follows the five modules:
    - [config.py]          -> Module [Config]
    - [oci_storage.py]     -> Module [Storage]
    - [threads_api.py]     -> Module [ThreadsApi]
    - [claude_caption.py]  -> Module [Caption]
    - [main.py]            -> Module [Orchestrator]

    Python exceptions are values of [exn]; a call that may raise returns
    a [result].  Everything the program learns from the outside (the
    environment, HTTP answers, SDK answers, the clock, the random
    generator) is an explicit input. *)

From Stdlib Require Import ZArith NArith Ascii String Lia.
From stdpp Require Import base strings gmap list.

Set Warnings "-register-all".
Local Open Scope Z_scope.
Local Open Scope string_scope.

(** ** Python values and exceptions *)

(** The interpreter's own string and integer routines.  They act on full
    Unicode text, so the development takes them as an interface and
    proves its results for every implementation of it. *)
Class PyBuiltins := {
  (** [int(s)]: [None] stands for [ValueError]. *)
  py_int : string -> option Z;
  (** [s.strip()] *)
  str_strip : string -> string;
  (** [s.lower()] *)
  str_lower : string -> string;
  str_strip_empty : str_strip "" = ""
}.

(** An implementation of the interface for ASCII text: on such text it
    agrees with the interpreter, and the examples below run on it. *)
Module AsciiBuiltins.

Definition is_space (c : ascii) : bool :=
  let n := N_of_ascii c in
  ((9 <=? n) && (n <=? 13) || (28 <=? n) && (n <=? 32))%N.

Definition lower_char (c : ascii) : ascii :=
  let n := N_of_ascii c in
  if ((65 <=? n) && (n <=? 90))%N then ascii_of_N (n + 32) else c.

Fixpoint lower (s : string) : string :=
  match s with
  | EmptyString => EmptyString
  | String c s' => String (lower_char c) (lower s')
  end.

Fixpoint lstrip (s : string) : string :=
  match s with
  | EmptyString => EmptyString
  | String c s' => if is_space c then lstrip s' else s
  end.

Fixpoint rstrip (s : string) : string :=
  match s with
  | EmptyString => EmptyString
  | String c s' =>
      match rstrip s' with
      | EmptyString => if is_space c then EmptyString else String c EmptyString
      | r => String c r
      end
  end.

Definition strip (s : string) : string := rstrip (lstrip s).

Definition digit_of (c : ascii) : option Z :=
  let n := N_of_ascii c in
  if ((48 <=? n) && (n <=? 57))%N then Some (Z.of_N n - 48) else None.

(** The rest of a decimal literal after a digit: digits, each optionally
    preceded by one underscore. *)
Fixpoint more_digits (acc : Z) (s : string) : option Z :=
  match s with
  | EmptyString => Some acc
  | String c rest =>
      match digit_of c with
      | Some d => more_digits (10 * acc + d) rest
      | None =>
          if Ascii.eqb c "_" then
            match rest with
            | String c' rest' =>
                match digit_of c' with
                | Some d => more_digits (10 * acc + d) rest'
                | None => None
                end
            | EmptyString => None
            end
          else None
      end
  end.

Definition unsigned (s : string) : option Z :=
  match s with
  | String c rest =>
      match digit_of c with
      | Some d => more_digits d rest
      | None => None
      end
  | EmptyString => None
  end.

Definition int (s : string) : option Z :=
  match strip s with
  | String c rest =>
      if Ascii.eqb c "+" then unsigned rest
      else if Ascii.eqb c "-" then Z.opp <$> unsigned rest
      else unsigned (String c rest)
  | EmptyString => None
  end.

Definition builtins : PyBuiltins :=
  {| py_int := int; str_strip := strip; str_lower := lower;
     str_strip_empty := eq_refl |}.

End AsciiBuiltins.

(** What [response.json()] can produce. A finite float is [m * 2^e]. *)
Inductive pyval : Type :=
| PNone
| PBool (b : bool)
| PInt (n : Z)
| PFloat (m e : Z)
| PStr (s : string)
| PList (xs : list pyval)
| PDict (d : gmap string pyval).

(** Python truthiness, as used by [if x] and [not x]. *)
Definition truthy (v : pyval) : bool :=
  match v with
  | PNone => false
  | PBool b => b
  | PInt n => negb (n =? 0)%Z
  | PFloat m _ => negb (m =? 0)%Z
  | PStr s => negb (String.eqb s "")
  | PList xs => match xs with [] => false | _ => true end
  | PDict d => negb (bool_decide (d = ∅))
  end.

Definition str_truthy (s : string) : bool := negb (String.eqb s "").

(** [o or None] and [if o] for an optional string. *)
Definition opt_truthy (o : option string) : bool :=
  match o with Some s => str_truthy s | None => false end.

Definition or_none (o : option string) : option string :=
  if opt_truthy o then o else None.

(** Why a Threads call was rejected; the f-string of the source is kept
    as its parts. *)
Inductive threads_failure : Type :=
| ParseFailed                                   (* "Failed to parse Threads API response as JSON" *)
| ApiStatus (status : Z) (message : pyval)      (* "Threads API error ({status}): {message}" *)
| NoContainerId                                 (* "... did not include a container ID" *)
| NoThreadId.                                   (* "... did not include a thread ID" *)

Inductive caption_failure : Type :=
| DownloadFailed (detail : string)              (* "Failed to download image for captioning: {exc}" *)
| DownloadStatus (status : Z) (body : string)   (* "Image download failed with status {status}: {text[:200]}" *)
| ApiCallFailed.                                (* "Claude API call failed" *)

Inductive exn : Type :=
| RuntimeError (msg : string)
| ValueError (msg : string)
| InvalidLiteral (lit : string)        (* the ValueError of int() *)
| OCIStorageError (msg : string)       (* subclass of RuntimeError *)
| ClaudeCaptionError (why : caption_failure)
| ThreadsApiError (why : threads_failure)
| RequestException (detail : string)   (* requests: no connection, timeout *)
| AttributeError
| OverflowError.

Inductive result (A : Type) : Type :=
| Ok (a : A)
| Raise (e : exn).
Arguments Ok {A} a.
Arguments Raise {A} e.

#[global] Instance result_ret : MRet result := fun _ a => Ok a.
#[global] Instance result_bind : MBind result := fun _ _ f r =>
  match r with Ok a => f a | Raise e => Raise e end.

Definition is_ok {A} (r : result A) : bool :=
  match r with Ok _ => true | Raise _ => false end.

(** [needle in haystack] for strings. *)
Fixpoint is_prefix (p s : string) : bool :=
  match p, s with
  | EmptyString, _ => true
  | String a p', String b s' => Ascii.eqb a b && is_prefix p' s'
  | String _ _, EmptyString => false
  end.

Fixpoint str_contains (needle hay : string) : bool :=
  is_prefix needle hay ||
  match hay with
  | EmptyString => false
  | String _ hay' => str_contains needle hay'
  end.

(** ** config.py *)

Module Config.

Section WithBuiltins.
Context `{PyBuiltins}.

Definition truthy_tokens : gset string := {[ "1"; "true"; "yes"; "on" ]}.
Definition falsy_tokens : gset string := {[ "0"; "false"; "no"; "off" ]}.

Definition _get_bool (environ : gmap string string)
    (name : string) (default : bool) : result bool :=
  match environ !! name with
  | None => Ok default
  | Some value =>
      let value := str_lower (str_strip value) in
      if bool_decide (value ∈ truthy_tokens) then Ok true
      else if bool_decide (value ∈ falsy_tokens) then Ok false
      else Raise (ValueError ("Invalid boolean value for " +:+ name +:+ ": " +:+ value))
  end.

Record Settings := {
  threads_access_token : string;
  threads_user_id : string;
  bucket : string;
  object_prefix : option string;
  media_wait_seconds : Z;
  presign_expiration_seconds : Z;
  anthropic_api_key : string;
  claude_model : string;
  claude_max_tokens : Z;
  caption_fallback : string;
  enable_captioning : bool;
  telegram_bot_token : option string;
  telegram_chat_id : option string;
  oci_namespace : string;
  oci_region : option string;
  oci_profile : option string
}.

(** [os.environ.get(name, default)] *)
Definition environ_get (environ : gmap string string)
    (name : string) (default : option string) : option string :=
  match environ !! name with
  | Some v => Some v
  | None => default
  end.

Definition _get_env (environ : gmap string string)
    (name : string) (default : option string) : result string :=
  match environ_get environ name default with
  | None => Raise (RuntimeError ("Missing required environment variable: " +:+ name))
  | Some value =>
      if String.eqb value ""
      then Raise (RuntimeError ("Missing required environment variable: " +:+ name))
      else Ok value
  end.

(** [int(os.environ.get(name, default))] *)
Definition int_env (environ : gmap string string)
    (name default : string) : result Z :=
  match py_int (from_option id default (environ !! name)) with
  | Some n => Ok n
  | None => Raise (InvalidLiteral (from_option id default (environ !! name)))
  end.

Definition load_settings (environ : gmap string string) : result Settings :=
  wait_seconds ← int_env environ "THREADS_MEDIA_WAIT_SECONDS" "30";
  presign_expiration_seconds ←
    int_env environ "THREADS_PRESIGN_EXPIRATION_SECONDS" "900";
  claude_max_tokens ← int_env environ "THREADS_CLAUDE_MAX_TOKENS" "120";
  let caption_fallback :=
    from_option id "Sharing today's inspiration âœ¨"
      (environ !! "THREADS_CAPTION_FALLBACK") in
  enable_captioning ← _get_bool environ "THREADS_ENABLE_CAPTIONING" true;
  let anthropic_key := environ !! "ANTHROPIC_API_KEY" in
  let anthropic_key :=
    match anthropic_key with
    | Some k => if str_truthy k then str_strip k else ""
    | None => ""
    end in
  if enable_captioning && negb (str_truthy anthropic_key) then
    Raise (RuntimeError
      "ANTHROPIC_API_KEY must be set when THREADS_ENABLE_CAPTIONING is true")
  else
    bucket ← _get_env environ "THREADS_BUCKET" None;
    let object_prefix := or_none (environ !! "THREADS_PREFIX") in
    threads_access_token ← _get_env environ "THREADS_ACCESS_TOKEN" None;
    threads_user_id ← _get_env environ "THREADS_USER_ID" None;
    oci_namespace ← _get_env environ "OCI_NAMESPACE" None;
    Ok {| threads_access_token := threads_access_token;
          threads_user_id := threads_user_id;
          bucket := bucket;
          object_prefix := object_prefix;
          media_wait_seconds := wait_seconds;
          presign_expiration_seconds := presign_expiration_seconds;
          anthropic_api_key := anthropic_key;
          claude_model :=
            from_option id "claude-sonnet-4-5-20250929"
              (environ !! "THREADS_CLAUDE_MODEL");
          claude_max_tokens := claude_max_tokens;
          caption_fallback := caption_fallback;
          enable_captioning := enable_captioning;
          telegram_bot_token := or_none (environ !! "TELEGRAM_BOT_TOKEN");
          telegram_chat_id := or_none (environ !! "TELEGRAM_CHAT_ID");
          oci_namespace := oci_namespace;
          oci_region := or_none (environ !! "OCI_REGION");
          oci_profile := or_none (environ !! "OCI_PROFILE") |}.

(** The variables [_get_env] is called on, in the order of the calls. *)
Definition required_fields : list string :=
  ["THREADS_BUCKET"; "THREADS_ACCESS_TOKEN"; "THREADS_USER_ID"; "OCI_NAMESPACE"].

End WithBuiltins.
End Config.

(** ** What the program sees of the outside world *)

(** The answer of an OCI SDK call.  A [ServiceError] carries its
    [message] attribute and its [str()]; any other exception its [str()]. *)
Inductive sdk_result (A : Type) : Type :=
| SdkReturn (a : A)
| SdkServiceError (message : option string) (str : string)
| SdkException (str : string).
Arguments SdkReturn {A} a.
Arguments SdkServiceError {A} message str.
Arguments SdkException {A} str.

(** The answer of a [requests] call: no response at all (connection
    error, timeout: a [requests.RequestException]) or a response, whose
    [json] is [None] when the body does not parse. *)
Record response := {
  status_code : Z;
  text : string;
  content : string;
  json : option pyval
}.

Inductive http_outcome : Type :=
| NoResponse (detail : string)
| Response (r : response).

Inductive log_level := INFO | WARNING | ERROR | DEBUG.

(** ** oci_storage.py *)

Module Storage.

Record ObjectRef := { bucket : string; key : string }.

Definition uri (self : ObjectRef) : string :=
  "oci://" +:+ bucket self +:+ "/" +:+ key self.

Record PreauthenticatedRequest := {
  par_bucket : string;
  par_id : string;
  par_url : string
}.

(** Points in time and durations are counted in microseconds; a
    [datetime] lies between 0001-01-01 and the end of year 9999. *)
Definition max_datetime : Z := 3652059 * 86400 * 1000000 - 1.
Definition max_timedelta_days : Z := 999999999.

(** [timedelta(seconds=s)] *)
Definition timedelta_seconds (s : Z) : result Z :=
  if (Z.abs (s / 86400) <=? max_timedelta_days)%Z
  then Ok (s * 1000000)%Z else Raise OverflowError.

(** [t + delta] on a [datetime] *)
Definition datetime_add (t delta : Z) : result Z :=
  let r := (t + delta)%Z in
  if ((0 <=? r) && (r <=? max_datetime))%Z then Ok r else Raise OverflowError.

(** [CreatePreauthenticatedRequestDetails]; [name_stamp] is the clock
    reading that [strftime] turns into the name after "temp-par-". *)
Record par_details := {
  name_stamp : Z;
  access_type : string;
  time_expires : Z;
  object_name : string
}.

(** The [data] of the backend's answer to the creation request. *)
Record par_data := { access_uri : option string; data_id : string }.

Record OCIStorageClient := { namespace : string; region : string }.

(** [except ServiceError ... except Exception ...] around an SDK call *)
Definition wrap_sdk {A} (r : sdk_result A) : result A :=
  match r with
  | SdkReturn a => Ok a
  | SdkServiceError message str =>
      Raise (OCIStorageError (if opt_truthy message then default "" message else str))
  | SdkException str => Raise (OCIStorageError str)
  end.

(** What the SDK answers while a client is constructed; of the loaded
    configuration only the region matters to the program. *)
Record oci_sdk := {
  from_file : option string -> sdk_result (option string);
  validate_config : option string -> sdk_result unit;
  ObjectStorageClient : option string -> sdk_result unit;
  get_namespace : sdk_result string
}.

(** [except Exception as exc: raise OCIStorageError(f"{prefix}{exc}")] *)
Definition wrap_with {A} (prefix : string) (r : sdk_result A) : result A :=
  match r with
  | SdkReturn a => Ok a
  | SdkServiceError _ str | SdkException str =>
      Raise (OCIStorageError (prefix +:+ str))
  end.

(** [OCIStorageClient.__init__] *)
Definition init (sdk : oci_sdk) (namespace : string)
    (region profile : option string) : result OCIStorageClient :=
  config_region ← wrap_with "Failed to load OCI configuration: "
                     (from_file sdk (or_none profile));
  let config_region := if opt_truthy region then region else config_region in
  _ ← wrap_with "Invalid OCI configuration: " (validate_config sdk config_region);
  if negb (opt_truthy config_region) then
    Raise (OCIStorageError "OCI configuration is missing a region value")
  else
    _ ← wrap_with "Failed to create OCI Object Storage client: "
          (ObjectStorageClient sdk config_region);
    namespace ← (if str_truthy namespace then Ok namespace
                 else wrap_with "Failed to resolve OCI namespace: " (get_namespace sdk));
    Ok {| namespace := namespace; region := default "" config_region |}.

(** The request that [generate_presigned_url] builds before it calls
    the backend; [now] and [now_name] are the two clock readings. *)
Definition presign_request (obj : ObjectRef) (expires_in_seconds : Z)
    (now now_name : Z) : result par_details :=
  delta ← timedelta_seconds (Z.max expires_in_seconds 1);
  expiry ← datetime_add now delta;
  Ok {| name_stamp := now_name;
        access_type := "ObjectRead";
        time_expires := expiry;
        object_name := key obj |}.

Definition generate_presigned_url (self : OCIStorageClient)
    (obj : ObjectRef) (expires_in_seconds : Z) (now now_name : Z)
    (create_preauthenticated_request : par_details -> sdk_result (option par_data))
    : result PreauthenticatedRequest :=
  details ← presign_request obj expires_in_seconds now now_name;
  data ← wrap_sdk (create_preauthenticated_request details);
  match data with
  | Some d =>
      if opt_truthy (access_uri d) then
        Ok {| par_bucket := bucket obj;
              par_id := data_id d;
              par_url := "https://objectstorage." +:+ region self
                         +:+ ".oraclecloud.com" +:+ default "" (access_uri d) |}
      else Raise (OCIStorageError
                    ("Failed to create pre-authenticated request for " +:+ uri obj))
  | None => Raise (OCIStorageError
                    ("Failed to create pre-authenticated request for " +:+ uri obj))
  end.

Definition delete_object (self : OCIStorageClient) (obj : ObjectRef)
    (answer : sdk_result unit) : result unit := wrap_sdk answer.

Definition revoke_preauthenticated_request (self : OCIStorageClient)
    (par : PreauthenticatedRequest) (answer : sdk_result unit) : result unit :=
  wrap_sdk answer.

(** [list_png_objects]: the pages of the backend are not unfolded here;
    [answer] is what the paginated listing yields after the ".png"
    filter, or the exception that interrupted it. *)
Definition list_png_objects (self : OCIStorageClient) (bucket : string)
    (prefix : option string) (answer : sdk_result (list ObjectRef))
    : result (list ObjectRef) := wrap_sdk answer.

(** [random.choice(objects)] is [objects[randbelow(len(objects))]];
    [entropy] is what the generator draws from. *)
Definition choose_random_object (objects : list ObjectRef) (entropy : nat)
    : result ObjectRef :=
  match objects with
  | [] => Raise (OCIStorageError "No PNG files found in the specified OCI bucket")
  | first :: _ => Ok (nth (entropy mod length objects)%nat objects first)
  end.

End Storage.

(** ** threads_api.py *)

Module ThreadsApi.

(** The four requests of the module; the URL and form fields of the
    source are kept as the values they are built from. *)
Inductive request : Type :=
| CreateContainer (user_id image_url caption access_token : string)
    (* POST {base}/{user_id}/threads, media_type=IMAGE *)
| PublishContainer (user_id : string) (creation_id : pyval) (access_token : string)
    (* POST {base}/{user_id}/threads_publish *)
| ContainerStatus (container_id : pyval) (access_token : string)
    (* GET {base}/{container_id}?fields=status *)
| ProfileDetails (user_id access_token : string).
    (* GET {base}/{user_id}?fields=id,username *)

(** [v.get(key, default)]: only a dict has the method. *)
Definition py_get (v : pyval) (key : string) (default : pyval) : result pyval :=
  match v with
  | PDict d => Ok (from_option id default (d !! key))
  | _ => Raise AttributeError
  end.

Definition _handle_response (r : response) : result pyval :=
  match json r with
  | None => Raise (ThreadsApiError ParseFailed)
  | Some data =>
      if (400 <=? status_code r)%Z then
        error ← py_get data "error" (PDict ∅);
        message ← py_get error "message" (PStr (text r));
        Raise (ThreadsApiError (ApiStatus (status_code r) message))
      else Ok data
  end.

(** [requests.post] / [requests.get]: a missing response is the
    library's exception, which the module lets through. *)
Definition perform (send : request -> http_outcome) (req : request)
    : result response :=
  match send req with
  | NoResponse detail => Raise (RequestException detail)
  | Response r => Ok r
  end.

Section Calls.
Variable send : request -> http_outcome.

Definition create_media_container
    (access_token user_id image_url caption : string) : result pyval :=
  response ← perform send (CreateContainer user_id image_url caption access_token);
  data ← _handle_response response;
  container_id ← py_get data "id" PNone;
  if negb (truthy container_id)
  then Raise (ThreadsApiError NoContainerId)
  else Ok container_id.

Definition publish_container
    (access_token user_id : string) (container_id : pyval) : result pyval :=
  response ← perform send (PublishContainer user_id container_id access_token);
  data ← _handle_response response;
  thread_id ← py_get data "id" PNone;
  if negb (truthy thread_id)
  then Raise (ThreadsApiError NoThreadId)
  else Ok thread_id.

Definition check_container_status
    (access_token : string) (container_id : pyval) : result pyval :=
  response ← perform send (ContainerStatus container_id access_token);
  data ← _handle_response response;
  py_get data "status" PNone.

Definition get_profile_details
    (access_token user_id : string) : result pyval :=
  response ← perform send (ProfileDetails user_id access_token);
  _handle_response response.

End Calls.

(** Whether a parsed body is an object with the given member. *)
Definition has_field (v : pyval) (key : string) : bool :=
  match v with
  | PDict d => bool_decide (is_Some (d !! key))
  | _ => false
  end.

End ThreadsApi.

(** ** claude_caption.py *)

Module Caption.

(** The structural [ClaudeConfig] protocol: any record with the four
    attributes. *)
Class ClaudeConfig (C : Type) := {
  anthropic_api_key : C -> string;
  claude_model : C -> string;
  claude_max_tokens : C -> Z;
  caption_fallback : C -> string
}.

#[global] Instance settings_claude_config : ClaudeConfig Config.Settings := {|
  anthropic_api_key := Config.anthropic_api_key;
  claude_model := Config.claude_model;
  claude_max_tokens := Config.claude_max_tokens;
  caption_fallback := Config.caption_fallback
|}.

(** A content block of the model's answer: [block_type] and [block_text]
    are [getattr(block, "type", None)] and [getattr(block, "text", "")]
    before the default is applied. *)
Record block := { block_type : option string; block_text : option string }.

Record messages_request := {
  req_api_key : string;
  req_model : string;
  req_max_tokens : Z;
  req_image : string     (* the downloaded bytes, sent base64-encoded *)
}.

(** [client.messages.create]: an [APIError] or the answer's blocks. *)
Inductive api_outcome : Type :=
| ApiError (detail : string)
| ApiMessage (content : list block).

(** Text is held as its UTF-8 encoding, one [ascii] per byte: a byte
    of the form 10xxxxxx continues the character that the bytes before
    it began. *)
Definition is_continuation (c : ascii) : bool :=
  let n := N_of_ascii c in ((128 <=? n) && (n <? 192))%N.

(** [len(s)]: the number of characters. *)
Fixpoint char_count (s : string) : nat :=
  match s with
  | EmptyString => O
  | String c rest =>
      if is_continuation c then char_count rest else S (char_count rest)
  end.

(** [s[:n]]: the first [n] characters, each with all of its bytes. *)
Fixpoint take_chars (n : nat) (s : string) : string :=
  match s with
  | EmptyString => EmptyString
  | String c rest =>
      if is_continuation c then String c (take_chars n rest)
      else match n with
           | O => EmptyString
           | S n' => String c (take_chars n' rest)
           end
  end.

Definition _download_image_bytes (get : string -> http_outcome) (url : string)
    : result string :=
  match get url with
  | NoResponse detail => Raise (ClaudeCaptionError (DownloadFailed detail))
  | Response r =>
      if (400 <=? status_code r)%Z
      then Raise (ClaudeCaptionError
                    (DownloadStatus (status_code r) (take_chars 200 (text r))))
      else Ok (content r)
  end.

Section WithBuiltins.
Context `{PyBuiltins}.

Definition is_text_block (b : block) : bool :=
  bool_decide (block_type b = Some "text")
  && str_truthy (str_strip (default "" (block_text b))).

(** The list comprehension of [generate_caption]. *)
Definition caption_parts (content : list block) : list string :=
  (fun b => str_strip (default "" (block_text b))) <$> filter is_text_block content.

(** [generate_caption]: the records it logs and its outcome. *)
Definition generate_caption `{ClaudeConfig C} (config : C) (image_url : string)
    (get : string -> http_outcome) (create : messages_request -> api_outcome)
    : list (log_level * string) * result string :=
  match _download_image_bytes get image_url with
  | Raise e => ([], Raise e)
  | Ok image_bytes =>
      match create {| req_api_key := anthropic_api_key config;
                      req_model := claude_model config;
                      req_max_tokens := claude_max_tokens config;
                      req_image := image_bytes |} with
      | ApiError _ =>
          ([(ERROR, "Claude API request failed: %s")],
           Raise (ClaudeCaptionError ApiCallFailed))
      | ApiMessage content =>
          let caption := str_strip (String.concat " " (caption_parts content)) in
          if negb (str_truthy caption)
          then ([(WARNING, "Claude returned no text content; using fallback caption")],
                Ok (caption_fallback config))
          else ([], Ok caption)
      end
  end.

End WithBuiltins.
End Caption.

(** ** main.py *)

Module Orchestrator.
Import Config Storage.

(** The account label of the notification, as the parts of its f-string. *)
Inductive label : Type :=
| NameAndHandle (display_name username : pyval)   (* "{display_name} (@{username})" *)
| NameOnly (display_name : pyval)
| HandleOnly (username : pyval)                    (* "@{username}" *)
| UserId (user_id : string).

Definition _format_threads_label (details : option pyval) (user_id : string)
    : result label :=
  let details_truthy := from_option truthy false details in
  display_name ← (if details_truthy
                  then ThreadsApi.py_get (default PNone details) "display_name" PNone
                  else Ok PNone);
  username ← (if details_truthy
               then ThreadsApi.py_get (default PNone details) "username" PNone
               else Ok PNone);
  let handle := truthy username in
  if truthy display_name && handle then Ok (NameAndHandle display_name username)
  else if truthy display_name then Ok (NameOnly display_name)
  else if handle then Ok (HandleOnly username)
  else Ok (UserId user_id).

(** The lines of a notification. *)
Inductive notice_line : Type :=
| Heading (published : bool)       (* "✅ Threads post published" / "❌ Threads poster failed" *)
| AccountLine (account : label)    (* "Threads Account: ..." *)
| ObjectKeyLine (key : string)     (* "Object Key: ..." *)
| ThreadIdLine (thread_id : pyval) (* "Thread ID: ..." *)
| ErrorLine (error : exn).         (* "Error: {str(exc)}" *)

(** What a run does that can be observed from outside, in order.
    Debug records are left out: the level is INFO. *)
Inductive event : Type :=
| Log (level : log_level) (format : string)
| GetProfile (user_id : string)
| StorageInit
| ListObjects (bucket : string) (prefix : option string)
| GeneratePresignedUrl (obj : ObjectRef) (expires_in_seconds : Z)
| LinkIssued (par : PreauthenticatedRequest)
| GenerateCaption (image_url : string)
| CreateMediaContainer (image_url caption : string)
| Sleep (seconds : Z)
| CheckContainerStatus (container_id : pyval)
| PublishContainer (container_id : pyval)
| DeleteObject (obj : ObjectRef)
| RevokeLink (par : PreauthenticatedRequest)
| SendTelegram (bot_token chat_id : string) (message : list notice_line).

(** Everything one run reads from outside. *)
Record World := {
  environ : gmap string string;
  sdk : oci_sdk;
  list_objects : sdk_result (list ObjectRef);
  entropy : nat;
  now : Z;
  now_name : Z;
  create_preauthenticated_request : par_details -> sdk_result (option par_data);
  delete_answer : ObjectRef -> sdk_result unit;
  revoke_answer : PreauthenticatedRequest -> sdk_result unit;
  threads : ThreadsApi.request -> http_outcome;
  image_get : string -> http_outcome;
  messages_create : Caption.messages_request -> Caption.api_outcome;
  telegram : string -> string -> list notice_line -> http_outcome
}.

(** The variables that [finish] shares with [main], and the trace. *)
Record run_state := {
  storage : option OCIStorageClient;
  selected_object : option ObjectRef;
  caption : option string;
  container_id : option pyval;
  thread_id : option pyval;
  last_error : option exn;
  par_request : option PreauthenticatedRequest;
  trace : list event
}.

Definition initial : run_state :=
  {| storage := None; selected_object := None; caption := None;
     container_id := None; thread_id := None; last_error := None;
     par_request := None; trace := [] |}.

Definition set_storage v st :=
  {| storage := v; selected_object := selected_object st; caption := caption st;
     container_id := container_id st; thread_id := thread_id st;
     last_error := last_error st; par_request := par_request st; trace := trace st |}.
Definition set_selected_object v st :=
  {| storage := storage st; selected_object := v; caption := caption st;
     container_id := container_id st; thread_id := thread_id st;
     last_error := last_error st; par_request := par_request st; trace := trace st |}.
Definition set_caption v st :=
  {| storage := storage st; selected_object := selected_object st; caption := v;
     container_id := container_id st; thread_id := thread_id st;
     last_error := last_error st; par_request := par_request st; trace := trace st |}.
Definition set_container_id v st :=
  {| storage := storage st; selected_object := selected_object st; caption := caption st;
     container_id := v; thread_id := thread_id st;
     last_error := last_error st; par_request := par_request st; trace := trace st |}.
Definition set_thread_id v st :=
  {| storage := storage st; selected_object := selected_object st; caption := caption st;
     container_id := container_id st; thread_id := v;
     last_error := last_error st; par_request := par_request st; trace := trace st |}.
Definition set_last_error v st :=
  {| storage := storage st; selected_object := selected_object st; caption := caption st;
     container_id := container_id st; thread_id := thread_id st;
     last_error := v; par_request := par_request st; trace := trace st |}.
Definition set_par_request v st :=
  {| storage := storage st; selected_object := selected_object st; caption := caption st;
     container_id := container_id st; thread_id := thread_id st;
     last_error := last_error st; par_request := v; trace := trace st |}.
Definition add_events es st :=
  {| storage := storage st; selected_object := selected_object st; caption := caption st;
     container_id := container_id st; thread_id := thread_id st;
     last_error := last_error st; par_request := par_request st;
     trace := (trace st ++ es)%list |}.

(** Statements: they read and update the run state and may raise. *)
Definition M (A : Type) : Type := run_state -> result A * run_state.

#[global] Instance M_ret : MRet M := fun _ a st => (Ok a, st).
#[global] Instance M_bind : MBind M := fun _ _ f c st =>
  match c st with
  | (Ok a, st') => f a st'
  | (Raise e, st') => (Raise e, st')
  end.

Definition raise {A} (e : exn) : M A := fun st => (Raise e, st).
Definition get : M run_state := fun st => (Ok st, st).
Definition modify (f : run_state -> run_state) : M unit := fun st => (Ok tt, f st).
Definition emit (e : event) : M unit := modify (add_events [e]).
Definition log (level : log_level) (format : string) : M unit :=
  emit (Log level format).
Definition skip : M unit := mret tt.
Definition lift {A} (r : result A) : M A := fun st => (r, st).

(** The body of a [try]: run it and hand its outcome to the handlers. *)
Definition attempt {A} (c : M A) : M (result A) := fun st =>
  let (r, st') := c st in (Ok r, st').

(** Whether [str(exc)] is a non-empty string. *)
Definition str_nonempty (e : exn) : bool :=
  match e with
  | RuntimeError m | ValueError m | OCIStorageError m | RequestException m =>
      str_truthy m
  | _ => true
  end.

(** [except (RuntimeError, ValueError)]: the three error classes of the
    package derive from [RuntimeError]. *)
Definition is_runtime_or_value_error (e : exn) : bool :=
  match e with
  | RuntimeError _ | ValueError _ | InvalidLiteral _
  | OCIStorageError _ | ClaudeCaptionError _ | ThreadsApiError _ => true
  | RequestException _ | AttributeError | OverflowError => false
  end.

(** Observations on a trace: the links issued, the links whose
    revocation was requested, the sleeps. *)
Definition issued (t : list event) : list PreauthenticatedRequest :=
  omap (fun e => match e with LinkIssued par => Some par | _ => None end) t.

Definition revoked (t : list event) : list PreauthenticatedRequest :=
  omap (fun e => match e with RevokeLink par => Some par | _ => None end) t.

Definition sleeps (t : list event) : list Z :=
  omap (fun e => match e with Sleep s => Some s | _ => None end) t.

(** Records and notifications: the events that touch neither the
    storage, the captioning nor the platform. *)
Definition is_notification (e : event) : bool :=
  match e with
  | Log _ _ | SendTelegram _ _ _ => true
  | _ => false
  end.

(** [time.sleep(seconds)] for a non-negative integer: the duration is
    converted to nanoseconds in a signed 64-bit integer, and the call
    raises [OverflowError], without sleeping, when that does not fit. *)
Definition max_sleep_seconds : Z := 9223372036.

Definition time_sleep (seconds : Z) : M unit :=
  if (seconds <=? max_sleep_seconds)%Z then emit (Sleep seconds)
  else raise OverflowError.

Section Flow.
Context `{PyBuiltins}.
Variable w : World.

Definition _send_telegram_message (bot_token chat_id : option string)
    (message : list notice_line) : M unit :=
  if negb (opt_truthy bot_token) || negb (opt_truthy chat_id) then skip
  else
    emit (SendTelegram (default "" bot_token) (default "" chat_id) message);;
    match telegram w (default "" bot_token) (default "" chat_id) message with
    | NoResponse _ => log WARNING "Failed to send Telegram notification: %s"
    | Response r =>
        (* raise_for_status *)
        if ((400 <=? status_code r) && (status_code r <? 600))%Z
        then log WARNING "Failed to send Telegram notification: %s"
        else skip
    end.

(** The locals of [main] that are fixed once the settings are loaded. *)
Variable settings : Settings.
Variables telegram_bot_token telegram_chat_id : option string.
Variable account_label : label.

(** main.py, lines 114-147 *)
Definition finish (result_code : Z) (error : option exn) : M Z :=
  st ← get;
  match par_request st, storage st with
  | Some par, Some client =>
      emit (RevokeLink par);;
      match revoke_preauthenticated_request client par (revoke_answer w par) with
      | Ok _ => modify (set_par_request None)
      | Raise (OCIStorageError _) =>
          log WARNING "Failed to revoke pre-authenticated request: %s";;
          modify (set_par_request None)
      | Raise e => modify (set_par_request None);; raise e
      end
  | _, _ => skip
  end;;
  st ← get;
  let final_error :=
    if from_option str_nonempty false error then error else last_error st in
  (if opt_truthy telegram_bot_token && opt_truthy telegram_chat_id then
     let lines :=
       ([Heading (result_code =? 0)%Z; AccountLine account_label]
        ++ match selected_object st with
           | Some obj => [ObjectKeyLine (key obj)]
           | None => []
           end
        ++ match thread_id st with
           | Some t => if truthy t then [ThreadIdLine t] else []
           | None => []
           end
        ++ match final_error with
           | Some e => if str_nonempty e then [ErrorLine e] else []
           | None => []
           end)%list in
     _send_telegram_message telegram_bot_token telegram_chat_id lines
   else skip);;
  mret result_code.

(** [last_error = str(exc); logger.error(...); return finish(1, error=str(exc))] *)
Definition fail_with (e : exn) (format : string) : M Z :=
  modify (set_last_error (Some e));;
  log ERROR format;;
  finish 1 (Some e).

(** main.py, lines 232-246 *)
Definition delete_block (client : OCIStorageClient) (obj : ObjectRef) : M Z :=
  emit (DeleteObject obj);;
  match delete_object client obj (delete_answer w obj) with
  | Ok _ => log INFO "Deleted %s from bucket %s"
  | Raise (OCIStorageError _) =>
      log WARNING "Thread posted but failed to delete %s: %s"
  | Raise e => raise e
  end;;
  finish 0 None.

(** main.py, lines 220-230 *)
Definition publish_block (client : OCIStorageClient) (obj : ObjectRef)
    (container : pyval) : M Z :=
  emit (PublishContainer container);;
  match ThreadsApi.publish_container (threads w)
          (threads_access_token settings) (threads_user_id settings) container with
  | Ok thread =>
      modify (set_thread_id (Some thread));;
      log INFO "Published thread %s";;
      delete_block client obj
  | Raise (ThreadsApiError why) =>
      fail_with (ThreadsApiError why) "Failed to publish container: %s"
  | Raise e => raise e
  end.

(** main.py, lines 206-218 *)
Definition wait_block (client : OCIStorageClient) (obj : ObjectRef)
    (container : pyval) : M Z :=
  let wait_seconds := Z.max (media_wait_seconds settings) 0 in
  (if negb (wait_seconds =? 0)%Z then
     log INFO "Waiting %s seconds for media processing";;
     time_sleep wait_seconds
   else skip);;
  emit (CheckContainerStatus container);;
  status ← match ThreadsApi.check_container_status (threads w)
                   (threads_access_token settings) container with
           | Ok status => mret status
           | Raise (ThreadsApiError _) =>
               log WARNING "Could not confirm container status: %s";;
               mret PNone
           | Raise e => raise e
           end;
  (if truthy status then log INFO "Container status: %s" else skip);;
  publish_block client obj container.

(** main.py, lines 191-204 *)
Definition container_block (client : OCIStorageClient) (obj : ObjectRef)
    (presigned_url : string) : M Z :=
  st ← get;
  let caption_payload := if opt_truthy (caption st) then default "" (caption st) else "" in
  emit (CreateMediaContainer presigned_url caption_payload);;
  match ThreadsApi.create_media_container (threads w)
          (threads_access_token settings) (threads_user_id settings)
          presigned_url caption_payload with
  | Ok container =>
      modify (set_container_id (Some container));;
      log INFO "Created media container %s";;
      wait_block client obj container
  | Raise (ThreadsApiError why) =>
      fail_with (ThreadsApiError why) "Failed to create media container: %s"
  | Raise e => raise e
  end.

(** main.py, lines 179-189 *)
Definition caption_block (client : OCIStorageClient) (obj : ObjectRef)
    (presigned_url : string) : M Z :=
  (if enable_captioning settings then
     emit (GenerateCaption presigned_url);;
     let (records, outcome) :=
       Caption.generate_caption settings presigned_url
         (image_get w) (messages_create w) in
     modify (add_events ((fun r => Log r.1 r.2) <$> records));;
     match outcome with
     | Ok text =>
         modify (set_caption (Some text));;
         log INFO "Generated caption for %s"
     | Raise (ClaudeCaptionError _) =>
         log ERROR "Failed to generate caption via Claude: %s";;
         modify (set_caption (Some ""));;
         log INFO "Caption generation failed; posting without caption"
     | Raise e => raise e
     end
   else
     modify (set_caption (Some ""));;
     log INFO "Caption generation disabled; posting without caption");;
  container_block client obj presigned_url.

(** main.py, lines 163-173: the body of the [try] *)
Definition select_and_presign (client : OCIStorageClient)
    : M (ObjectRef * PreauthenticatedRequest) :=
  emit (ListObjects (Config.bucket settings) (object_prefix settings));;
  objects ← lift (list_png_objects client (Config.bucket settings)
                    (object_prefix settings) (list_objects w));
  selected ← lift (choose_random_object objects (entropy w));
  modify (set_selected_object (Some selected));;
  log INFO "Selected %s";;
  emit (GeneratePresignedUrl selected (presign_expiration_seconds settings));;
  par ← lift (generate_presigned_url client selected
                (presign_expiration_seconds settings) (now w) (now_name w)
                (create_preauthenticated_request w));
  modify (set_par_request (Some par));;
  emit (LinkIssued par);;
  log INFO "Generated pre-authenticated URL valid for %s seconds";;
  mret (selected, par).

(** main.py, lines 160-177 *)
Definition select_block (client : OCIStorageClient) : M Z :=
  log INFO "Selecting random PNG from bucket %s";;
  outcome ← attempt (select_and_presign client);
  match outcome with
  | Ok (selected, par) => caption_block client selected (par_url par)
  | Raise (OCIStorageError msg) =>
      fail_with (OCIStorageError msg) "OCI operation failed: %s"
  | Raise e => raise e
  end.

(** main.py, lines 149-158 *)
Definition storage_block : M Z :=
  emit StorageInit;;
  match Storage.init (sdk w) (oci_namespace settings)
          (oci_region settings) (oci_profile settings) with
  | Ok client =>
      modify (set_storage (Some client));;
      select_block client
  | Raise (OCIStorageError msg) =>
      fail_with (OCIStorageError msg) "Failed to initialize OCI storage client: %s"
  | Raise e => raise e
  end.

End Flow.

Section Main.
Context `{PyBuiltins}.

(** main.py, lines 65-112, then the blocks above *)
Definition main (w : World) : M Z :=
  let telegram_bot_token := environ w !! "TELEGRAM_BOT_TOKEN" in
  let telegram_chat_id := environ w !! "TELEGRAM_CHAT_ID" in
  match load_settings (environ w) with
  | Raise exc =>
      if is_runtime_or_value_error exc then
        log ERROR "Configuration error: %s";;
        _send_telegram_message w telegram_bot_token telegram_chat_id
          [Heading false; ErrorLine exc];;
        mret 1
      else raise exc
  | Ok settings =>
      let telegram_bot_token :=
        if opt_truthy (Config.telegram_bot_token settings)
        then Config.telegram_bot_token settings else telegram_bot_token in
      let telegram_chat_id :=
        if opt_truthy (Config.telegram_chat_id settings)
        then Config.telegram_chat_id settings else telegram_chat_id in
      emit (GetProfile (threads_user_id settings));;
      profile_details ←
        match ThreadsApi.get_profile_details (threads w)
                (threads_access_token settings) (threads_user_id settings) with
        | Ok details => mret (Some details)
        | Raise (ThreadsApiError _) =>
            log WARNING "Failed to fetch Threads profile details: %s";;
            mret None
        | Raise e => raise e
        end;
      account_label ←
        lift (_format_threads_label profile_details (threads_user_id settings));
      storage_block w settings telegram_bot_token telegram_chat_id account_label
  end.

(** One run of the program: the exit status [main] returns, or the
    exception that escapes it, and the final run state. *)
Definition run (w : World) : result Z * run_state := main w initial.

End Main.

(** ** Vocabulary for the properties of a run *)

Section Vocabulary.
Context `{PyBuiltins}.

(** The state after the revocation step of [finish]. *)
Definition after_revocation (st : run_state) : run_state :=
  match par_request st, storage st with
  | Some par, Some _ => set_par_request None (add_events [RevokeLink par] st)
  | _, _ => st
  end.

(** The state in which the blocks after the link run. *)
Definition holding (par : PreauthenticatedRequest) (st : run_state) : Prop :=
  par_request st = Some par /\ storage st <> None
  /\ issued (trace st) = [par] /\ revoked (trace st) = [].

(** At most one sleep, of the configured positive duration. *)
Definition sleeps_ok (settings : Settings) (t : list event) : Prop :=
  sleeps t = []
  \/ sleeps t = [media_wait_seconds settings] /\ (0 < media_wait_seconds settings)%Z.

(** What a run that got hold of the link [par] guarantees at its end. *)
Definition good_end (settings : Settings) (par : PreauthenticatedRequest)
    (out : result Z * run_state) : Prop :=
  issued (trace out.2) = [par]
  /\ match out.1 with
     | Ok code => revoked (trace out.2) = [par] /\ par_request out.2 = None
     | Raise e => revoked (trace out.2) = [] /\ par_request out.2 = Some par
     end
  /\ (thread_id out.2 <> None -> out.1 = Ok 0)
  /\ sleeps_ok settings (trace out.2).

(** The state before any link is issued, and the end of a run that
    never got one. *)
Definition fresh (st : run_state) : Prop :=
  par_request st = None /\ thread_id st = None /\ container_id st = None
  /\ caption st = None
  /\ issued (trace st) = [] /\ revoked (trace st) = [] /\ sleeps (trace st) = [].

Definition linkless_end (out : result Z * run_state) : Prop := fresh out.2.

(** The state in which the caption step starts. *)
Definition ready (par : PreauthenticatedRequest) (client : OCIStorageClient)
    (obj : ObjectRef) (st : run_state) : Prop :=
  holding par st /\ storage st = Some client /\ selected_object st = Some obj
  /\ thread_id st = None /\ container_id st = None /\ caption st = None
  /\ sleeps (trace st) = [].

(** The run is the caption step and what follows it, started with a
    link in hand. *)
Definition enters_tail (w : World) (settings : Settings)
    (bot chat : option string) (account : label)
    (out : result Z * run_state) : Prop :=
  exists par client obj st,
    out = caption_block w settings bot chat account client obj (par_url par) st
    /\ ready par client obj st.

(** [caption or ""] *)
Definition caption_payload (st : run_state) : string :=
  if opt_truthy (caption st) then default "" (caption st) else "".


(** [st'] is [st] after further steps of the flow: more events, the
    same object and caption. *)
Definition later (st st' : run_state) : Prop :=
  caption st' = caption st /\ selected_object st' = selected_object st
  /\ exists evs, trace st' = (trace st ++ evs)%list.

End Vocabulary.

End Orchestrator.

(** ** oci_storage.py: the listing loop, page by page

    [Storage.list_png_objects] takes the outcome of the paginated
    listing as a whole; here the [while True] loop is followed call by
    call. *)

Module Listing.
Import Storage.

(** One page of the backend's answer: the [name] of each object
    summary, and the cursor [next_start_with]. *)
Record page := { names : list (option string); next_start_with : option string }.

(** [s.endswith(suffix)] *)
Fixpoint ends_with (suffix s : string) : bool :=
  String.eqb suffix s
  || match s with
     | EmptyString => false
     | String _ s' => ends_with suffix s'
     end.

Section WithBuiltins.
Context `{PyBuiltins}.

(** The [for] loop over the objects of one page. *)
Definition png_refs (bucket_name : string) (p : page) : list ObjectRef :=
  omap (fun obj_name =>
          let name := default "" (or_none obj_name) in
          if ends_with ".png" (str_lower name)
          then Some {| bucket := bucket_name; key := name |}
          else None)
       (names p).

(** The loop.  [list_objects] is the backend call with its [prefix] and
    [start] arguments ([None]: no [start] is passed); [fuel] bounds the
    number of pages that are requested. *)
Fixpoint list_loop (list_objects : option string -> option string -> sdk_result page)
    (fuel : nat) (bucket_name : string) (prefix next_start : option string)
    (objects : list ObjectRef) : option (sdk_result (list ObjectRef)) :=
  match fuel with
  | O => None
  | S fuel' =>
      match list_objects prefix (or_none next_start) with
      | SdkReturn p =>
          let objects := (objects ++ png_refs bucket_name p)%list in
          if negb (opt_truthy (next_start_with p))
          then Some (SdkReturn objects)
          else list_loop list_objects fuel' bucket_name prefix
                 (next_start_with p) objects
      | SdkServiceError message str => Some (SdkServiceError message str)
      | SdkException str => Some (SdkException str)
      end
  end.

(** [list_png_objects] with its loop unfolded: [None] when [fuel] pages
    did not reach the end of the listing. *)
Definition list_png_objects_paged
    (list_objects : string -> string -> option string -> option string
                    -> sdk_result page)
    (fuel : nat) (self : OCIStorageClient) (bucket_name : string)
    (prefix : option string) : option (result (list ObjectRef)) :=
  list_png_objects self bucket_name prefix
    <$> list_loop (list_objects (namespace self) bucket_name)
          fuel bucket_name prefix None [].

(** The pages the backend serves from the cursor [start] up to the
    page without a cursor. *)
Fixpoint serves (list_objects : option string -> option string -> sdk_result page)
    (prefix start : option string) (pages : list page) : Prop :=
  match pages with
  | [] => False
  | p :: rest =>
      list_objects prefix (or_none start) = SdkReturn p
      /\ match rest with
         | [] => opt_truthy (next_start_with p) = false
         | _ :: _ => opt_truthy (next_start_with p) = true
                     /\ serves list_objects prefix (next_start_with p) rest
         end
  end.

(** The backend serves [pages] from the cursor [start], each naming a
    next page, and the call after them fails; [e] is what the handlers
    of [list_png_objects] make of that failure. *)
Fixpoint interrupted (list_objects : option string -> option string -> sdk_result page)
    (prefix start : option string) (pages : list page) (e : exn) : Prop :=
  match pages with
  | [] => wrap_sdk (list_objects prefix (or_none start)) = Raise e
  | p :: rest =>
      list_objects prefix (or_none start) = SdkReturn p
      /\ opt_truthy (next_start_with p) = true
      /\ interrupted list_objects prefix (next_start_with p) rest e
  end.

End WithBuiltins.

End Listing.

(** ** Vocabulary for the order of the calls of a run *)

Module Pipeline.
Import Config Storage Orchestrator.

(** The place of a call in the pipeline; records have none. *)
Definition step (e : event) : option nat :=
  match e with
  | Log _ _ => None
  | GetProfile _ => Some 0%nat
  | StorageInit => Some 1%nat
  | ListObjects _ _ => Some 2%nat
  | GeneratePresignedUrl _ _ => Some 3%nat
  | LinkIssued _ => Some 4%nat
  | GenerateCaption _ => Some 5%nat
  | CreateMediaContainer _ _ => Some 6%nat
  | Sleep _ => Some 7%nat
  | CheckContainerStatus _ => Some 8%nat
  | PublishContainer _ => Some 9%nat
  | DeleteObject _ => Some 10%nat
  | RevokeLink _ => Some 11%nat
  | SendTelegram _ _ _ => Some 12%nat
  end.

Definition steps (t : list event) : list nat := omap step t.

(** Strictly increasing, starting at [lo] or above. *)
Fixpoint ascending (lo : nat) (l : list nat) : bool :=
  match l with
  | [] => true
  | x :: l' => (lo <=? x)%nat && ascending (S x) l'
  end.

(** The calls that hand the image to another service: the caption
    request ([None]) and the container request with its text. *)
Definition media_calls (t : list event) : list (string * option string) :=
  omap (fun e => match e with
                 | GenerateCaption url => Some (url, None)
                 | CreateMediaContainer url text => Some (url, Some text)
                 | _ => None
                 end) t.

(** The caption [main] ends up with for the image at [url]: what
    [generate_caption] returns, and the empty string when captioning is
    disabled or fails. *)
Definition posted_text `{PyBuiltins} (w : World) (settings : Settings)
    (url : string) : string :=
  if enable_captioning settings then
    match (Caption.generate_caption settings url
             (image_get w) (messages_create w)).2 with
    | Ok text => text
    | Raise _ => ""
    end
  else "".

(** What the events [evs] hand out is nothing, or the URL of a link
    issued among them: to the captioner if captioning is enabled, and
    then to the platform with the caption as text. *)
Definition hands_out_link `{PyBuiltins} (w : World) (settings : Settings)
    (evs : list event) : Prop :=
  media_calls evs = []
  \/ exists par posted,
       LinkIssued par ∈ evs
       /\ media_calls evs
          = ((if enable_captioning settings then [(par_url par, None)] else [])
             ++ posted)%list
       /\ (posted = []
           \/ posted = [(par_url par, Some (posted_text w settings (par_url par)))]).

(** The objects whose deletion was requested. *)
Definition deletions (t : list event) : list ObjectRef :=
  omap (fun e => match e with DeleteObject obj => Some obj | _ => None end) t.

(** The exit status tells whether a thread was published; an exception
    leaves [main] only before that. *)
Definition verdict (out : result Z * run_state) : Prop :=
  match out.1 with
  | Ok code => code = (if bool_decide (thread_id out.2 = None) then 1 else 0)%Z
  | Raise _ => thread_id out.2 = None
  end.

(** The state of the blocks that work on the selected object [obj],
    up to the publication. *)
Definition pending (obj : ObjectRef) (st : run_state) : Prop :=
  thread_id st = None /\ selected_object st = Some obj
  /\ deletions (trace st) = [].

(** The end of a run that selected [obj]: the object is deleted if and
    only if a thread was published. *)
Definition settled (obj : ObjectRef) (out : result Z * run_state) : Prop :=
  verdict out /\ selected_object out.2 = Some obj
  /\ deletions (trace out.2)
     = (if bool_decide (thread_id out.2 = None) then [] else [obj]).

(** The end of a run that published nothing and deleted nothing. *)
Definition unpublished (out : result Z * run_state) : Prop :=
  verdict out /\ thread_id out.2 = None /\ deletions (trace out.2) = [].

End Pipeline.

(** ** Concrete inputs

    Environments, answers and worlds on which the definitions are run
    in the examples of the second part. *)

Module Examples.
Import Config Storage Orchestrator.

Definition three_objects : list ObjectRef :=
  [ {| bucket := "quotes"; key := "a.png" |};
    {| bucket := "quotes"; key := "b.png" |};
    {| bucket := "quotes"; key := "c.PNG" |} ].

Definition quote_png : ObjectRef := {| bucket := "quotes"; key := "a.png" |}.
Definition fra_client : OCIStorageClient :=
  {| namespace := "tenancy"; region := "eu-frankfurt-1" |}.
Definition backend_ok (d : par_details) : sdk_result (option par_data) :=
  SdkReturn (Some {| access_uri := Some "/p/token/n/tenancy/b/quotes/o/a.png";
                     data_id := "par-1" |}).

(** Environments. *)
Definition env_complete : gmap string string :=
  list_to_map [("THREADS_BUCKET", "quotes"); ("THREADS_ACCESS_TOKEN", "token");
               ("THREADS_USER_ID", "1789"); ("OCI_NAMESPACE", "tenancy");
               ("ANTHROPIC_API_KEY", "sk-key")].

Definition env_shouting : gmap string string :=
  <["THREADS_ENABLE_CAPTIONING" := " TRUE "]> env_complete.

Definition env_two_missing : gmap string string :=
  delete "THREADS_ACCESS_TOKEN" (delete "THREADS_BUCKET" env_complete).

(** Answers of the image host and of the language model. *)
Definition image_ok : response :=
  {| status_code := 200; text := ""; content := "PNG-bytes"; json := None |}.

Definition tool_use_only : list Caption.block :=
  [ {| Caption.block_type := Some "tool_use"; Caption.block_text := None |};
    {| Caption.block_type := Some "thinking"; Caption.block_text := None |} ].

Definition settings_default : Settings :=
  {| threads_access_token := "token"; threads_user_id := "1789";
     Config.bucket := "quotes"; object_prefix := None;
     media_wait_seconds := 30; presign_expiration_seconds := 900;
     anthropic_api_key := "sk-key"; claude_model := "claude-sonnet-4-5-20250929";
     claude_max_tokens := 120; caption_fallback := "Sharing today's inspiration";
     enable_captioning := true;
     telegram_bot_token := None; telegram_chat_id := None;
     oci_namespace := "tenancy"; oci_region := None; oci_profile := None |}.

(** Answers of the Threads API. *)
Definition json_response (status : Z) (body : pyval) : response :=
  {| status_code := status; text := "<body>"; content := ""; json := Some body |}.

Definition empty_object_200 : response := json_response 200 (PDict ∅).
Definition gateway_error_500 : response :=
  json_response 500 (PDict {[ "error" := PStr "Internal Server Error" ]}).
Definition graph_error_400 : response :=
  json_response 400
    (PDict {[ "error" := PDict {[ "message" := PStr "Invalid image URL" ]} ]}).
Definition bare_error_503 : response := json_response 503 (PDict ∅).

(** Worlds.  In [world_happy] every service answers as documented. *)
Definition sdk_ok : oci_sdk :=
  {| from_file := fun _ => SdkReturn (Some "eu-frankfurt-1");
     validate_config := fun _ => SdkReturn tt;
     ObjectStorageClient := fun _ => SdkReturn tt;
     get_namespace := SdkReturn "tenancy" |}.

Definition threads_ok (req : ThreadsApi.request) : http_outcome :=
  match req with
  | ThreadsApi.CreateContainer _ _ _ _ =>
      Response (json_response 200 (PDict {[ "id" := PStr "123" ]}))
  | ThreadsApi.PublishContainer _ _ _ =>
      Response (json_response 200 (PDict {[ "id" := PStr "999" ]}))
  | ThreadsApi.ContainerStatus _ _ =>
      Response (json_response 200 (PDict {[ "status" := PStr "FINISHED" ]}))
  | ThreadsApi.ProfileDetails _ _ =>
      Response (json_response 200
                  (PDict {[ "id" := PStr "1789"; "username" := PStr "quotes" ]}))
  end.

Definition world_happy : World :=
  {| environ := env_complete;
     sdk := sdk_ok;
     list_objects := SdkReturn three_objects;
     entropy := 3;
     now := 63800000000000000;
     now_name := 63800000000000020;
     create_preauthenticated_request := backend_ok;
     delete_answer := fun _ => SdkReturn tt;
     revoke_answer := fun _ => SdkReturn tt;
     threads := threads_ok;
     image_get := fun _ => Response image_ok;
     messages_create := fun _ =>
       Caption.ApiMessage
         [ {| Caption.block_type := Some "text";
              Caption.block_text := Some " Nice view " |} ];
     telegram := fun _ _ _ => Response (json_response 200 (PDict ∅)) |}.

(** The Threads host does not answer the container request in time. *)
Definition threads_timeout (req : ThreadsApi.request) : http_outcome :=
  match req with
  | ThreadsApi.CreateContainer _ _ _ _ => NoResponse "Read timed out"
  | _ => threads_ok req
  end.

Definition with_threads (send : ThreadsApi.request -> http_outcome)
    (w : World) : World :=
  {| environ := environ w; sdk := sdk w; list_objects := list_objects w;
     entropy := entropy w; now := now w; now_name := now_name w;
     create_preauthenticated_request := create_preauthenticated_request w;
     delete_answer := delete_answer w; revoke_answer := revoke_answer w;
     threads := send; image_get := image_get w;
     messages_create := messages_create w; telegram := telegram w |}.

Definition with_environ (env : gmap string string) (w : World) : World :=
  {| environ := env; sdk := sdk w; list_objects := list_objects w;
     entropy := entropy w; now := now w; now_name := now_name w;
     create_preauthenticated_request := create_preauthenticated_request w;
     delete_answer := delete_answer w; revoke_answer := revoke_answer w;
     threads := threads w; image_get := image_get w;
     messages_create := messages_create w; telegram := telegram w |}.

Definition world_timeout : World := with_threads threads_timeout world_happy.

(** The language model is unreachable. *)
Definition world_caption_fails : World :=
  {| environ := env_complete; sdk := sdk_ok;
     list_objects := SdkReturn three_objects; entropy := 3;
     now := 63800000000000000; now_name := 63800000000000020;
     create_preauthenticated_request := backend_ok;
     delete_answer := fun _ => SdkReturn tt;
     revoke_answer := fun _ => SdkReturn tt;
     threads := threads_ok;
     image_get := fun _ => Response image_ok;
     messages_create := fun _ => Caption.ApiError "Connection error.";
     telegram := fun _ _ _ => Response (json_response 200 (PDict ∅)) |}.

(** The object cannot be deleted, and neither can the link. *)
Definition world_delete_fails : World :=
  {| environ := env_complete; sdk := sdk_ok;
     list_objects := SdkReturn three_objects; entropy := 3;
     now := 63800000000000000; now_name := 63800000000000020;
     create_preauthenticated_request := backend_ok;
     delete_answer := fun _ => SdkServiceError (Some "NotAuthorizedOrNotFound") "404";
     revoke_answer := fun _ => SdkException "connection reset";
     threads := threads_ok;
     image_get := fun _ => Response image_ok;
     messages_create := fun _ => Caption.ApiMessage tool_use_only;
     telegram := fun _ _ _ => NoResponse "timed out" |}.

(** A negative wait is configured. *)
Definition world_no_wait : World :=
  with_environ (<["THREADS_MEDIA_WAIT_SECONDS" := "-5"]> env_complete) world_happy.

(** What the two environments load to. *)
Definition settings_complete : Settings :=
  Eval vm_compute in
    match @load_settings AsciiBuiltins.builtins env_complete with
    | Ok loaded => loaded
    | Raise _ => settings_default
    end.

Definition settings_no_wait : Settings :=
  Eval vm_compute in
    match @load_settings AsciiBuiltins.builtins
            (<["THREADS_MEDIA_WAIT_SECONDS" := "-5"]> env_complete) with
    | Ok loaded => loaded
    | Raise _ => settings_default
    end.

Definition env_no_user : gmap string string :=
  delete "THREADS_USER_ID" env_complete.

Definition issued_link : PreauthenticatedRequest :=
  {| par_bucket := "quotes"; par_id := "par-1";
     par_url := "https://objectstorage.eu-frankfurt-1.oraclecloud.com"
                +:+ "/p/token/n/tenancy/b/quotes/o/a.png" |}.

End Examples.

Module MoreExamples.
Import Config Storage Listing Orchestrator Examples.

(** A listing in two pages. *)
Definition page_one : page :=
  {| names := [Some "a.png"; Some "notes.txt"; None];
     next_start_with := Some "b.png" |}.
Definition page_two : page :=
  {| names := [Some "B.PNG"; Some "png"]; next_start_with := None |}.

Definition two_pages (ns bucket_name : string) (prefix start : option string)
    : sdk_result page :=
  match start with
  | None => SdkReturn page_one
  | Some _ => SdkReturn page_two
  end.

(** The second page cannot be fetched. *)
Definition second_page_fails (ns bucket_name : string)
    (prefix start : option string) : sdk_result page :=
  match start with
  | None => SdkReturn page_one
  | Some _ => SdkServiceError (Some "TooManyRequests") "429"
  end.

(** The profile request is answered with an array. *)
Definition threads_profile_array (req : ThreadsApi.request) : http_outcome :=
  match req with
  | ThreadsApi.ProfileDetails _ _ =>
      Response (json_response 200 (PList [PStr "quotes"]))
  | _ => threads_ok req
  end.

Definition world_profile_array : World :=
  with_threads threads_profile_array world_happy.

(** A required variable is missing and the Telegram credentials are
    in the environment. *)
Definition env_no_user_notified : gmap string string :=
  <["TELEGRAM_BOT_TOKEN" := "bot-token"]>
    (<["TELEGRAM_CHAT_ID" := "42"]> env_no_user).

(** The caption fails and the configured wait cannot be slept. *)
Definition world_overlong_wait : World :=
  with_environ (<["THREADS_MEDIA_WAIT_SECONDS" := "9223372037"]> env_complete)
    world_caption_fails.

(** An error page of 150 euro signs: 150 characters in 450 bytes. *)
Definition euro : string :=
  String (ascii_of_nat 226) (String (ascii_of_nat 130)
    (String (ascii_of_nat 172) EmptyString)).

Definition euros_150 : string := String.concat "" (replicate 150 euro).

Definition euro_error_404 : response :=
  {| status_code := 404; text := euros_150; content := ""; json := None |}.

End MoreExamples.

(** ** Statements of the specification that the code does not meet
    as they are worded; the second part refutes each and proves what
    holds instead. *)

Module AsStated.
Import Config.

(** "Container creation response lacking an id field always fails with
    PublishingError." *)
Definition missing_id_is_publishing_error : Prop :=
  forall (send : ThreadsApi.request -> http_outcome)
         (access_token user_id image_url caption : string)
         (r : response) (data : pyval),
    send (ThreadsApi.CreateContainer user_id image_url caption access_token)
      = Response r ->
    json r = Some data ->
    ThreadsApi.has_field data "id" = false ->
    exists why,
      ThreadsApi.create_media_container send access_token user_id image_url caption
      = Raise (ThreadsApiError why).

(** "Only the fixed truthy/falsy token sets are accepted; any other
    string fails loading." *)
Definition only_listed_tokens_accepted (B : PyBuiltins) : Prop :=
  forall (environ : gmap string string) (name value : string) (default : bool),
    environ !! name = Some value ->
    is_ok (_get_bool environ name default) = true ->
    value ∈ truthy_tokens \/ value ∈ falsy_tokens.

(** Whether the text of a configuration error mentions a variable. *)
Definition names (e : exn) (field : string) : bool :=
  match e with
  | RuntimeError msg | ValueError msg => str_contains field msg
  | InvalidLiteral lit => str_contains field lit
  | _ => false
  end.

(** "For all environment inputs missing a required field, configuration
    loading fails with ConfigurationError naming that field." *)
Definition missing_field_is_named (B : PyBuiltins) : Prop :=
  forall (environ : gmap string string) (field : string),
    field ∈ required_fields ->
    environ !! field = None \/ environ !! field = Some "" ->
    exists e, load_settings environ = Raise e /\ names e field = true.

(** A request to a remote service, or the construction of the storage
    client, which may make one. *)
Definition is_network_call (e : Orchestrator.event) : bool :=
  match e with
  | Orchestrator.Log _ _ | Orchestrator.Sleep _ | Orchestrator.LinkIssued _ => false
  | _ => true
  end.

(** "... and no network call is attempted." *)
Definition missing_field_makes_no_network_call (B : PyBuiltins) : Prop :=
  forall (w : Orchestrator.World) (field : string),
    field ∈ required_fields ->
    Orchestrator.environ w !! field = None
    \/ Orchestrator.environ w !! field = Some "" ->
    existsb is_network_call (Orchestrator.trace (Orchestrator.run w).2) = false.

End AsStated.

(** ** The checks of [load_settings], in the order in which the
    amended statement on missing variables lists them *)

Module ConfigChecks.
Import Config.

Section WithBuiltins.
Context `{PyBuiltins}.

(** What a check raises when it fails. *)
Definition failure {A} (r : result A) : option exn :=
  match r with
  | Ok _ => None
  | Raise e => Some e
  end.

(** The requirement on ANTHROPIC_API_KEY, which applies when the
    captioning flag was read as true. *)
Definition key_check (environ : gmap string string) : option exn :=
  match _get_bool environ "THREADS_ENABLE_CAPTIONING" true with
  | Ok true =>
      if str_truthy match environ !! "ANTHROPIC_API_KEY" with
                    | Some k => if str_truthy k then str_strip k else ""
                    | None => ""
                    end
      then None
      else Some (RuntimeError
             "ANTHROPIC_API_KEY must be set when THREADS_ENABLE_CAPTIONING is true")
  | _ => None
  end.

(** Numeric and boolean parsing, then the key requirement. *)
Definition preamble_checks (environ : gmap string string) : list (option exn) :=
  [ failure (int_env environ "THREADS_MEDIA_WAIT_SECONDS" "30");
    failure (int_env environ "THREADS_PRESIGN_EXPIRATION_SECONDS" "900");
    failure (int_env environ "THREADS_CLAUDE_MAX_TOKENS" "120");
    failure (_get_bool environ "THREADS_ENABLE_CAPTIONING" true);
    key_check environ ].

(** The presence checks of the given required variables. *)
Definition required_checks (environ : gmap string string)
    (fields : list string) : list (option exn) :=
  (fun field => failure (_get_env environ field None)) <$> fields.

(** The error of the first check that fails, if any does. *)
Definition first_failure (environ : gmap string string) : option exn :=
  head (omap id (preamble_checks environ
                 ++ required_checks environ required_fields)%list).

End WithBuiltins.
End ConfigChecks.

(** * Properties *)

(** ** Strings *)

Lemma is_prefix_app p s : is_prefix p (p +:+ s) = true.
Proof.
  induction p as [|a p IH]; simpl; [done|].
  by rewrite Ascii.eqb_refl, IH.
Qed.

Lemma str_contains_prefix needle hay :
  is_prefix needle hay = true -> str_contains needle hay = true.
Proof. intros Hp. destruct hay; simpl; by rewrite Hp. Qed.

Lemma str_contains_app pre needle post :
  str_contains needle (pre +:+ needle +:+ post) = true.
Proof.
  induction pre as [|a pre IH].
  - change (str_contains needle (needle +:+ post) = true).
    apply str_contains_prefix, is_prefix_app.
  - change (str_contains needle (String a (pre +:+ needle +:+ post)) = true).
    simpl. rewrite IH. apply orb_true_r.
Qed.

Lemma str_truthy_spec s : str_truthy s = true <-> s <> "".
Proof.
  unfold str_truthy. destruct (String.eqb_spec s ""); simpl; split; congruence.
Qed.

(** ** Storage: random selection and link expiry *)

Module StorageFacts.
Import Storage Examples.

Lemma nth_mod_elem {A} (l : list A) (n : nat) (d : A) :
  l <> [] -> nth (n mod length l)%nat l d ∈ l.
Proof.
  intros Hne. apply list_elem_of_In, nth_In.
  apply Nat.mod_upper_bound. destruct l; simpl; [done | lia].
Qed.

(** C4. Selection from an empty list fails with a storage error;
    selection from a non-empty list returns one of its members,
    whatever the random generator draws. *)
Theorem choose_random_object_member (objects : list ObjectRef) (entropy : nat) :
  (objects = [] ->
     exists msg, choose_random_object objects entropy = Raise (OCIStorageError msg))
  /\ (objects <> [] ->
     exists o, choose_random_object objects entropy = Ok o /\ o ∈ objects).
Proof.
  split.
  - intros ->. by eexists.
  - intros Hne. destruct objects as [|first rest]; [done|].
    eexists; split; [reflexivity|].
    by apply nth_mod_elem.
Qed.

Lemma choose_random_object_member_witness :
  (exists msg, choose_random_object [] 5 = Raise (OCIStorageError msg))
  /\ (exists o, choose_random_object three_objects 5 = Ok o /\ o ∈ three_objects).
Proof.
  split.
  - apply (proj1 (choose_random_object_member [] 5)). reflexivity.
  - apply (proj2 (choose_random_object_member three_objects 5)). discriminate.
Defined.

Example choose_third : choose_random_object three_objects 5
                       = Ok {| bucket := "quotes"; key := "c.PNG" |}.
Proof. reflexivity. Qed.

Lemma presign_request_spec obj e now now_name details :
  presign_request obj e now now_name = Ok details ->
  time_expires details = (now + Z.max e 1 * 1000000)%Z
  /\ name_stamp details = now_name
  /\ object_name details = key obj.
Proof.
  unfold presign_request, timedelta_seconds, datetime_add.
  destruct (Z.abs _ <=? _)%Z; simpl; [|done].
  destruct (_ && _); simpl; [|done].
  by intros [= <-].
Qed.

(** The request is built whenever the expiry is a representable date;
    otherwise the arithmetic raises [OverflowError]. *)
Lemma presign_request_total obj e now now_name :
  (0 <= now)%Z -> (now + Z.max e 1 * 1000000 <= max_datetime)%Z ->
  is_ok (presign_request obj e now now_name) = true.
Proof.
  intros Hnow Hmax. unfold presign_request, timedelta_seconds, datetime_add.
  assert (Hd : (Z.abs (Z.max e 1 / 86400) <=? max_timedelta_days)%Z = true).
  { apply Z.leb_le. unfold max_datetime, max_timedelta_days in *.
    assert (0 <= Z.max e 1 / 86400)%Z by (apply Z.div_pos; lia).
    rewrite Z.abs_eq by done.
    apply Z.div_le_upper_bound; lia. }
  rewrite Hd. simpl.
  assert (Hr : ((0 <=? now + Z.max e 1 * 1000000)
                && (now + Z.max e 1 * 1000000 <=? max_datetime))%Z = true).
  { apply andb_true_iff; split; apply Z.leb_le; lia. }
  by rewrite Hr.
Qed.

(** C6. Whenever a link is issued, the expiry sent to the backend is
    the clock reading plus [max(duration, 1)] seconds: strictly later
    than the creation time, and at least the requested duration later. *)
Theorem presigned_expiry (self : OCIStorageClient) (obj : ObjectRef)
    (expires_in_seconds now now_name : Z)
    (backend : par_details -> sdk_result (option par_data))
    (par : PreauthenticatedRequest) :
  generate_presigned_url self obj expires_in_seconds now now_name backend = Ok par ->
  exists details data,
    presign_request obj expires_in_seconds now now_name = Ok details
    /\ backend details = SdkReturn (Some data)
    /\ par_id par = data_id data
    /\ time_expires details = (now + Z.max expires_in_seconds 1 * 1000000)%Z
    /\ (now < time_expires details)%Z
    /\ (now + expires_in_seconds * 1000000 <= time_expires details)%Z.
Proof.
  unfold generate_presigned_url.
  destruct (presign_request _ _ _ _) as [details|] eqn:Hreq; simpl; [|done].
  destruct (backend details) as [[data|]| |] eqn:Hb; simpl; try done.
  destruct (opt_truthy (access_uri data)); [|done].
  intros [= <-]. exists details, data.
  apply presign_request_spec in Hreq as (Hexp & _ & _).
  rewrite Hexp. simpl. repeat split; try done; lia.
Qed.

Lemma presigned_expiry_witness :
  exists par details,
    generate_presigned_url fra_client quote_png (-5) 1000 1001 backend_ok = Ok par
    /\ presign_request quote_png (-5) 1000 1001 = Ok details
    /\ time_expires details = 1001000%Z.
Proof.
  eexists _.
  destruct (presigned_expiry fra_client quote_png (-5) 1000 1001 backend_ok _ eq_refl)
    as (details & data & Hreq & _ & _ & Hexp & _).
  exists details. repeat split; [exact Hreq | exact Hexp].
Defined.

End StorageFacts.

(** ** Threads API: responses without an id *)

Module ThreadsApiFacts.
Import ThreadsApi Examples.

Lemma handle_response_ok r data :
  json r = Some data -> (status_code r < 400)%Z -> _handle_response r = Ok data.
Proof.
  intros Hj Hs. unfold _handle_response. rewrite Hj.
  destruct (Z.leb_spec 400 (status_code r)); [lia | done].
Qed.

Lemma handle_response_status r d :
  json r = Some (PDict d) -> (400 <= status_code r)%Z ->
  _handle_response r =
    match from_option id (PDict ∅) (d !! "error") with
    | PDict e =>
        Raise (ThreadsApiError
                 (ApiStatus (status_code r)
                    (from_option id (PStr (text r)) (e !! "message"))))
    | _ => Raise AttributeError
    end.
Proof.
  intros Hj Hs. unfold _handle_response. rewrite Hj.
  destruct (Z.leb_spec 400 (status_code r)); [|lia].
  simpl. by destruct (from_option id (PDict ∅) (d !! "error")).
Qed.

(** An error status whose body has an [error] member that is not an
    object: [_handle_response] calls [.get] on that member while it
    builds the message of the error it is about to raise. *)
Lemma handle_response_error_not_object r d v :
  json r = Some (PDict d) -> (400 <= status_code r)%Z ->
  d !! "error" = Some v -> (forall e, v <> PDict e) ->
  _handle_response r = Raise AttributeError.
Proof.
  intros Hj Hs He Hv. rewrite (handle_response_status r d Hj Hs), He. simpl.
  destruct v; try done. by destruct (Hv d0).
Qed.

(** C5 at a failing input.  The host answers the container request
    with status 500 and the body {"error": "Internal Server Error"}: a
    parsed object without [id].  [_handle_response] is about to raise
    the [ThreadsApiError] of the status, calls [.get] on the string to
    build its message, and [AttributeError] leaves
    [create_media_container] instead; so the claim, which asks for a
    [ThreadsApiError] on every body without [id], fails of the code. *)
Theorem error_string_escapes_as_attribute_error :
  json gateway_error_500
  = Some (PDict {[ "error" := PStr "Internal Server Error" ]})
  /\ has_field (PDict {[ "error" := PStr "Internal Server Error" ]}) "id" = false
  /\ create_media_container (fun _ => Response gateway_error_500)
       "token" "user" "https://host/a.png" "" = Raise AttributeError
  /\ ~ AsStated.missing_id_is_publishing_error.
Proof.
  split; [reflexivity|]. split; [reflexivity|].
  split; [vm_compute; reflexivity|].
  intros Hclaim.
  destruct (Hclaim (fun _ => Response gateway_error_500)
              "token" "user" "https://host/a.png" "" gateway_error_500
              (PDict {[ "error" := PStr "Internal Server Error" ]})
              eq_refl eq_refl eq_refl) as [why Hwhy].
  vm_compute in Hwhy. discriminate Hwhy.
Qed.

(** Where the code does what the claim asks.  A response whose parsed
    body is an object without [id] makes container creation fail with a
    [ThreadsApiError]: the missing-id error when the status is below
    400, the status error when the status is 400 or more and the
    [error] member is absent or an object. *)
Lemma create_container_without_id
    (send : request -> http_outcome)
    (access_token user_id image_url caption : string)
    (r : response) (d : gmap string pyval) :
  send (CreateContainer user_id image_url caption access_token) = Response r ->
  json r = Some (PDict d) ->
  d !! "id" = None ->
  ((status_code r < 400)%Z ->
     create_media_container send access_token user_id image_url caption
     = Raise (ThreadsApiError NoContainerId))
  /\ ((400 <= status_code r)%Z -> d !! "error" = None ->
     create_media_container send access_token user_id image_url caption
     = Raise (ThreadsApiError (ApiStatus (status_code r) (PStr (text r)))))
  /\ ((400 <= status_code r)%Z ->
      forall e, d !! "error" = Some (PDict e) ->
     create_media_container send access_token user_id image_url caption
     = Raise (ThreadsApiError
                (ApiStatus (status_code r)
                   (from_option id (PStr (text r)) (e !! "message"))))).
Proof.
  intros Hsend Hj Hid. unfold create_media_container, perform.
  rewrite Hsend. simpl. repeat split.
  - intros Hs. rewrite (handle_response_ok r _ Hj Hs). simpl. by rewrite Hid.
  - intros Hs He. rewrite (handle_response_status r d Hj Hs), He. done.
  - intros Hs e He. rewrite (handle_response_status r d Hj Hs), He. done.
Qed.

Example create_container_without_id_cases :
  create_media_container (fun _ => Response empty_object_200)
    "token" "user" "https://host/a.png" "Nice view"
  = Raise (ThreadsApiError NoContainerId)
  /\ create_media_container (fun _ => Response bare_error_503)
       "token" "user" "https://host/a.png" "Nice view"
     = Raise (ThreadsApiError (ApiStatus 503 (PStr "<body>")))
  /\ create_media_container (fun _ => Response graph_error_400)
       "token" "user" "https://host/a.png" "Nice view"
     = Raise (ThreadsApiError (ApiStatus 400 (PStr "Invalid image URL"))).
Proof.
  split; [|split].
  - apply (create_container_without_id (fun _ => Response empty_object_200)
             "token" "user" "https://host/a.png" "Nice view"
             empty_object_200 ∅ eq_refl eq_refl eq_refl).
    simpl. lia.
  - apply (create_container_without_id (fun _ => Response bare_error_503)
             "token" "user" "https://host/a.png" "Nice view"
             bare_error_503 ∅ eq_refl eq_refl eq_refl).
    + simpl. lia.
    + reflexivity.
  - apply (proj2 (proj2 (create_container_without_id
             (fun _ => Response graph_error_400)
             "token" "user" "https://host/a.png" "Nice view"
             graph_error_400 _ eq_refl eq_refl eq_refl))
             ltac:(simpl; lia) {[ "message" := PStr "Invalid image URL" ]} eq_refl).
Defined.

End ThreadsApiFacts.

(** ** Configuration loading *)

Module ConfigFacts.
Import Config Examples.

Section WithBuiltins.
Context `{PyBuiltins}.

Lemma tokens_disjoint t : t ∈ falsy_tokens -> t ∉ truthy_tokens.
Proof.
  unfold falsy_tokens, truthy_tokens.
  rewrite !elem_of_union, !elem_of_singleton.
  intros [[[->| ->]| ->]| ->] [[[?|?]|?]|?]; discriminate.
Qed.

Lemma get_bool_absent environ name default :
  environ !! name = None -> _get_bool environ name default = Ok default.
Proof. intros Hn. unfold _get_bool. by rewrite Hn. Qed.

Lemma get_bool_present environ name default value :
  environ !! name = Some value ->
  let token := str_lower (str_strip value) in
  (token ∈ truthy_tokens -> _get_bool environ name default = Ok true)
  /\ (token ∈ falsy_tokens -> _get_bool environ name default = Ok false)
  /\ (token ∉ truthy_tokens -> token ∉ falsy_tokens ->
      _get_bool environ name default
      = Raise (ValueError ("Invalid boolean value for " +:+ name +:+ ": " +:+ token))).
Proof.
  intros Hv token. unfold _get_bool. rewrite Hv. fold token.
  repeat split.
  - intros Ht. by rewrite bool_decide_eq_true_2.
  - intros Hf. rewrite bool_decide_eq_false_2 by by apply tokens_disjoint.
    by rewrite bool_decide_eq_true_2.
  - intros Ht Hf. by rewrite !bool_decide_eq_false_2.
Qed.

Lemma get_env_ok environ name value :
  _get_env environ name None = Ok value <-> environ !! name = Some value /\ value <> "".
Proof.
  unfold _get_env, environ_get. destruct (environ !! name) as [v|]; [|split; [done | by intros [? _]]].
  destruct (String.eqb_spec v ""); split.
  - done.
  - intros [[= ->] ?]. done.
  - by intros [= ->].
  - by intros [[= ->] _].
Qed.

Lemma get_env_missing environ name :
  environ !! name = None \/ environ !! name = Some "" ->
  _get_env environ name None
  = Raise (RuntimeError ("Missing required environment variable: " +:+ name)).
Proof. intros [Hn|Hn]; unfold _get_env, environ_get; by rewrite Hn. Qed.

Lemma get_env_cases environ name :
  (exists value, _get_env environ name None = Ok value)
  \/ _get_env environ name None
     = Raise (RuntimeError ("Missing required environment variable: " +:+ name)).
Proof.
  unfold _get_env, environ_get. destruct (environ !! name) as [v|]; [|by right].
  destruct (String.eqb v ""); [by right | left; by eexists].
Qed.

Lemma int_env_cases environ name default :
  (exists n, int_env environ name default = Ok n)
  \/ (exists lit, int_env environ name default = Raise (InvalidLiteral lit)).
Proof.
  unfold int_env. destruct (py_int _); [left | right]; by eexists.
Qed.

Lemma get_bool_cases environ name default :
  (exists b, _get_bool environ name default = Ok b)
  \/ (exists msg, _get_bool environ name default = Raise (ValueError msg)).
Proof.
  unfold _get_bool. destruct (environ !! name); [|left; by eexists].
  repeat case_bool_decide; first [left; by eexists | right; by eexists].
Qed.

(** Loading fails only with the errors that [main] reports as a
    configuration error. *)
Lemma load_settings_error_kind environ e :
  load_settings environ = Raise e ->
  Orchestrator.is_runtime_or_value_error e = true.
Proof.
  unfold load_settings.
  destruct (int_env_cases environ "THREADS_MEDIA_WAIT_SECONDS" "30")
    as [[? ->]|[? ->]]; simpl; [|by intros [= <-]].
  destruct (int_env_cases environ "THREADS_PRESIGN_EXPIRATION_SECONDS" "900")
    as [[? ->]|[? ->]]; simpl; [|by intros [= <-]].
  destruct (int_env_cases environ "THREADS_CLAUDE_MAX_TOKENS" "120")
    as [[? ->]|[? ->]]; simpl; [|by intros [= <-]].
  destruct (get_bool_cases environ "THREADS_ENABLE_CAPTIONING" true)
    as [[? ->]|[? ->]]; simpl; [|by intros [= <-]].
  destruct (_ && _); [by intros [= <-]|].
  destruct (get_env_cases environ "THREADS_BUCKET") as [[? ->]| ->];
    simpl; [|by intros [= <-]].
  destruct (get_env_cases environ "THREADS_ACCESS_TOKEN") as [[? ->]| ->];
    simpl; [|by intros [= <-]].
  destruct (get_env_cases environ "THREADS_USER_ID") as [[? ->]| ->];
    simpl; [|by intros [= <-]].
  destruct (get_env_cases environ "OCI_NAMESPACE") as [[? ->]| ->];
    simpl; [|by intros [= <-]].
  done.
Qed.

(** A successful load has read every required variable. *)
Lemma load_settings_required environ settings field :
  load_settings environ = Ok settings ->
  field ∈ required_fields ->
  exists value, environ !! field = Some value /\ value <> "".
Proof.
  unfold load_settings.
  destruct (int_env environ "THREADS_MEDIA_WAIT_SECONDS" "30"); simpl; [|done].
  destruct (int_env environ "THREADS_PRESIGN_EXPIRATION_SECONDS" "900"); simpl; [|done].
  destruct (int_env environ "THREADS_CLAUDE_MAX_TOKENS" "120"); simpl; [|done].
  destruct (_get_bool environ "THREADS_ENABLE_CAPTIONING" true); simpl; [|done].
  destruct (_ && _); [done|].
  destruct (_get_env environ "THREADS_BUCKET" None) as [b|] eqn:Hb; simpl; [|done].
  destruct (_get_env environ "THREADS_ACCESS_TOKEN" None) as [t|] eqn:Ht; simpl; [|done].
  destruct (_get_env environ "THREADS_USER_ID" None) as [u|] eqn:Hu; simpl; [|done].
  destruct (_get_env environ "OCI_NAMESPACE" None) as [n|] eqn:Hn; simpl; [|done].
  intros _ Hin. unfold required_fields in Hin.
  apply get_env_ok in Hb, Ht, Hu, Hn.
  repeat (apply elem_of_cons in Hin as [->|Hin]; [by eexists|]).
  by apply elem_of_nil in Hin.
Qed.

Lemma int_env_insert_ne environ field value name default :
  field <> name ->
  int_env (<[field := value]> environ) name default = int_env environ name default.
Proof. intros Hne. unfold int_env. by rewrite lookup_insert_ne. Qed.

Lemma get_bool_insert_ne environ field value name default :
  field <> name ->
  _get_bool (<[field := value]> environ) name default = _get_bool environ name default.
Proof. intros Hne. unfold _get_bool. by rewrite lookup_insert_ne. Qed.

Lemma get_env_insert_ne environ field value name :
  field <> name ->
  _get_env (<[field := value]> environ) name None = _get_env environ name None.
Proof. intros Hne. unfold _get_env, environ_get. by rewrite lookup_insert_ne. Qed.

(** The part of [load_settings] that precedes the required variables. *)
Ltac load_preamble environ :=
  destruct (int_env environ "THREADS_MEDIA_WAIT_SECONDS" "30");
    simpl; [|done];
  destruct (int_env environ "THREADS_PRESIGN_EXPIRATION_SECONDS" "900");
    simpl; [|done];
  destruct (int_env environ "THREADS_CLAUDE_MAX_TOKENS" "120");
    simpl; [|done];
  destruct (_get_bool environ "THREADS_ENABLE_CAPTIONING" true);
    simpl; [|done];
  destruct (_ && _); [done|].

(** If giving the variable a value makes the environment load, then
    without it the error is the one of that variable. *)
Lemma load_settings_only_fault environ field value settings :
  field ∈ required_fields ->
  environ !! field = None \/ environ !! field = Some "" ->
  load_settings (<[field := value]> environ) = Ok settings ->
  load_settings environ
  = Raise (RuntimeError ("Missing required environment variable: " +:+ field)).
Proof.
  intros Hin Hmiss. apply get_env_missing in Hmiss. revert Hmiss.
  unfold required_fields in Hin.
  apply elem_of_cons in Hin as [->|Hin];
    [|apply elem_of_cons in Hin as [->|Hin];
      [|apply elem_of_cons in Hin as [->|Hin];
        [|apply elem_of_cons in Hin as [->|Hin];
          [|by apply elem_of_nil in Hin]]]];
    intros Hmiss; unfold load_settings;
    rewrite !int_env_insert_ne, get_bool_insert_ne by done;
    rewrite (lookup_insert_ne _ _ "ANTHROPIC_API_KEY") by done;
    rewrite ?(get_env_insert_ne _ _ _ "THREADS_BUCKET") by done;
    rewrite ?(get_env_insert_ne _ _ _ "THREADS_ACCESS_TOKEN") by done;
    rewrite ?(get_env_insert_ne _ _ _ "THREADS_USER_ID") by done;
    rewrite ?(get_env_insert_ne _ _ _ "OCI_NAMESPACE") by done;
    load_preamble environ.
  - by rewrite Hmiss.
  - destruct (_get_env environ "THREADS_BUCKET" None); simpl; [|done].
    by rewrite Hmiss.
  - destruct (_get_env environ "THREADS_BUCKET" None); simpl; [|done].
    destruct (_get_env environ "THREADS_ACCESS_TOKEN" None); simpl; [|done].
    by rewrite Hmiss.
  - destruct (_get_env environ "THREADS_BUCKET" None); simpl; [|done].
    destruct (_get_env environ "THREADS_ACCESS_TOKEN" None); simpl; [|done].
    destruct (_get_env environ "THREADS_USER_ID" None); simpl; [|done].
    by rewrite Hmiss.
Qed.

Lemma load_settings_enable environ settings :
  load_settings environ = Ok settings ->
  _get_bool environ "THREADS_ENABLE_CAPTIONING" true
  = Ok (enable_captioning settings).
Proof.
  unfold load_settings.
  destruct (int_env environ "THREADS_MEDIA_WAIT_SECONDS" "30"); simpl; [|done].
  destruct (int_env environ "THREADS_PRESIGN_EXPIRATION_SECONDS" "900"); simpl; [|done].
  destruct (int_env environ "THREADS_CLAUDE_MAX_TOKENS" "120"); simpl; [|done].
  destruct (_get_bool environ "THREADS_ENABLE_CAPTIONING" true); simpl; [|done].
  destruct (_ && _); [done|].
  destruct (_get_env environ "THREADS_BUCKET" None); simpl; [|done].
  destruct (_get_env environ "THREADS_ACCESS_TOKEN" None); simpl; [|done].
  destruct (_get_env environ "THREADS_USER_ID" None); simpl; [|done].
  destruct (_get_env environ "OCI_NAMESPACE" None); simpl; [|done].
  by intros [= <-].
Qed.

(** [load_settings] fails exactly with the error of the first of its
    checks that fails, in the order of [preamble_checks] and
    [required_fields]. *)
Lemma load_settings_first_failure environ :
  ConfigChecks.failure (load_settings environ) = ConfigChecks.first_failure environ.
Proof.
  unfold ConfigChecks.first_failure, ConfigChecks.preamble_checks,
    ConfigChecks.required_checks, ConfigChecks.key_check, required_fields,
    load_settings.
  destruct (int_env environ "THREADS_MEDIA_WAIT_SECONDS" "30"); simpl; [|done].
  destruct (int_env environ "THREADS_PRESIGN_EXPIRATION_SECONDS" "900");
    simpl; [|done].
  destruct (int_env environ "THREADS_CLAUDE_MAX_TOKENS" "120"); simpl; [|done].
  destruct (_get_bool environ "THREADS_ENABLE_CAPTIONING" true) as [[|]|];
    simpl; [| |done].
  - destruct (str_truthy _); simpl; [|done].
    destruct (_get_env environ "THREADS_BUCKET" None); simpl; [|done].
    destruct (_get_env environ "THREADS_ACCESS_TOKEN" None); simpl; [|done].
    destruct (_get_env environ "THREADS_USER_ID" None); simpl; [|done].
    by destruct (_get_env environ "OCI_NAMESPACE" None).
  - destruct (_get_env environ "THREADS_BUCKET" None); simpl; [|done].
    destruct (_get_env environ "THREADS_ACCESS_TOKEN" None); simpl; [|done].
    destruct (_get_env environ "THREADS_USER_ID" None); simpl; [|done].
    by destruct (_get_env environ "OCI_NAMESPACE" None).
Qed.

Lemma passed_checks_raise_nothing (checks : list (option exn)) :
  Forall (fun check => check = None) checks -> omap id checks = [].
Proof.
  induction 1 as [|check checks -> _ IH]; [done|]. exact IH.
Qed.

(** When every check before the one of a missing variable passes, the
    error is the one of that variable. *)
Lemma load_settings_names_first_missing environ field pre post :
  required_fields = (pre ++ field :: post)%list ->
  environ !! field = None \/ environ !! field = Some "" ->
  Forall (fun check => check = None)
    (ConfigChecks.preamble_checks environ
     ++ ConfigChecks.required_checks environ pre)%list ->
  load_settings environ
  = Raise (RuntimeError ("Missing required environment variable: " +:+ field)).
Proof.
  intros Hfields Hmiss Hpass.
  pose proof (load_settings_first_failure environ) as Hfirst.
  unfold ConfigChecks.first_failure in Hfirst. rewrite Hfields in Hfirst.
  unfold ConfigChecks.required_checks in Hfirst, Hpass.
  rewrite fmap_app, app_assoc, omap_app in Hfirst.
  rewrite (passed_checks_raise_nothing _ Hpass) in Hfirst.
  rewrite fmap_cons, (get_env_missing _ _ Hmiss) in Hfirst. simpl in Hfirst.
  destruct (load_settings environ); [done|]. by injection Hfirst as ->.
Qed.

(** C8, amended. A boolean setting is read through its normal form:
    the value with surrounding whitespace stripped and in lower case.
    Reading yields true when the normal form is a truthy token, false
    when it is a falsy token, and fails otherwise; an absent variable
    yields the default.  So [load_settings] succeeds only if
    THREADS_ENABLE_CAPTIONING is absent (captioning on) or has a
    listed normal form (captioning as the token says). *)
Theorem boolean_setting_tokens (environ : gmap string string)
    (name : string) (default : bool) :
  (environ !! name = None -> _get_bool environ name default = Ok default)
  /\ (forall value, environ !! name = Some value ->
       let token := str_lower (str_strip value) in
       (token ∈ truthy_tokens -> _get_bool environ name default = Ok true)
       /\ (token ∈ falsy_tokens -> _get_bool environ name default = Ok false)
       /\ (token ∉ truthy_tokens -> token ∉ falsy_tokens ->
           is_ok (_get_bool environ name default) = false))
  /\ (forall settings, load_settings environ = Ok settings ->
       match environ !! "THREADS_ENABLE_CAPTIONING" with
       | None => enable_captioning settings = true
       | Some value =>
           let token := str_lower (str_strip value) in
           (token ∈ truthy_tokens /\ enable_captioning settings = true)
           \/ (token ∈ falsy_tokens /\ enable_captioning settings = false)
       end).
Proof.
  split; [apply get_bool_absent|]. split.
  - intros value Hv token.
    destruct (get_bool_present environ name default value Hv) as (Ht & Hf & Hn).
    repeat split; [done | done |]. intros ? ?. fold token in Hn. by rewrite Hn.
  - intros settings Hload. apply load_settings_enable in Hload.
    destruct (environ !! "THREADS_ENABLE_CAPTIONING") as [value|] eqn:Hv.
    + destruct (get_bool_present environ _ true value Hv) as (Ht & Hf & Hn).
      intros token. fold token in Ht, Hf, Hn.
      destruct (decide (token ∈ truthy_tokens)) as [Hin|Hnin].
      { left. split; [done|]. rewrite (Ht Hin) in Hload. by injection Hload. }
      destruct (decide (token ∈ falsy_tokens)) as [Hin'|Hnin'].
      { right. split; [done|]. rewrite (Hf Hin') in Hload. by injection Hload. }
      rewrite (Hn Hnin Hnin') in Hload. done.
    + rewrite (get_bool_absent _ _ _ Hv) in Hload. by injection Hload.
Qed.

End WithBuiltins.

Lemma boolean_setting_tokens_witness :
  @_get_bool AsciiBuiltins.builtins env_shouting "THREADS_ENABLE_CAPTIONING" false
  = Ok true
  /\ @_get_bool AsciiBuiltins.builtins env_complete "THREADS_ENABLE_CAPTIONING" false
     = Ok false.
Proof.
  pose proof (@boolean_setting_tokens AsciiBuiltins.builtins env_shouting
                "THREADS_ENABLE_CAPTIONING" false) as (_ & Hpresent & _).
  pose proof (@boolean_setting_tokens AsciiBuiltins.builtins env_complete
                "THREADS_ENABLE_CAPTIONING" false) as (Habsent & _ & _).
  split.
  - apply (Hpresent " TRUE " eq_refl). vm_compute. set_solver.
  - apply Habsent. reflexivity.
Defined.

(** C8, as worded, does not hold: " TRUE " is in neither token set
    and is read as true. *)
Lemma unlisted_token_accepted :
  ~ AsStated.only_listed_tokens_accepted AsciiBuiltins.builtins.
Proof.
  intros Hclaim.
  destruct (Hclaim env_shouting "THREADS_ENABLE_CAPTIONING" " TRUE " true
              eq_refl eq_refl) as [Hin|Hin];
    unfold truthy_tokens, falsy_tokens in Hin;
    rewrite !elem_of_union, !elem_of_singleton in Hin;
    destruct Hin as [[[?|?]|?]|?]; discriminate.
Qed.

Example shouting_environment_loads :
  is_ok (@load_settings AsciiBuiltins.builtins env_shouting) = true.
Proof. vm_compute. reflexivity. Qed.

End ConfigFacts.

(** ** Caption generation *)

Module CaptionFacts.
Import Caption Examples.

Section WithBuiltins.
Context `{PyBuiltins}.

Lemma caption_parts_no_text content :
  Forall (fun b => block_type b <> Some "text") content ->
  caption_parts content = [].
Proof.
  intros Hall. unfold caption_parts.
  induction Hall as [|b content Hb _ IH]; [done|].
  rewrite filter_cons_False; [exact IH|].
  unfold is_text_block. rewrite bool_decide_eq_false_2 by done. simpl. tauto.
Qed.

(** The fallback is used whenever the joined text is empty. *)
Lemma generate_caption_no_parts `{ClaudeConfig C} (config : C) image_url get create
    image content :
  _download_image_bytes get image_url = Ok image ->
  create {| req_api_key := anthropic_api_key config;
            req_model := claude_model config;
            req_max_tokens := claude_max_tokens config;
            req_image := image |} = ApiMessage content ->
  caption_parts content = [] ->
  generate_caption config image_url get create
  = ([(WARNING, "Claude returned no text content; using fallback caption")],
     Ok (caption_fallback config)).
Proof.
  intros Hget Hcreate Hparts. unfold generate_caption.
  rewrite Hget, Hcreate, Hparts. simpl. by rewrite str_strip_empty.
Qed.

(** C9. When the model's answer has no text segment, caption generation
    logs one warning and returns exactly the configured fallback. *)
Theorem generate_caption_fallback `{ClaudeConfig C} (config : C)
    (image_url : string) (get : string -> http_outcome)
    (create : messages_request -> api_outcome)
    (image : string) (content : list block) :
  _download_image_bytes get image_url = Ok image ->
  create {| req_api_key := anthropic_api_key config;
            req_model := claude_model config;
            req_max_tokens := claude_max_tokens config;
            req_image := image |} = ApiMessage content ->
  Forall (fun b => block_type b <> Some "text") content ->
  generate_caption config image_url get create
  = ([(WARNING, "Claude returned no text content; using fallback caption")],
     Ok (caption_fallback config)).
Proof.
  intros Hget Hcreate Hall.
  by apply (generate_caption_no_parts _ _ _ _ image content), caption_parts_no_text.
Qed.

End WithBuiltins.

Lemma generate_caption_fallback_witness :
  @generate_caption AsciiBuiltins.builtins _ _ settings_default
    "https://host/a.png" (fun _ => Response image_ok)
    (fun _ => ApiMessage tool_use_only)
  = ([(WARNING, "Claude returned no text content; using fallback caption")],
     Ok "Sharing today's inspiration").
Proof.
  assert (Hnone : Forall (fun b => block_type b <> Some "text") tool_use_only)
    by (repeat constructor; discriminate).
  exact (@generate_caption_fallback AsciiBuiltins.builtins _ _ settings_default
           "https://host/a.png" (fun _ => Response image_ok)
           (fun _ => ApiMessage tool_use_only) "PNG-bytes" tool_use_only
           eq_refl eq_refl Hnone).
Defined.

End CaptionFacts.

(** ** The orchestrator *)

Module OrchestratorFacts.
Import Config Storage Orchestrator.

Lemma issued_app t1 t2 : issued (t1 ++ t2) = (issued t1 ++ issued t2)%list.
Proof. apply omap_app. Qed.
Lemma revoked_app t1 t2 : revoked (t1 ++ t2) = (revoked t1 ++ revoked t2)%list.
Proof. apply omap_app. Qed.
Lemma sleeps_app t1 t2 : sleeps (t1 ++ t2) = (sleeps t1 ++ sleeps t2)%list.
Proof. apply omap_app. Qed.

Lemma notifications_silent t :
  forallb is_notification t = true ->
  issued t = [] /\ revoked t = [] /\ sleeps t = [].
Proof.
  induction t as [|e t IH]; [done|]. simpl.
  intros [He Ht]%andb_true_iff. destruct (IH Ht) as (Hi & Hr & Hs).
  destruct e; try discriminate; simpl; by rewrite ?Hi, ?Hr, ?Hs.
Qed.

Section Flow.
Context `{PyBuiltins}.
Variable w : World.

Lemma add_events_nil st : add_events [] st = st.
Proof. destruct st. unfold add_events. simpl. by rewrite app_nil_r. Qed.

Lemma add_events_add_events es1 es2 st :
  add_events es2 (add_events es1 st) = add_events (es1 ++ es2) st.
Proof. unfold add_events. simpl. by rewrite app_assoc. Qed.

Lemma send_telegram_spec bot chat message st :
  exists evs,
    _send_telegram_message w bot chat message st = (Ok tt, add_events evs st)
    /\ forallb is_notification evs = true.
Proof.
  unfold _send_telegram_message.
  destruct (negb (opt_truthy bot) || negb (opt_truthy chat)).
  - exists []. by rewrite add_events_nil.
  - unfold mbind, M_bind, log, emit, modify, skip, mret, M_ret. simpl.
    destruct (telegram w _ _ _) as [?|r];
      [|destruct ((400 <=? status_code r)%Z && (status_code r <? 600)%Z)];
      rewrite ?add_events_add_events; by eexists.
Qed.

(** What the notification adds to the trace. *)
Lemma send_telegram_events bot chat message st :
  exists records,
    _send_telegram_message w bot chat message st
    = (Ok tt,
       add_events
         (if opt_truthy bot && opt_truthy chat
          then SendTelegram (default "" bot) (default "" chat) message :: records
          else []) st)
    /\ (records = []
        \/ records = [Log WARNING "Failed to send Telegram notification: %s"]).
Proof.
  unfold _send_telegram_message.
  destruct (opt_truthy bot), (opt_truthy chat); simpl;
    try (exists []; split; [by rewrite add_events_nil | by left]).
  unfold mbind, M_bind, log, emit, modify, skip, mret, M_ret. simpl.
  destruct (telegram w _ _ _) as [?|r];
    [|destruct ((400 <=? status_code r)%Z && (status_code r <? 600)%Z)];
    rewrite ?add_events_add_events;
    eexists; (split; [reflexivity|]); auto.
Qed.

Variable settings : Settings.
Variables bot chat : option string.
Variable account : label.

Local Abbreviation sleeps_ok := (sleeps_ok settings).
Local Abbreviation good_end := (good_end settings).
Local Abbreviation enters_tail := (enters_tail w settings bot chat account).

Lemma finish_spec code error st :
  exists evs,
    finish w bot chat account code error st
    = (Ok code, add_events evs (after_revocation st))
    /\ forallb is_notification evs = true.
Proof.
  assert (Hnotify : forall message st0 pre st1,
    st1 = add_events pre st0 ->
    forallb is_notification pre = true ->
    exists evs,
      (let (r0, st'0) :=
         (if opt_truthy bot && opt_truthy chat
          then _send_telegram_message w bot chat message
          else skip) st1 in
       match r0 with
       | Ok _ => (Ok code, st'0)
       | Raise e => (Raise e, st'0)
       end) = (Ok code, add_events evs st0)
      /\ forallb is_notification evs = true).
  { intros message st0 pre st1 -> Hpre.
    destruct (opt_truthy bot && opt_truthy chat).
    - destruct (send_telegram_spec bot chat message (add_events pre st0))
        as (evs & -> & Hevs).
      exists (pre ++ evs)%list. rewrite add_events_add_events.
      split; [done|]. rewrite forallb_app. by rewrite Hpre, Hevs.
    - exists pre. done. }
  unfold finish, after_revocation.
  unfold mbind, M_bind, get at 1. simpl.
  destruct (par_request st) as [par|], (storage st) as [client|];
    try (by apply (Hnotify _ st []); [rewrite add_events_nil|]).
  unfold revoke_preauthenticated_request, wrap_sdk.
  destruct (revoke_answer w par) as [[]|message str|str]; simpl.
  - by apply (Hnotify _ _ []); [rewrite add_events_nil|].
  - by apply (Hnotify _ (set_par_request None (add_events [RevokeLink par] st))
             [Log WARNING "Failed to revoke pre-authenticated request: %s"]).
  - by apply (Hnotify _ (set_par_request None (add_events [RevokeLink par] st))
             [Log WARNING "Failed to revoke pre-authenticated request: %s"]).
Qed.


Lemma holding_add_events par es st :
  holding par st -> issued es = [] -> revoked es = [] ->
  holding par (add_events es st).
Proof.
  intros (Hp & Hs & Hi & Hr) Hie Hre. unfold holding. simpl.
  rewrite issued_app, revoked_app, Hi, Hr, Hie, Hre. done.
Qed.

Lemma finish_good par code error st :
  holding par st -> sleeps_ok (trace st) ->
  (thread_id st <> None -> code = 0%Z) ->
  good_end par (finish w bot chat account code error st).
Proof.
  intros (Hp & Hs & Hi & Hr) Hsl Hth.
  destruct (finish_spec code error st) as (evs & -> & Hevs).
  apply notifications_silent in Hevs as (Hie & Hre & Hse).
  unfold after_revocation. rewrite Hp. destruct (storage st); [|done].
  unfold good_end, sleeps_ok in *. simpl.
  rewrite !issued_app, !revoked_app, !sleeps_app, Hi, Hr, Hie, Hre, Hse. simpl.
  rewrite !app_nil_r. repeat split; try done.
  intros Ht. by rewrite (Hth Ht).
Qed.

Ltac run_monad :=
  unfold mbind, M_bind, mret, M_ret, log, emit, modify, skip, raise, lift; simpl.

(** The two outcomes of [time.sleep] in the wait block. *)
Ltac sleep_cases :=
  try (unfold time_sleep;
       match goal with
       | |- context [(?a <=? max_sleep_seconds)%Z] =>
           destruct (Z.leb_spec a max_sleep_seconds)
       end;
       unfold emit, modify, raise; simpl).

Lemma delete_block_good par client obj st :
  holding par st -> sleeps_ok (trace st) ->
  good_end par (delete_block w bot chat account client obj st).
Proof.
  intros Hh Hsl. unfold delete_block, delete_object, wrap_sdk. run_monad.
  destruct (delete_answer w obj) as [[]|message str|str]; simpl;
    rewrite ?add_events_add_events;
    (apply finish_good; [by apply holding_add_events| |done]);
    unfold sleeps_ok in *; simpl; rewrite !sleeps_app; simpl;
    by rewrite !app_nil_r.
Qed.

Lemma crash_good par e st :
  holding par st -> thread_id st = None -> sleeps_ok (trace st) ->
  good_end par (Raise e, st).
Proof.
  intros (Hp & Hs & Hi & Hr) Ht Hsl. unfold good_end. simpl.
  rewrite Ht. done.
Qed.

Lemma records_silent (records : list (log_level * string)) :
  issued ((fun r => Log r.1 r.2) <$> records) = []
  /\ revoked ((fun r => Log r.1 r.2) <$> records) = []
  /\ sleeps ((fun r => Log r.1 r.2) <$> records) = [].
Proof.
  apply notifications_silent. induction records as [|r records IH]; [done|].
  simpl. exact IH.
Qed.

(** Side conditions of the block lemmas: the state is the initial one
    after updates and added events, and what is known of the trace is
    among the hypotheses. *)
Ltac use_trace_facts :=
  repeat match goal with
         | H : issued _ = _ |- _ => rewrite H
         | H : revoked _ = _ |- _ => rewrite H
         | H : sleeps _ = _ |- _ => rewrite H
         end.

Ltac side :=
  try match goal with
      | Hh : holding _ _ |- _ => destruct Hh as (? & ? & ? & ?)
      end;
  unfold holding, Orchestrator.sleeps_ok; simpl;
  repeat (progress (rewrite ?issued_app, ?revoked_app, ?sleeps_app; simpl;
                    use_trace_facts; simpl; rewrite ?app_nil_r));
  first [ done | by left | by intros ? ].

Lemma publish_block_good par client obj container st :
  holding par st -> sleeps_ok (trace st) -> thread_id st = None ->
  good_end par (publish_block w settings bot chat account client obj container st).
Proof.
  intros Hh Hsl Hth. unfold publish_block, fail_with. run_monad.
  assert (Hsl' : forall es, sleeps es = [] -> sleeps_ok (trace st ++ es)).
  { intros es Hes. unfold sleeps_ok in *. by rewrite sleeps_app, Hes, app_nil_r. }
  destruct (ThreadsApi.publish_container _ _ _ _) as [thread|[]]; simpl;
    rewrite ?add_events_add_events;
    first [apply delete_block_good | apply crash_good | apply finish_good];
    first [by apply Hsl' | side].
Qed.

Lemma wait_block_good par client obj container st :
  holding par st -> sleeps (trace st) = [] -> thread_id st = None ->
  good_end par (wait_block w settings bot chat account client obj container st).
Proof.
  intros Hh Hsl Hth. unfold wait_block. run_monad.
  assert (Hsleeps : forall es,
    sleeps es = [] \/ (sleeps es = [Z.max (media_wait_seconds settings) 0]
                       /\ Z.max (media_wait_seconds settings) 0 <> 0%Z) ->
    sleeps_ok (trace st ++ es)).
  { intros es Hes. unfold sleeps_ok. rewrite sleeps_app, Hsl. simpl.
    destruct Hes as [->|[-> Hne]]; [by left|right]. split; [f_equal|]; lia. }
  destruct (Z.eqb_spec (Z.max (media_wait_seconds settings) 0) 0) as [Hz|Hnz];
    simpl; sleep_cases;
    try (destruct (ThreadsApi.check_container_status _ _ _) as [status|[]]; simpl;
         [destruct (truthy status); simpl|..]);
    rewrite ?add_events_add_events;
    first [apply publish_block_good | apply crash_good];
    first [ simpl; apply Hsleeps; simpl; auto | side ].
Qed.

Lemma container_block_good par client obj url st :
  holding par st -> sleeps (trace st) = [] -> thread_id st = None ->
  good_end par (container_block w settings bot chat account client obj url st).
Proof.
  intros Hh Hsl Hth. unfold container_block, fail_with, get. run_monad.
  destruct (ThreadsApi.create_media_container _ _ _ _ _) as [container|[]]; simpl;
    rewrite ?add_events_add_events;
    first [apply wait_block_good | apply crash_good | apply finish_good];
    side.
Qed.

Lemma caption_block_good par client obj url st :
  holding par st -> sleeps (trace st) = [] -> thread_id st = None ->
  good_end par (caption_block w settings bot chat account client obj url st).
Proof.
  intros Hh Hsl Hth. unfold caption_block. run_monad.
  destruct (enable_captioning settings); simpl.
  - destruct (Caption.generate_caption _ _ _ _) as [records outcome].
    destruct (records_silent records) as (Hi & Hr & Hs).
    simpl. destruct outcome as [text|[]]; simpl;
      rewrite ?add_events_add_events;
      first [apply container_block_good | apply crash_good];
      side.
  - apply container_block_good; side.
Qed.

Ltac side_fresh :=
  try match goal with
      | Hf : fresh _ |- _ => destruct Hf as (? & ? & ? & ? & ? & ? & ?)
      end;
  unfold linkless_end, fresh, ready, holding; simpl;
  repeat (progress (rewrite ?issued_app, ?revoked_app, ?sleeps_app; simpl;
                    use_trace_facts; simpl; rewrite ?app_nil_r));
  done.

Lemma finish_fresh code error st :
  fresh st -> linkless_end (finish w bot chat account code error st).
Proof.
  intros Hf. destruct (finish_spec code error st) as (evs & -> & Hevs).
  apply notifications_silent in Hevs as (Hie & Hre & Hse).
  unfold after_revocation. destruct Hf as (Hp & Ht & Hc & Hcap & Hi & Hr & Hs).
  rewrite Hp. unfold linkless_end, fresh. simpl.
  by rewrite issued_app, revoked_app, sleeps_app, Hi, Hr, Hs, Hie, Hre, Hse.
Qed.

Lemma select_and_presign_spec client st :
  fresh st -> storage st = Some client ->
  match select_and_presign w settings client st with
  | (Ok (selected, par), st') => ready par client selected st'
  | (Raise e, st') => fresh st'
  end.
Proof.
  intros Hf Hst. unfold select_and_presign. run_monad.
  destruct (list_png_objects _ _ _ _) as [objects|e]; simpl; [|side_fresh].
  destruct (choose_random_object _ _) as [selected|e]; simpl; [|side_fresh].
  destruct (generate_presigned_url _ _ _ _ _ _) as [par|e]; simpl; [|side_fresh].
  destruct Hf as (? & ? & ? & ? & ? & ? & ?). unfold ready, holding. simpl.
  repeat (progress (rewrite ?issued_app, ?revoked_app, ?sleeps_app; simpl;
                    use_trace_facts; simpl; rewrite ?app_nil_r)).
  rewrite Hst. done.
Qed.

Lemma select_block_cases client st :
  fresh st -> storage st = Some client ->
  linkless_end (select_block w settings bot chat account client st)
  \/ enters_tail (select_block w settings bot chat account client st).
Proof.
  intros Hf Hst. unfold select_block, attempt, fail_with. run_monad.
  pose proof (select_and_presign_spec client
                (add_events [Log INFO "Selecting random PNG from bucket %s"] st))
    as Hsel.
  destruct (select_and_presign _ _ _ _) as [[[selected par]|e] st'].
  - right. exists par, client, selected, st'. split; [done|].
    apply Hsel; [side_fresh | done].
  - assert (Hf' : fresh st') by (apply Hsel; [side_fresh | done]).
    left. destruct e; simpl; try exact Hf'.
    rewrite ?add_events_add_events. apply finish_fresh. side_fresh.
Qed.

Lemma storage_block_cases st :
  fresh st -> storage st = None ->
  linkless_end (storage_block w settings bot chat account st)
  \/ enters_tail (storage_block w settings bot chat account st).
Proof.
  intros Hf Hst. unfold storage_block, fail_with. run_monad.
  destruct (Storage.init _ _ _ _) as [client|[]]; simpl;
    rewrite ?add_events_add_events;
    try (left; first [apply finish_fresh | idtac]; side_fresh).
  apply select_block_cases; [side_fresh | done].
Qed.

(** *** What the blocks after the caption step leave unchanged *)

Lemma later_refl st : later st st.
Proof. repeat split. exists []. by rewrite app_nil_r. Qed.

Lemma later_trans st1 st2 st3 : later st1 st2 -> later st2 st3 -> later st1 st3.
Proof.
  intros (Hc & Hs & evs & Ht) (Hc' & Hs' & evs' & Ht').
  repeat split; [congruence | congruence |].
  exists (evs ++ evs')%list. by rewrite Ht', Ht, app_assoc.
Qed.

Lemma later_add_events es st : later st (add_events es st).
Proof. repeat split. by exists es. Qed.

Lemma later_after_revocation st : later st (after_revocation st).
Proof.
  unfold after_revocation.
  destruct (par_request st), (storage st); try apply later_refl.
  repeat split. by eexists.
Qed.

Lemma finish_later code error st :
  (finish w bot chat account code error st).1 = Ok code
  /\ later st (finish w bot chat account code error st).2
  /\ thread_id (finish w bot chat account code error st).2 = thread_id st
  /\ container_id (finish w bot chat account code error st).2 = container_id st.
Proof.
  destruct (finish_spec code error st) as (evs & -> & _). simpl.
  split; [done|]. split.
  - eapply later_trans; [apply later_after_revocation | apply later_add_events].
  - unfold after_revocation. by destruct (par_request st), (storage st).
Qed.

(** [later st st'] for a state [st'] built from [st] by updates that
    keep the caption and the object. *)
Ltac later_now :=
  split; [reflexivity|]; split; [reflexivity|];
  simpl; eexists; rewrite <- ?app_assoc; reflexivity.

Lemma delete_block_spec client obj st :
  let out := delete_block w bot chat account client obj st in
  out.1 = Ok 0
  /\ later st out.2
  /\ thread_id out.2 = thread_id st
  /\ container_id out.2 = container_id st
  /\ (exists pre post record,
        trace out.2 = (pre ++ [DeleteObject obj; record] ++ post)%list
        /\ record = match delete_object client obj (delete_answer w obj) with
                    | Ok _ => Log INFO "Deleted %s from bucket %s"
                    | Raise _ =>
                        Log WARNING "Thread posted but failed to delete %s: %s"
                    end).
Proof.
  unfold delete_block, delete_object, wrap_sdk. run_monad.
  destruct (delete_answer w obj) as [[]|message str|str]; simpl;
    rewrite ?add_events_add_events;
    match goal with
    | |- context [finish ?w ?b ?c ?a ?code ?err ?st1] =>
        destruct (finish_later code err st1) as (Hr & Hl & Ht & Hc)
    end;
    (split; [exact Hr|]);
    (split; [eapply later_trans; [apply later_add_events | exact Hl]|]);
    (split; [by rewrite Ht|]); (split; [by rewrite Hc|]);
    destruct Hl as (_ & _ & evs & ->);
    eexists (trace st), evs, _; simpl; by rewrite <- app_assoc.
Qed.


Lemma publish_block_later client obj container st :
  later st (publish_block w settings bot chat account client obj container st).2
  /\ container_id
       (publish_block w settings bot chat account client obj container st).2
     = container_id st.
Proof.
  unfold publish_block, fail_with. run_monad.
  destruct (ThreadsApi.publish_container _ _ _ _) as [thread|[]]; simpl;
    rewrite ?add_events_add_events;
    try (split; [later_now | done]).
  - match goal with
    | |- context [delete_block ?w ?b ?c ?a ?cl ?o ?st1] =>
        destruct (delete_block_spec cl o st1) as (_ & Hl & _ & Hc & _)
    end.
    split; [|exact Hc]. eapply later_trans; [|exact Hl]. later_now.
  - match goal with
    | |- context [finish ?w ?b ?c ?a ?code ?err ?st1] =>
        destruct (finish_later code err st1) as (_ & Hl & _ & Hc)
    end.
    split; [|exact Hc]. eapply later_trans; [|exact Hl]. later_now.
Qed.

(** Once a thread id is recorded, the rest of the run is the deletion
    block. *)
Lemma publish_block_reaches_delete client obj container st :
  thread_id st = None ->
  thread_id (publish_block w settings bot chat account client obj container st).2
    <> None ->
  exists st1,
    publish_block w settings bot chat account client obj container st
    = delete_block w bot chat account client obj st1.
Proof.
  intros Hth. unfold publish_block, fail_with. run_monad.
  destruct (ThreadsApi.publish_container _ _ _ _) as [thread|[]]; simpl;
    rewrite ?add_events_add_events; try (intros Hne; by rewrite Hth in Hne).
  - intros _. by eexists.
  - match goal with
    | |- context [finish ?w ?b ?c ?a ?code ?err ?st1] =>
        destruct (finish_later code err st1) as (_ & _ & -> & _)
    end.
    simpl. intros Hne. by rewrite Hth in Hne.
Qed.


Lemma wait_block_later client obj container st :
  later st (wait_block w settings bot chat account client obj container st).2
  /\ container_id
       (wait_block w settings bot chat account client obj container st).2
     = container_id st.
Proof.
  unfold wait_block. run_monad.
  destruct (negb _); simpl; sleep_cases;
    try (destruct (ThreadsApi.check_container_status _ _ _) as [status|[]]; simpl;
         [destruct (truthy status); simpl|..]);
    try (split; [later_now | done]);
    match goal with
    | |- context [publish_block ?w ?s ?b ?c ?a ?cl ?o ?k ?st1] =>
        destruct (publish_block_later cl o k st1) as (Hl & Hc)
    end;
    (split; [|exact Hc]); (eapply later_trans; [|exact Hl]); later_now.
Qed.

Lemma wait_block_reaches_delete client obj container st :
  thread_id st = None ->
  thread_id (wait_block w settings bot chat account client obj container st).2
    <> None ->
  exists st1,
    wait_block w settings bot chat account client obj container st
    = delete_block w bot chat account client obj st1.
Proof.
  intros Hth. unfold wait_block. run_monad.
  destruct (negb _); simpl; sleep_cases;
    try (destruct (ThreadsApi.check_container_status _ _ _) as [status|[]]; simpl;
         [destruct (truthy status); simpl|..]);
    try (intros Hne; by rewrite Hth in Hne);
    by apply publish_block_reaches_delete.
Qed.

(** The first events of the wait block when the wait can be slept: the
    sleep, if the clamped wait is positive, and then the status check. *)
Lemma wait_block_trace client obj container st :
  (media_wait_seconds settings <= max_sleep_seconds)%Z ->
  exists post,
    trace (wait_block w settings bot chat account client obj container st).2
    = (trace st
       ++ (if (0 <? media_wait_seconds settings)%Z
           then [Log INFO "Waiting %s seconds for media processing";
                 Sleep (media_wait_seconds settings)]
           else [])
       ++ CheckContainerStatus container :: post)%list.
Proof.
  intros Hfits. unfold wait_block. run_monad.
  assert (Hmax : (Z.max (media_wait_seconds settings) 0 =? 0)%Z
                 = negb (0 <? media_wait_seconds settings)%Z).
  { destruct (Z.ltb_spec 0 (media_wait_seconds settings));
      simpl; [apply Z.eqb_neq | apply Z.eqb_eq]; lia. }
  rewrite Hmax, negb_involutive.
  destruct (Z.ltb_spec 0 (media_wait_seconds settings)) as [Hpos|Hneg]; simpl;
    rewrite ?Z.max_l by lia;
    sleep_cases; try (exfalso; lia);
    (destruct (ThreadsApi.check_container_status _ _ _) as [status|[]]; simpl;
     [destruct (truthy status); simpl|..]);
    try (eexists; rewrite <- ?app_assoc; reflexivity);
    match goal with
    | |- context [publish_block ?w ?s ?b ?c ?a ?cl ?o ?k ?st1] =>
        destruct (publish_block_later cl o k st1) as ((_ & _ & evs & ->) & _)
    end;
    simpl; eexists; rewrite <- ?app_assoc; simpl; reflexivity.
Qed.



Lemma container_block_reaches_delete client obj url st :
  thread_id st = None ->
  thread_id (container_block w settings bot chat account client obj url st).2
    <> None ->
  exists st1,
    container_block w settings bot chat account client obj url st
    = delete_block w bot chat account client obj st1.
Proof.
  intros Hth. unfold container_block, fail_with, get. run_monad.
  destruct (ThreadsApi.create_media_container _ _ _ _ _) as [container|[]];
    simpl; try (intros Hne; by rewrite Hth in Hne).
  - by apply wait_block_reaches_delete.
  - match goal with
    | |- context [finish ?w ?b ?c ?a ?code ?err ?st1] =>
        destruct (finish_later code err st1) as (_ & _ & -> & _)
    end.
    simpl. intros Hne. by rewrite Hth in Hne.
Qed.

(** Once a container id is recorded, the rest of the run is the wait
    block, entered right after the creation was logged. *)
Lemma container_block_reaches_wait client obj url st container :
  container_id st = None ->
  container_id (container_block w settings bot chat account client obj url st).2
    = Some container ->
  exists st1,
    container_block w settings bot chat account client obj url st
    = wait_block w settings bot chat account client obj container st1
    /\ trace st1
       = (trace st ++ [CreateMediaContainer url (caption_payload st);
                       Log INFO "Created media container %s"])%list.
Proof.
  intros Hnone. unfold container_block, fail_with, get, caption_payload. run_monad.
  destruct (ThreadsApi.create_media_container _ _ _ _ _) as [created|[]];
    simpl; try (intros Hc; by rewrite Hnone in Hc).
  - match goal with
    | |- context [wait_block ?w ?s ?b ?c ?a ?cl ?o ?k ?st1] =>
        destruct (wait_block_later cl o k st1) as (_ & ->)
    end.
    simpl. intros [= ->]. eexists. split; [reflexivity|].
    simpl. by rewrite <- app_assoc.
  - match goal with
    | |- context [finish ?w ?b ?c ?a ?code ?err ?st1] =>
        destruct (finish_later code err st1) as (_ & _ & _ & ->)
    end.
    simpl. intros Hc. by rewrite Hnone in Hc.
Qed.


Lemma caption_block_cases client obj url st :
  exists st1,
    caption_block w settings bot chat account client obj url st
    = container_block w settings bot chat account client obj url st1
    /\ thread_id st1 = thread_id st /\ container_id st1 = container_id st
    /\ (exists evs, trace st1 = (trace st ++ evs)%list)
  \/ exists e, caption_block w settings bot chat account client obj url st
               = (Raise e, st1)
      /\ thread_id st1 = thread_id st /\ container_id st1 = container_id st.
Proof.
  unfold caption_block. run_monad.
  destruct (enable_captioning settings); simpl.
  - destruct (Caption.generate_caption _ _ _ _) as [records outcome]. simpl.
    destruct outcome as [text|[]]; simpl;
      eexists; first
        [ left; split; [reflexivity|]; split; [done|]; split; [done|];
          simpl; eexists; rewrite <- ?app_assoc; reflexivity
        | right; eexists; split; [reflexivity|]; by split ].
  - eexists. left. split; [reflexivity|]. split; [done|]. split; [done|].
    simpl. eexists. rewrite <- ?app_assoc. reflexivity.
Qed.

Lemma caption_block_reaches_delete client obj url st :
  thread_id st = None ->
  thread_id (caption_block w settings bot chat account client obj url st).2
    <> None ->
  exists st1,
    caption_block w settings bot chat account client obj url st
    = delete_block w bot chat account client obj st1.
Proof.
  intros Hth.
  destruct (caption_block_cases client obj url st)
    as (st1 & [(-> & Ht & _)|(e & -> & Ht & _)]).
  - apply container_block_reaches_delete. congruence.
  - simpl. intros Hne. congruence.
Qed.

Lemma caption_block_reaches_wait client obj url st container :
  container_id st = None ->
  container_id (caption_block w settings bot chat account client obj url st).2
    = Some container ->
  exists st1 pre text,
    caption_block w settings bot chat account client obj url st
    = wait_block w settings bot chat account client obj container st1
    /\ trace st1
       = (pre ++ [CreateMediaContainer url text;
                  Log INFO "Created media container %s"])%list.
Proof.
  intros Hnone.
  destruct (caption_block_cases client obj url st)
    as (st1 & [(-> & _ & Hc & _)|(e & -> & _ & Hc)]).
  - intros Hsome.
    destruct (container_block_reaches_wait client obj url st1 container)
      as (st2 & -> & Htr); [congruence | done |].
    by eexists st2, _, _.
  - simpl. congruence.
Qed.

End Flow.

Section Main.
Context `{PyBuiltins}.

Lemma initial_fresh : fresh initial.
Proof. by repeat split. Qed.

(** A configuration failure is reported and ends the run with status 1
    before anything else is called. *)
Lemma run_config_failure w e :
  load_settings (environ w) = Raise e ->
  (run w).1 = Ok 1
  /\ forallb is_notification (trace (run w).2) = true
  /\ fresh (run w).2.
Proof.
  intros Hload. unfold run, main. rewrite Hload.
  rewrite (ConfigFacts.load_settings_error_kind _ _ Hload).
  unfold log, emit, mbind, M_bind, modify. simpl.
  destruct (send_telegram_spec w (environ w !! "TELEGRAM_BOT_TOKEN")
              (environ w !! "TELEGRAM_CHAT_ID") [Heading false; ErrorLine e]
              (add_events [Log ERROR "Configuration error: %s"] initial))
    as (evs & -> & Hevs).
  simpl. split; [done|]. split; [done|].
  apply notifications_silent in Hevs as (Hi & Hr & Hs).
  unfold fresh. simpl. by rewrite Hi, Hr, Hs.
Qed.

(** With the settings loaded, a run ends without a link or enters the
    caption step holding one. *)
Lemma run_cases w settings :
  load_settings (environ w) = Ok settings ->
  linkless_end (run w)
  \/ exists bot chat account, enters_tail w settings bot chat account (run w).
Proof.
  intros Hload. unfold run, main. rewrite Hload.
  unfold log, emit, mbind, M_bind, modify, lift, mret, M_ret, raise. simpl.
  destruct (ThreadsApi.get_profile_details _ _ _) as [details|[]]; simpl;
    try (left; by repeat split).
  - destruct (_format_threads_label (Some details) _) as [account|e]; simpl;
      [|left; by repeat split].
    destruct (storage_block_cases w settings
                (if opt_truthy (Config.telegram_bot_token settings)
                 then Config.telegram_bot_token settings
                 else environ w !! "TELEGRAM_BOT_TOKEN")
                (if opt_truthy (Config.telegram_chat_id settings)
                 then Config.telegram_chat_id settings
                 else environ w !! "TELEGRAM_CHAT_ID")
                account
                (add_events [GetProfile (threads_user_id settings)] initial))
      as [Hl|Ht]; [by repeat split | done | by left | right; eauto].
  - destruct (storage_block_cases w settings
                (if opt_truthy (Config.telegram_bot_token settings)
                 then Config.telegram_bot_token settings
                 else environ w !! "TELEGRAM_BOT_TOKEN")
                (if opt_truthy (Config.telegram_chat_id settings)
                 then Config.telegram_chat_id settings
                 else environ w !! "TELEGRAM_CHAT_ID")
                (UserId (threads_user_id settings))
                (add_events
                   [GetProfile (threads_user_id settings);
                    Log WARNING "Failed to fetch Threads profile details: %s"]
                   initial))
      as [Hl|Ht]; [by repeat split | done | by left | right; eauto].
Qed.

Lemma elem_of_sleeps s t : Sleep s ∈ t <-> s ∈ sleeps t.
Proof.
  unfold sleeps. rewrite list_elem_of_omap. split.
  - intros Hin. exists (Sleep s). by split.
  - intros (e & Hin & He). destruct e; try discriminate. by injection He as ->.
Qed.

(** Every run that has loaded its settings ends without a link or
    with the one link accounted for. *)
Lemma run_settled w settings :
  load_settings (environ w) = Ok settings ->
  linkless_end (run w) \/ exists par, good_end settings par (run w).
Proof.
  intros Hload. destruct (run_cases w settings Hload)
    as [Hl|(bot & chat & account & par & client & obj & st & -> & Hready)];
    [by left|right].
  destruct Hready as (Hh & _ & _ & Hth & _ & _ & Hsl).
  exists par. by apply caption_block_good.
Qed.

(** At most one link is ever issued, and a run that returns an exit
    status has asked for the revocation of exactly the links it issued,
    once each: the part of C1 that the code meets. *)
Lemma returning_run_revokes_once w code :
  (run w).1 = Ok code ->
  (length (issued (trace (run w).2)) <= 1)%nat
  /\ revoked (trace (run w).2) = issued (trace (run w).2)
  /\ par_request (run w).2 = None.
Proof.
  intros Hret. destruct (load_settings (environ w)) as [settings|e] eqn:Hload.
  - destruct (run_settled w settings Hload)
      as [(Hp & _ & _ & _ & Hi & Hr & _)|(par & Hi & Hrev & _)].
    + rewrite Hi, Hr. split; [simpl; lia|]. by split.
    + rewrite Hret in Hrev. destruct Hrev as (Hr & Hp).
      rewrite Hi, Hr. split; [simpl; lia|]. by split.
  - destruct (run_config_failure w e Hload)
      as (_ & _ & Hp & _ & _ & _ & Hi & Hr & _).
    rewrite Hi, Hr. split; [simpl; lia|]. by split.
Qed.

Lemma at_most_one_link w :
  (length (issued (trace (run w).2)) <= 1)%nat.
Proof.
  destruct (load_settings (environ w)) as [settings|e] eqn:Hload.
  - destruct (run_settled w settings Hload)
      as [(_ & _ & _ & _ & Hi & _)|(par & Hi & _)]; rewrite Hi; simpl; lia.
  - destruct (run_config_failure w e Hload) as (_ & _ & _ & _ & _ & _ & Hi & _).
    rewrite Hi. simpl. lia.
Qed.

(** C3. Once the publish step has succeeded (a thread id is recorded),
    the run ends in [finish] with exit status 0 whatever the deletion
    answers: the deletion is attempted, the record that follows it is
    the success record or, if the deletion fails, only a warning, and
    the link is revoked. *)
Theorem delete_failure_is_logged_only (w : World) :
  thread_id (run w).2 <> None ->
  (run w).1 = Ok 0
  /\ par_request (run w).2 = None
  /\ revoked (trace (run w).2) = issued (trace (run w).2)
  /\ exists client obj pre post record,
       trace (run w).2 = (pre ++ [DeleteObject obj; record] ++ post)%list
       /\ record = match delete_object client obj (delete_answer w obj) with
                   | Ok _ => Log INFO "Deleted %s from bucket %s"
                   | Raise _ =>
                       Log WARNING "Thread posted but failed to delete %s: %s"
                   end.
Proof.
  intros Hthread.
  destruct (load_settings (environ w)) as [settings|e] eqn:Hload.
  - destruct (run_cases w settings Hload)
      as [(_ & Hth & _)|(bot & chat & account & par & client & obj & st & Hrun & Hready)];
      [done|].
    destruct Hready as (Hh & _ & _ & Hth & _ & _ & Hsl).
    pose proof (caption_block_good w settings bot chat account par client obj
                  (par_url par) st Hh Hsl Hth) as (Hi & Hrev & _).
    rewrite <- Hrun in Hi, Hrev.
    destruct (caption_block_reaches_delete w settings bot chat account client obj
                (par_url par) st Hth) as (st1 & Hdel); [by rewrite <- Hrun|].
    rewrite <- Hrun in Hdel.
    destruct (delete_block_spec w bot chat account client obj st1)
      as (Hres & _ & _ & _ & pre & post & record & Htr & Hrec).
    rewrite <- Hdel in Hres, Htr.
    rewrite Hres in Hrev. destruct Hrev as (Hr & Hp).
    split; [done|]. split; [done|]. split; [by rewrite Hr, Hi|].
    by exists client, obj, pre, post, record.
  - destruct (run_config_failure w e Hload) as (_ & _ & _ & Hth & _). done.
Qed.

(** C10. A sleep, if any, lasts [max(media_wait_seconds, 0)] seconds and
    that is positive; with a zero or negative wait there is no sleep at
    all, and a created container is followed at once by its creation
    record and the status check. *)
Theorem sleep_is_clamped (w : World) (settings : Settings) :
  load_settings (environ w) = Ok settings ->
  (forall s, Sleep s ∈ trace (run w).2 ->
     s = Z.max (media_wait_seconds settings) 0 /\ (0 < s)%Z)
  /\ ((media_wait_seconds settings <= 0)%Z ->
      (forall s, Sleep s ∉ trace (run w).2)
      /\ forall container, container_id (run w).2 = Some container ->
         exists pre image_url text post,
           trace (run w).2
           = (pre ++ [CreateMediaContainer image_url text;
                      Log INFO "Created media container %s";
                      CheckContainerStatus container] ++ post)%list).
Proof.
  intros Hload.
  assert (Hsl : sleeps_ok settings (trace (run w).2)).
  { destruct (run_settled w settings Hload)
      as [(_ & _ & _ & _ & _ & _ & Hs)|(par & _ & _ & _ & Hs)]; [by left|done]. }
  split; [|intros Hneg; split].
  - intros s Hin%elem_of_sleeps.
    destruct Hsl as [Hs|[Hs Hpos]]; rewrite Hs in Hin.
    + by apply elem_of_nil in Hin.
    + apply list_elem_of_singleton in Hin as ->. lia.
  - intros s Hin%elem_of_sleeps.
    destruct Hsl as [Hs|[Hs Hpos]]; [|lia].
    rewrite Hs in Hin. by apply elem_of_nil in Hin.
  - intros container Hcont.
    destruct (run_cases w settings Hload)
      as [(_ & _ & Hc & _)|(bot & chat & account & par & client & obj & st & Hrun & Hready)];
      [congruence|].
    destruct Hready as (_ & _ & _ & _ & Hc & _).
    destruct (caption_block_reaches_wait w settings bot chat account client obj
                (par_url par) st container Hc) as (st1 & pre & text & Hwait & Htr);
      [by rewrite <- Hrun|].
    destruct (wait_block_trace w settings bot chat account client obj container st1)
      as (post & Hpost); [unfold max_sleep_seconds; lia|].
    rewrite <- Hwait, <- Hrun in Hpost.
    destruct (Z.ltb_spec 0 (media_wait_seconds settings)); [lia|].
    exists pre, (par_url par), text, post.
    rewrite Hpost, Htr. simpl. by rewrite <- app_assoc.
Qed.


(** An exception that leaves [main] after the link was issued leaves
    the link unrevoked: no handler and no [finally] stands between the
    blocks and the caller. *)
Lemma escaping_exception_skips_revocation w settings par e :
  load_settings (environ w) = Ok settings ->
  issued (trace (run w).2) = [par] ->
  (run w).1 = Raise e ->
  revoked (trace (run w).2) = [] /\ par_request (run w).2 = Some par.
Proof.
  intros Hload Hissued Hraise.
  destruct (run_settled w settings Hload)
    as [(_ & _ & _ & _ & Hi & _)|(par' & Hi & Hrev & _)].
  - by rewrite Hi in Hissued.
  - rewrite Hissued in Hi. injection Hi as <-. by rewrite Hraise in Hrev.
Qed.

Lemma is_prefix_refl s : is_prefix s s = true.
Proof. induction s as [|a s IH]; simpl; [done|]. by rewrite Ascii.eqb_refl. Qed.

Lemma str_contains_suffix pre needle :
  str_contains needle (pre +:+ needle) = true.
Proof.
  induction pre as [|a pre IH].
  - apply str_contains_prefix, is_prefix_refl.
  - change (str_contains needle (String a (pre +:+ needle)) = true).
    simpl. rewrite IH. apply orb_true_r.
Qed.

(** What a run does when the configuration does not load: the error
    record, then the notification if the environment holds both
    Telegram credentials, and nothing else. *)
Lemma run_config_failure_trace w e :
  load_settings (environ w) = Raise e ->
  exists records,
    trace (run w).2
    = Log ERROR "Configuration error: %s"
      :: (if opt_truthy (environ w !! "TELEGRAM_BOT_TOKEN")
             && opt_truthy (environ w !! "TELEGRAM_CHAT_ID")
          then SendTelegram (default "" (environ w !! "TELEGRAM_BOT_TOKEN"))
                 (default "" (environ w !! "TELEGRAM_CHAT_ID"))
                 [Heading false; ErrorLine e] :: records
          else [])
    /\ (records = []
        \/ records = [Log WARNING "Failed to send Telegram notification: %s"]).
Proof.
  intros Hload. unfold run, main. rewrite Hload.
  rewrite (ConfigFacts.load_settings_error_kind _ _ Hload).
  unfold log, emit, mbind, M_bind, modify. simpl.
  destruct (send_telegram_events w (environ w !! "TELEGRAM_BOT_TOKEN")
              (environ w !! "TELEGRAM_CHAT_ID") [Heading false; ErrorLine e]
              (add_events [Log ERROR "Configuration error: %s"] initial))
    as (records & -> & Hrecords).
  exists records. by split.
Qed.

(** C7, amended. When a required variable is absent or empty, loading
    fails with a configuration error, and that error is the one of the
    first check that fails, in the order: the three numeric settings,
    the captioning flag, the ANTHROPIC_API_KEY requirement, then
    THREADS_BUCKET, THREADS_ACCESS_TOKEN, THREADS_USER_ID and
    OCI_NAMESPACE.  So the message names the variable when every check
    before its own passes, and in particular when it is the only fault.
    The run then ends with status 1 after the error record and, only if
    the environment holds both Telegram credentials, the failure
    notification: no storage, captioning or platform call is made. *)
Theorem missing_required_field (env : gmap string string) (field : string) :
  field ∈ required_fields ->
  env !! field = None \/ env !! field = Some "" ->
  (exists e, load_settings env = Raise e /\ is_runtime_or_value_error e = true
             /\ ConfigChecks.first_failure env = Some e)
  /\ (forall pre post,
        required_fields = (pre ++ field :: post)%list ->
        Forall (fun check => check = None)
          (ConfigChecks.preamble_checks env
           ++ ConfigChecks.required_checks env pre)%list ->
        load_settings env
        = Raise (RuntimeError ("Missing required environment variable: " +:+ field))
        /\ AsStated.names
             (RuntimeError ("Missing required environment variable: " +:+ field))
             field = true)
  /\ (forall value settings,
        load_settings (<[field := value]> env) = Ok settings ->
        load_settings env
        = Raise (RuntimeError ("Missing required environment variable: " +:+ field))
        /\ AsStated.names
             (RuntimeError ("Missing required environment variable: " +:+ field))
             field = true)
  /\ (forall w, environ w = env ->
        (run w).1 = Ok 1
        /\ forallb is_notification (trace (run w).2) = true
        /\ exists e records,
             load_settings env = Raise e
             /\ trace (run w).2
                = Log ERROR "Configuration error: %s"
                  :: (if opt_truthy (env !! "TELEGRAM_BOT_TOKEN")
                         && opt_truthy (env !! "TELEGRAM_CHAT_ID")
                      then SendTelegram (default "" (env !! "TELEGRAM_BOT_TOKEN"))
                             (default "" (env !! "TELEGRAM_CHAT_ID"))
                             [Heading false; ErrorLine e] :: records
                      else [])
             /\ (records = []
                 \/ records
                    = [Log WARNING "Failed to send Telegram notification: %s"])).
Proof.
  intros Hin Hmiss.
  assert (Hfail : exists e, load_settings env = Raise e).
  { destruct (load_settings env) as [settings|e] eqn:Hload; [|by eexists].
    destruct (ConfigFacts.load_settings_required env settings field Hload Hin)
      as (value & Hv & Hne).
    destruct Hmiss as [Hm|Hm]; rewrite Hm in Hv; [done|].
    by injection Hv as <-. }
  destruct Hfail as (e & Hload). split; [|split; [|split]].
  - exists e. split; [done|].
    split; [by apply (ConfigFacts.load_settings_error_kind env)|].
    rewrite <- ConfigFacts.load_settings_first_failure. by rewrite Hload.
  - intros pre post Hfields Hpass. split.
    + by apply (ConfigFacts.load_settings_names_first_missing env field pre post).
    + apply str_contains_suffix.
  - intros value settings Hok. split.
    + by apply (ConfigFacts.load_settings_only_fault env field value settings).
    + apply str_contains_suffix.
  - intros w Henv. rewrite <- Henv in Hload.
    destruct (run_config_failure w e Hload) as (Hres & Hnot & _).
    split; [done|]. split; [done|].
    destruct (run_config_failure_trace w e Hload) as (records & Htrace & Hrecords).
    exists e, records. rewrite <- Henv. by repeat split.
Qed.

End Main.

Import Examples.

Lemma missing_required_field_witness :
  @load_settings AsciiBuiltins.builtins env_no_user
  = Raise (RuntimeError "Missing required environment variable: THREADS_USER_ID")
  /\ (@run AsciiBuiltins.builtins (with_environ env_no_user world_happy)).1 = Ok 1
  /\ trace (@run AsciiBuiltins.builtins (with_environ env_no_user world_happy)).2
     = [Log ERROR "Configuration error: %s"].
Proof.
  assert (Hin : "THREADS_USER_ID" ∈ required_fields) by set_solver.
  destruct (@missing_required_field AsciiBuiltins.builtins env_no_user
              "THREADS_USER_ID" Hin (or_introl eq_refl))
    as (_ & Hfirst & _ & Hrun).
  assert (Hpass : Forall (fun check => check = None)
            (@ConfigChecks.preamble_checks AsciiBuiltins.builtins env_no_user
             ++ ConfigChecks.required_checks env_no_user
                  ["THREADS_BUCKET"; "THREADS_ACCESS_TOKEN"])%list).
  { vm_compute. repeat constructor. }
  destruct (Hfirst ["THREADS_BUCKET"; "THREADS_ACCESS_TOKEN"] ["OCI_NAMESPACE"]
              eq_refl Hpass) as (Hload & _).
  destruct (Hrun (with_environ env_no_user world_happy) eq_refl)
    as (Hres & _ & e & records & _ & Htrace & _).
  split; [exact Hload|]. split; [exact Hres|]. exact Htrace.
Defined.

(** With two required variables missing the message names only the
    first one that is read. *)
Lemma second_missing_field_not_named :
  ~ AsStated.missing_field_is_named AsciiBuiltins.builtins.
Proof.
  intros Hclaim.
  assert (Hin : "THREADS_ACCESS_TOKEN" ∈ required_fields) by set_solver.
  destruct (Hclaim env_two_missing "THREADS_ACCESS_TOKEN" Hin (or_introl eq_refl))
    as (e & Hload & Hnames).
  vm_compute in Hload. injection Hload as <-.
  vm_compute in Hnames. discriminate Hnames.
Qed.

(** With the Telegram credentials in the environment, a missing
    variable is reported over the network. *)
Lemma missing_field_is_notified :
  ~ AsStated.missing_field_makes_no_network_call AsciiBuiltins.builtins.
Proof.
  intros Hclaim.
  assert (Hin : "THREADS_USER_ID" ∈ required_fields) by set_solver.
  pose proof (Hclaim (with_environ MoreExamples.env_no_user_notified world_happy)
                "THREADS_USER_ID" Hin (or_introl eq_refl)) as Hnone.
  vm_compute in Hnone. discriminate Hnone.
Qed.

(** C7, as worded, does not hold, in either of its two parts: with two
    required variables missing the message names only the first one
    that is read, and with the Telegram credentials in the environment
    the failure is notified, which is a network call. *)
Lemma missing_field_claim_fails :
  ~ AsStated.missing_field_is_named AsciiBuiltins.builtins
  /\ ~ AsStated.missing_field_makes_no_network_call AsciiBuiltins.builtins.
Proof.
  split; [exact second_missing_field_not_named | exact missing_field_is_notified].
Qed.

Example two_missing_names_the_bucket :
  @load_settings AsciiBuiltins.builtins env_two_missing
  = Raise (RuntimeError "Missing required environment variable: THREADS_BUCKET").
Proof. vm_compute. reflexivity. Qed.

Example user_id_is_read_before_namespace :
  @load_settings AsciiBuiltins.builtins (delete "OCI_NAMESPACE" env_no_user)
  = Raise (RuntimeError "Missing required environment variable: THREADS_USER_ID").
Proof. vm_compute. reflexivity. Qed.

Example missing_key_is_reported_before_missing_bucket :
  @load_settings AsciiBuiltins.builtins
    (delete "ANTHROPIC_API_KEY" (delete "THREADS_BUCKET" env_complete))
  = Raise (RuntimeError
             "ANTHROPIC_API_KEY must be set when THREADS_ENABLE_CAPTIONING is true").
Proof. vm_compute. reflexivity. Qed.

Example notification_of_missing_field :
  trace (@run AsciiBuiltins.builtins
           (with_environ MoreExamples.env_no_user_notified world_happy)).2
  = [Log ERROR "Configuration error: %s";
     SendTelegram "bot-token" "42"
       [Heading false;
        ErrorLine (RuntimeError
                     "Missing required environment variable: THREADS_USER_ID")]].
Proof. vm_compute. reflexivity. Qed.

Lemma delete_failure_is_logged_only_witness :
  (@run AsciiBuiltins.builtins world_delete_fails).1 = Ok 0%Z
  /\ Log WARNING "Thread posted but failed to delete %s: %s"
       ∈ trace (@run AsciiBuiltins.builtins world_delete_fails).2.
Proof.
  assert (Hthread : thread_id (@run AsciiBuiltins.builtins world_delete_fails).2
                    <> None) by (vm_compute; discriminate).
  destruct (@delete_failure_is_logged_only AsciiBuiltins.builtins
              world_delete_fails Hthread) as (Hres & _).
  split; [exact Hres|]. vm_compute.
  repeat first [apply list_elem_of_here | apply list_elem_of_further].
Defined.

Lemma sleep_is_clamped_witness :
  exists pre image_url text post,
    trace (@run AsciiBuiltins.builtins world_no_wait).2
    = (pre ++ [CreateMediaContainer image_url text;
               Log INFO "Created media container %s";
               CheckContainerStatus (PStr "123")] ++ post)%list.
Proof.
  assert (Hload : @load_settings AsciiBuiltins.builtins (environ world_no_wait)
                  = Ok settings_no_wait) by (vm_compute; reflexivity).
  destruct (@sleep_is_clamped AsciiBuiltins.builtins world_no_wait
              settings_no_wait Hload) as (_ & Hneg).
  assert (Hwait : (media_wait_seconds settings_no_wait <= 0)%Z)
    by (vm_compute; discriminate).
  destruct (Hneg Hwait) as (_ & Hdirect).
  apply Hdirect. vm_compute. reflexivity.
Defined.


(** A wait that [time.sleep] cannot take ends the run after the
    container was created: [OverflowError] is not caught, nothing is
    slept, and the outcome is the one of the steps after the caption. *)
Example overlong_wait_raises :
  (@run AsciiBuiltins.builtins MoreExamples.world_overlong_wait).1
  = Raise OverflowError
  /\ sleeps (trace (@run AsciiBuiltins.builtins MoreExamples.world_overlong_wait).2)
     = []
  /\ caption (@run AsciiBuiltins.builtins MoreExamples.world_overlong_wait).2
     = Some "".
Proof. vm_compute. by repeat split. Qed.

(** C1 at a failing input.  The Threads host does not answer the
    container request: [requests] raises, [create_media_container] lets
    the exception through, [main] catches only [ThreadsApiError], and
    the run ends with the link issued, never revoked and still held. *)
Theorem timeout_leaves_link_outstanding :
  (@run AsciiBuiltins.builtins world_timeout).1
  = Raise (RequestException "Read timed out")
  /\ issued (trace (@run AsciiBuiltins.builtins world_timeout).2) = [issued_link]
  /\ revoked (trace (@run AsciiBuiltins.builtins world_timeout).2) = []
  /\ par_request (@run AsciiBuiltins.builtins world_timeout).2 = Some issued_link.
Proof. vm_compute. by repeat split. Qed.

End OrchestratorFacts.

(** ** Configuration loading: what a loaded configuration guarantees *)

Module LoadingFacts.
Import Config Orchestrator Examples.

Section WithBuiltins.
Context `{PyBuiltins}.

(** The fields of a successful load, read off [load_settings]. *)
Lemma load_settings_fields environ settings :
  load_settings environ = Ok settings ->
  _get_env environ "THREADS_BUCKET" None = Ok (bucket settings)
  /\ _get_env environ "THREADS_ACCESS_TOKEN" None = Ok (threads_access_token settings)
  /\ _get_env environ "THREADS_USER_ID" None = Ok (threads_user_id settings)
  /\ _get_env environ "OCI_NAMESPACE" None = Ok (oci_namespace settings)
  /\ anthropic_api_key settings
     = match environ !! "ANTHROPIC_API_KEY" with
       | Some k => if str_truthy k then str_strip k else ""
       | None => ""
       end
  /\ enable_captioning settings && negb (str_truthy (anthropic_api_key settings))
     = false
  /\ object_prefix settings = or_none (environ !! "THREADS_PREFIX")
  /\ telegram_bot_token settings = or_none (environ !! "TELEGRAM_BOT_TOKEN")
  /\ telegram_chat_id settings = or_none (environ !! "TELEGRAM_CHAT_ID")
  /\ oci_region settings = or_none (environ !! "OCI_REGION")
  /\ oci_profile settings = or_none (environ !! "OCI_PROFILE").
Proof.
  unfold load_settings.
  destruct (int_env environ "THREADS_MEDIA_WAIT_SECONDS" "30"); simpl; [|done].
  destruct (int_env environ "THREADS_PRESIGN_EXPIRATION_SECONDS" "900"); simpl; [|done].
  destruct (int_env environ "THREADS_CLAUDE_MAX_TOKENS" "120"); simpl; [|done].
  destruct (_get_bool environ "THREADS_ENABLE_CAPTIONING" true); simpl; [|done].
  destruct (_ && _) eqn:Hkey; [done|].
  destruct (_get_env environ "THREADS_BUCKET" None); simpl; [|done].
  destruct (_get_env environ "THREADS_ACCESS_TOKEN" None); simpl; [|done].
  destruct (_get_env environ "THREADS_USER_ID" None); simpl; [|done].
  destruct (_get_env environ "OCI_NAMESPACE" None); simpl; [|done].
  intros [= <-]. simpl. by repeat split.
Qed.

Lemma or_none_not_empty o : or_none o <> Some "".
Proof. unfold or_none. by destruct o as [[|]|]. Qed.

Lemma or_none_none o : or_none o = None <-> o = None \/ o = Some "".
Proof.
  unfold or_none. destruct o as [[|a s]|]; simpl; split;
    first [ by auto | by intros [?|?] | done ].
Qed.

(** X1. A configuration that loads carries the four required variables
    exactly as the environment gives them, and none of them is empty. *)
Theorem loaded_required_values (environ : gmap string string)
    (settings : Settings) :
  load_settings environ = Ok settings ->
  (environ !! "THREADS_BUCKET" = Some (bucket settings)
   /\ bucket settings <> "")
  /\ (environ !! "THREADS_ACCESS_TOKEN" = Some (threads_access_token settings)
      /\ threads_access_token settings <> "")
  /\ (environ !! "THREADS_USER_ID" = Some (threads_user_id settings)
      /\ threads_user_id settings <> "")
  /\ (environ !! "OCI_NAMESPACE" = Some (oci_namespace settings)
      /\ oci_namespace settings <> "").
Proof.
  intros (Hb & Ht & Hu & Hn & _)%load_settings_fields.
  apply ConfigFacts.get_env_ok in Hb, Ht, Hu, Hn. done.
Qed.

(** X2. With captioning enabled, a configuration loads only with a key
    that is non-empty after stripping, and it stores the stripped key;
    with captioning on by default and the key absent, empty or blank,
    loading fails. *)
Theorem captioning_requires_key (environ : gmap string string) :
  (forall settings,
     load_settings environ = Ok settings ->
     enable_captioning settings = true ->
     exists k, environ !! "ANTHROPIC_API_KEY" = Some k
               /\ anthropic_api_key settings = str_strip k
               /\ str_strip k <> "")
  /\ (environ !! "THREADS_ENABLE_CAPTIONING" = None ->
      from_option str_strip "" (environ !! "ANTHROPIC_API_KEY") = "" ->
      is_ok (load_settings environ) = false).
Proof.
  assert (Hkey : forall settings,
    load_settings environ = Ok settings ->
    enable_captioning settings = true ->
    exists k, environ !! "ANTHROPIC_API_KEY" = Some k
              /\ anthropic_api_key settings = str_strip k
              /\ str_strip k <> "").
  { intros settings (_ & _ & _ & _ & Hk & Hguard & _)%load_settings_fields Hen.
    rewrite Hen in Hguard. simpl in Hguard.
    apply negb_false_iff, str_truthy_spec in Hguard.
    destruct (environ !! "ANTHROPIC_API_KEY") as [k|]; [|done].
    exists k. split; [done|].
    destruct (str_truthy k); [|done]. by rewrite <- Hk. }
  split; [exact Hkey|].
  intros Hdefault Hblank.
  destruct (load_settings environ) as [settings|e] eqn:Hload; [|done].
  pose proof (ConfigFacts.load_settings_enable environ settings Hload) as Hen.
  rewrite (ConfigFacts.get_bool_absent _ _ _ Hdefault) in Hen.
  injection Hen as Hen.
  destruct (Hkey settings eq_refl (eq_sym Hen)) as (k & Hk & _ & Hne).
  rewrite Hk in Hblank. done.
Qed.

(** X3. An optional setting is never the empty string: it is absent
    exactly when its variable is unset or empty, and otherwise it is the
    variable's value. *)
Theorem optional_settings_not_empty (environ : gmap string string)
    (settings : Settings) :
  load_settings environ = Ok settings ->
  Forall (fun entry : string * option string =>
            entry.2 <> Some ""
            /\ (entry.2 = None <->
                environ !! entry.1 = None \/ environ !! entry.1 = Some "")
            /\ (forall value, entry.2 = Some value ->
                environ !! entry.1 = Some value))
    [ ("THREADS_PREFIX", object_prefix settings);
      ("TELEGRAM_BOT_TOKEN", telegram_bot_token settings);
      ("TELEGRAM_CHAT_ID", telegram_chat_id settings);
      ("OCI_REGION", oci_region settings);
      ("OCI_PROFILE", oci_profile settings) ].
Proof.
  intros (_ & _ & _ & _ & _ & _ & -> & -> & -> & -> & ->)%load_settings_fields.
  assert (Hone : forall o value, or_none o = Some value -> o = Some value).
  { intros o value. unfold or_none. by destruct (opt_truthy o). }
  repeat (constructor;
          [split; [apply or_none_not_empty
                  | split; [apply or_none_none | apply Hone]] |]).
  constructor.
Qed.

(** X4. Whatever makes configuration loading fail, [main] reports it
    and returns status 1: the first record is the configuration error,
    everything after it is a record or a notification, no link is issued
    and nothing is slept. *)
Theorem configuration_failure_exits_1 (w : World) :
  is_ok (load_settings (environ w)) = false ->
  (run w).1 = Ok 1%Z
  /\ (exists rest, trace (run w).2 = Log ERROR "Configuration error: %s" :: rest)
  /\ forallb is_notification (trace (run w).2) = true
  /\ issued (trace (run w).2) = []
  /\ thread_id (run w).2 = None.
Proof.
  destruct (load_settings (environ w)) as [settings|e] eqn:Hload; [done|].
  intros _.
  destruct (OrchestratorFacts.run_config_failure w e Hload)
    as (Hres & Hnot & _ & Hth & _ & _ & Hi & _).
  repeat split; try done.
  unfold run, main. rewrite Hload.
  rewrite (ConfigFacts.load_settings_error_kind _ _ Hload).
  unfold log, emit, mbind, M_bind, modify. simpl.
  destruct (OrchestratorFacts.send_telegram_spec w
              (environ w !! "TELEGRAM_BOT_TOKEN")
              (environ w !! "TELEGRAM_CHAT_ID") [Heading false; ErrorLine e]
              (add_events [Log ERROR "Configuration error: %s"] initial))
    as (evs & -> & _).
  simpl. by eexists.
Qed.

End WithBuiltins.

Lemma loaded_required_values_witness :
  (env_complete !! "THREADS_BUCKET" = Some (bucket settings_complete)
   /\ bucket settings_complete <> "")
  /\ (env_complete !! "THREADS_ACCESS_TOKEN"
      = Some (threads_access_token settings_complete)
      /\ threads_access_token settings_complete <> "")
  /\ (env_complete !! "THREADS_USER_ID" = Some (threads_user_id settings_complete)
      /\ threads_user_id settings_complete <> "")
  /\ (env_complete !! "OCI_NAMESPACE" = Some (oci_namespace settings_complete)
      /\ oci_namespace settings_complete <> "").
Proof.
  apply (@loaded_required_values AsciiBuiltins.builtins env_complete
           settings_complete).
  vm_compute. reflexivity.
Defined.

Lemma optional_settings_not_empty_witness :
  Forall (fun entry : string * option string =>
            entry.2 <> Some ""
            /\ (entry.2 = None <->
                env_complete !! entry.1 = None \/ env_complete !! entry.1 = Some "")
            /\ (forall value, entry.2 = Some value ->
                env_complete !! entry.1 = Some value))
    [ ("THREADS_PREFIX", object_prefix settings_complete);
      ("TELEGRAM_BOT_TOKEN", telegram_bot_token settings_complete);
      ("TELEGRAM_CHAT_ID", telegram_chat_id settings_complete);
      ("OCI_REGION", oci_region settings_complete);
      ("OCI_PROFILE", oci_profile settings_complete) ].
Proof.
  apply (@optional_settings_not_empty AsciiBuiltins.builtins env_complete
           settings_complete).
  vm_compute. reflexivity.
Defined.

Lemma configuration_failure_exits_1_witness :
  (@run AsciiBuiltins.builtins (with_environ env_no_user world_happy)).1 = Ok 1%Z
  /\ (exists rest,
        trace (@run AsciiBuiltins.builtins (with_environ env_no_user world_happy)).2
        = Log ERROR "Configuration error: %s" :: rest)
  /\ forallb is_notification
       (trace (@run AsciiBuiltins.builtins (with_environ env_no_user world_happy)).2)
     = true
  /\ issued
       (trace (@run AsciiBuiltins.builtins (with_environ env_no_user world_happy)).2)
     = []
  /\ thread_id (@run AsciiBuiltins.builtins (with_environ env_no_user world_happy)).2
     = None.
Proof.
  apply (@configuration_failure_exits_1 AsciiBuiltins.builtins
           (with_environ env_no_user world_happy)).
  vm_compute. reflexivity.
Defined.

End LoadingFacts.

(** ** The storage client: construction, links and errors *)

Module StorageClientFacts.
Import Storage Listing Examples.

(** X5. Constructing the client fails only with a storage error.  A
    client that is constructed has a non-empty region: the explicit
    region when one is given, else the one of the configuration file;
    its namespace is the given one, or the one the service reports when
    none is given. *)
Theorem init_outcome (sdk : oci_sdk) (ns : string)
    (explicit_region profile : option string) :
  match init sdk ns explicit_region profile with
  | Ok client =>
      region client <> ""
      /\ (if opt_truthy explicit_region
          then explicit_region = Some (region client)
          else from_file sdk (or_none profile) = SdkReturn (Some (region client)))
      /\ (if str_truthy ns
          then namespace client = ns
          else get_namespace sdk = SdkReturn (namespace client))
  | Raise e => exists msg, e = OCIStorageError msg
  end.
Proof.
  unfold init, wrap_with.
  destruct (from_file sdk (or_none profile)) as [file_region| |]; simpl;
    try by eexists.
  destruct (opt_truthy explicit_region) eqn:Hexplicit.
  - destruct (validate_config sdk explicit_region) as [[]| |]; simpl;
      try by eexists.
    rewrite Hexplicit. simpl.
    destruct (ObjectStorageClient sdk explicit_region) as [[]| |]; simpl;
      try by eexists.
    destruct explicit_region as [r|]; [|done].
    apply str_truthy_spec in Hexplicit.
    destruct (str_truthy ns); simpl; [done|].
    destruct (get_namespace sdk); simpl; first [done | by eexists].
  - destruct (validate_config sdk file_region) as [[]| |]; simpl;
      try by eexists.
    destruct (opt_truthy file_region) eqn:Hfile; simpl; [|by eexists].
    destruct (ObjectStorageClient sdk file_region) as [[]| |]; simpl;
      try by eexists.
    destruct file_region as [r|]; [|done].
    apply str_truthy_spec in Hfile.
    destruct (str_truthy ns); simpl; [done|].
    destruct (get_namespace sdk); simpl; first [done | by eexists].
Qed.

(** X6. A link that is issued is for reading only and for the selected
    object only; it carries the object's bucket and the identifier the
    backend assigned, and its URL is the regional endpoint followed by
    the non-empty access path of the backend's answer. *)
Theorem presigned_link_fields (self : OCIStorageClient) (obj : ObjectRef)
    (expires_in_seconds now now_name : Z)
    (backend : par_details -> sdk_result (option par_data))
    (par : PreauthenticatedRequest) :
  generate_presigned_url self obj expires_in_seconds now now_name backend = Ok par ->
  par_bucket par = bucket obj
  /\ exists details data path,
       backend details = SdkReturn (Some data)
       /\ access_type details = "ObjectRead"
       /\ object_name details = key obj
       /\ name_stamp details = now_name
       /\ access_uri data = Some path /\ path <> ""
       /\ par_id par = data_id data
       /\ par_url par
          = "https://objectstorage." +:+ region self +:+ ".oraclecloud.com" +:+ path.
Proof.
  unfold generate_presigned_url, presign_request.
  destruct (timedelta_seconds _) as [delta|]; simpl; [|done].
  destruct (datetime_add now delta) as [expiry|]; simpl; [|done].
  match goal with |- context [backend ?d] => set (details := d) end.
  destruct (backend details) as [[data|]| |] eqn:Hb; simpl; try done.
  destruct (access_uri data) as [path|] eqn:Hpath; simpl; [|done].
  destruct (str_truthy path) eqn:Hne; [|done].
  intros [= <-]. simpl. split; [done|].
  exists details, data, path. apply str_truthy_spec in Hne. by repeat split.
Qed.

Lemma presigned_link_fields_witness :
  par_bucket issued_link = bucket quote_png
  /\ exists details data path,
       backend_ok details = SdkReturn (Some data)
       /\ access_type details = "ObjectRead"
       /\ object_name details = key quote_png
       /\ name_stamp details = 1001%Z
       /\ access_uri data = Some path /\ path <> ""
       /\ par_id issued_link = data_id data
       /\ par_url issued_link
          = "https://objectstorage." +:+ region fra_client
            +:+ ".oraclecloud.com" +:+ path.
Proof.
  apply (presigned_link_fields fra_client quote_png 900 1000 1001 backend_ok
           issued_link).
  vm_compute. reflexivity.
Defined.

(** X7. When the backend answers the creation request without data or
    without an access path, no link is issued: the call fails with the
    storage error that names the object's URI. *)
Theorem presign_without_access_path (self : OCIStorageClient) (obj : ObjectRef)
    (expires_in_seconds now now_name : Z)
    (backend : par_details -> sdk_result (option par_data))
    (details : par_details) (answer : option par_data) :
  presign_request obj expires_in_seconds now now_name = Ok details ->
  backend details = SdkReturn answer ->
  from_option (fun d => opt_truthy (access_uri d)) false answer = false ->
  generate_presigned_url self obj expires_in_seconds now now_name backend
  = Raise (OCIStorageError
             ("Failed to create pre-authenticated request for oci://"
              +:+ bucket obj +:+ "/" +:+ key obj)).
Proof.
  intros Hreq Hb Hnone. unfold generate_presigned_url.
  rewrite Hreq. simpl. rewrite Hb. simpl.
  destruct answer as [d|]; [|done]. simpl in Hnone. by rewrite Hnone.
Qed.

Lemma presign_without_access_path_witness :
  generate_presigned_url fra_client quote_png 900 1000 1001
    (fun _ => SdkReturn (Some {| access_uri := Some ""; data_id := "par-1" |}))
  = Raise (OCIStorageError
             ("Failed to create pre-authenticated request for oci://"
              +:+ bucket quote_png +:+ "/" +:+ key quote_png)).
Proof.
  apply (presign_without_access_path fra_client quote_png 900 1000 1001
           (fun _ => SdkReturn (Some {| access_uri := Some ""; data_id := "par-1" |}))
           {| name_stamp := 1001; access_type := "ObjectRead";
              time_expires := 900001000; object_name := "a.png" |}
           (Some {| access_uri := Some ""; data_id := "par-1" |}));
    reflexivity.
Defined.

(** X8. An expiry past the last representable date is not a storage
    error: the date arithmetic raises [OverflowError] before the backend
    is asked, whatever the backend would answer. *)
Theorem presign_overflow (self : OCIStorageClient) (obj : ObjectRef)
    (expires_in_seconds now now_name : Z)
    (backend : par_details -> sdk_result (option par_data)) :
  (0 <= now <= max_datetime)%Z ->
  (max_datetime < now + Z.max expires_in_seconds 1 * 1000000)%Z ->
  generate_presigned_url self obj expires_in_seconds now now_name backend
  = Raise OverflowError.
Proof.
  intros Hnow Hlate.
  unfold generate_presigned_url, presign_request, timedelta_seconds, datetime_add.
  destruct (Z.abs _ <=? _)%Z; simpl; [|done].
  destruct (Z.leb_spec (now + Z.max expires_in_seconds 1 * 1000000) max_datetime);
    [lia|].
  by rewrite andb_false_r.
Qed.

Lemma presign_overflow_witness :
  generate_presigned_url fra_client quote_png 900 max_datetime 1001 backend_ok
  = Raise OverflowError.
Proof.
  apply (presign_overflow fra_client quote_png 900 max_datetime 1001 backend_ok).
  - vm_compute. split; discriminate.
  - vm_compute. reflexivity.
Defined.

End StorageClientFacts.

(** ** The listing loop *)

Module ListingFacts.
Import Storage Listing Examples MoreExamples.

Lemma ends_with_spec suffix s :
  ends_with suffix s = true <-> exists pre, s = pre +:+ suffix.
Proof.
  induction s as [|a s IH]; simpl.
  - rewrite orb_false_r. split.
    + intros ->%String.eqb_eq. by exists "".
    + intros ([|b pre] & Hpre); [|discriminate Hpre].
      change ("" = suffix) in Hpre. subst suffix. apply String.eqb_refl.
  - rewrite orb_true_iff, IH. split.
    + intros [->%String.eqb_eq|(pre & ->)]; [by exists ""|].
      by exists (String a pre).
    + intros ([|b pre] & Hpre).
      * change (String a s = suffix) in Hpre. left. subst suffix.
        apply String.eqb_refl.
      * change (String a s = String b (pre +:+ suffix)) in Hpre.
        right. injection Hpre as -> ->. by exists pre.
Qed.

Section WithBuiltins.
Context `{PyBuiltins}.

Local Abbreviation is_png_ref bucket_name :=
  (fun o : ObjectRef =>
     bucket o = bucket_name /\ exists stem, str_lower (key o) = stem +:+ ".png").

Lemma png_refs_png bucket_name p :
  Forall (is_png_ref bucket_name) (png_refs bucket_name p).
Proof.
  unfold png_refs. induction (names p) as [|obj_name rest IH]; simpl; [constructor|].
  destruct (ends_with ".png" _) eqn:Hends; [|exact IH].
  constructor; [|exact IH]. split; [done|]. simpl.
  by apply ends_with_spec.
Qed.

Section Loop.
Variable list_objects : option string -> option string -> sdk_result page.
Variable bucket_name : string.
Variable prefix : option string.

Lemma list_loop_png fuel next_start objects :
  Forall (is_png_ref bucket_name) objects ->
  match list_loop list_objects fuel bucket_name prefix next_start objects with
  | Some (SdkReturn refs) => Forall (is_png_ref bucket_name) refs
  | _ => True
  end.
Proof.
  revert next_start objects.
  induction fuel as [|fuel IH]; intros next_start objects Hobjects; simpl; [done|].
  destruct (list_objects prefix (or_none next_start)) as [p| |]; [|done|done].
  assert (Hmore : Forall (is_png_ref bucket_name)
                    (objects ++ png_refs bucket_name p)%list).
  { apply Forall_app. split; [done | apply png_refs_png]. }
  destruct (negb _); [done|]. by apply IH.
Qed.

Lemma list_loop_serves pages : forall fuel next_start objects,
  serves list_objects prefix next_start pages ->
  (length pages <= fuel)%nat ->
  list_loop list_objects fuel bucket_name prefix next_start objects
  = Some (SdkReturn (objects ++ concat (png_refs bucket_name <$> pages))%list).
Proof.
  induction pages as [|p rest IH]; intros fuel next_start objects; [done|].
  intros [Hcall Hrest] Hfuel.
  destruct fuel as [|fuel]; [simpl in Hfuel; lia|].
  simpl. rewrite Hcall.
  destruct rest as [|q rest].
  - rewrite Hrest. simpl. by rewrite app_nil_r.
  - destruct Hrest as [Hcursor Hrest]. rewrite Hcursor. simpl.
    rewrite (IH fuel (next_start_with p) (objects ++ png_refs bucket_name p)%list);
      [|done|simpl in *; lia].
    simpl. by rewrite <- app_assoc.
Qed.

Lemma list_loop_interrupted pages : forall fuel next_start objects e,
  interrupted list_objects prefix next_start pages e ->
  (length pages < fuel)%nat ->
  wrap_sdk <$> list_loop list_objects fuel bucket_name prefix next_start objects
  = Some (Raise e).
Proof.
  induction pages as [|p rest IH]; intros fuel next_start objects e Hint Hfuel;
    (destruct fuel as [|fuel]; [simpl in Hfuel; lia|]); simpl in *.
  - destruct (list_objects prefix (or_none next_start)); simpl in *;
      [done | congruence | congruence].
  - destruct Hint as (-> & -> & Hrest). simpl.
    apply IH; [done | lia].
Qed.

End Loop.

(** X9. When the backend serves the listing as a finite chain of
    pages, each naming the next by its cursor, [list_png_objects] asks
    for every page and returns the PNG references of all of them, in
    page order and in the order within each page. *)
Theorem listing_collects_every_page
    (list_objects : string -> string -> option string -> option string
                    -> sdk_result page)
    (self : OCIStorageClient) (bucket_name : string) (prefix : option string)
    (pages : list page) (fuel : nat) :
  serves (list_objects (namespace self) bucket_name) prefix None pages ->
  (length pages <= fuel)%nat ->
  list_png_objects_paged list_objects fuel self bucket_name prefix
  = Some (Ok (concat (png_refs bucket_name <$> pages))).
Proof.
  intros Hserves Hfuel. unfold list_png_objects_paged.
  by rewrite (list_loop_serves _ bucket_name prefix pages fuel None [] Hserves Hfuel).
Qed.

(** X10. Whatever the backend answers, a listing that returns holds only
    references into the requested bucket whose key ends in ".png" when
    put in lower case; a listing that fails does so with a storage
    error. *)
Theorem listing_returns_only_png
    (list_objects : string -> string -> option string -> option string
                    -> sdk_result page)
    (self : OCIStorageClient) (bucket_name : string) (prefix : option string)
    (fuel : nat) :
  match list_png_objects_paged list_objects fuel self bucket_name prefix with
  | Some (Ok refs) =>
      Forall (fun o => bucket o = bucket_name
                       /\ exists stem, str_lower (key o) = stem +:+ ".png") refs
  | Some (Raise e) => exists msg, e = OCIStorageError msg
  | None => True
  end.
Proof.
  unfold list_png_objects_paged, list_png_objects.
  pose proof (list_loop_png (list_objects (namespace self) bucket_name)
                bucket_name prefix fuel None [] (Forall_nil_2 _)) as Hpng.
  destruct (list_loop _ _ _ _ _ _) as [[refs| |]|]; simpl; try done; by eexists.
Qed.

(** X11. A failure on any page fails the whole listing with the
    storage error of that failure: the objects of the pages before it
    are not returned. *)
Theorem listing_failure_loses_pages
    (list_objects : string -> string -> option string -> option string
                    -> sdk_result page)
    (self : OCIStorageClient) (bucket_name : string) (prefix : option string)
    (pages : list page) (e : exn) (fuel : nat) :
  interrupted (list_objects (namespace self) bucket_name) prefix None pages e ->
  (length pages < fuel)%nat ->
  list_png_objects_paged list_objects fuel self bucket_name prefix
  = Some (Raise e)
  /\ exists msg, e = OCIStorageError msg.
Proof.
  intros Hint Hfuel. unfold list_png_objects_paged, list_png_objects.
  pose proof (list_loop_interrupted _ bucket_name prefix pages fuel None [] e
                Hint Hfuel) as Hloop.
  split; [exact Hloop|].
  destruct (list_loop _ _ _ _ _ _) as [[refs|m str|str]|]; simpl in Hloop;
    try discriminate Hloop; injection Hloop as <-; by eexists.
Qed.

End WithBuiltins.

Lemma listing_collects_every_page_witness :
  @list_png_objects_paged AsciiBuiltins.builtins two_pages 2 fra_client
    "quotes" None
  = Some (Ok [ {| bucket := "quotes"; key := "a.png" |};
               {| bucket := "quotes"; key := "B.PNG" |} ]).
Proof.
  apply (@listing_collects_every_page AsciiBuiltins.builtins two_pages fra_client
           "quotes" None [page_one; page_two] 2).
  - by repeat split.
  - simpl. lia.
Defined.

Lemma listing_failure_loses_pages_witness :
  @list_png_objects_paged AsciiBuiltins.builtins second_page_fails 2 fra_client
    "quotes" None
  = Some (Raise (OCIStorageError "TooManyRequests"))
  /\ exists msg, OCIStorageError "TooManyRequests" = OCIStorageError msg.
Proof.
  apply (@listing_failure_loses_pages AsciiBuiltins.builtins second_page_fails
           fra_client "quotes" None [page_one] (OCIStorageError "TooManyRequests") 2).
  - by repeat split.
  - simpl. lia.
Defined.

End ListingFacts.

(** ** The Threads calls: what success means and what escapes *)

Module ThreadsCallFacts.
Import ThreadsApi Examples.

Section Calls.
Variable send : request -> http_outcome.

(** X12. The module does not handle a missing response: when the host
    does not answer (connection failure, timeout), each of the four
    calls lets the exception of [requests] through instead of raising
    a [ThreadsApiError]. *)
Theorem missing_response_escapes (access_token user_id image_url caption detail : string)
    (container : pyval) :
  (send (CreateContainer user_id image_url caption access_token) = NoResponse detail ->
   create_media_container send access_token user_id image_url caption
   = Raise (RequestException detail))
  /\ (send (PublishContainer user_id container access_token) = NoResponse detail ->
      publish_container send access_token user_id container
      = Raise (RequestException detail))
  /\ (send (ContainerStatus container access_token) = NoResponse detail ->
      check_container_status send access_token container
      = Raise (RequestException detail))
  /\ (send (ProfileDetails user_id access_token) = NoResponse detail ->
      get_profile_details send access_token user_id
      = Raise (RequestException detail)).
Proof.
  unfold create_media_container, publish_container, check_container_status,
    get_profile_details, perform.
  repeat split; by intros ->.
Qed.

(** What [_handle_response] returns, it returns for a status below 400
    and a body that parsed. *)
Lemma handle_response_returns r data :
  _handle_response r = Ok data ->
  json r = Some data /\ (status_code r < 400)%Z.
Proof.
  unfold _handle_response. destruct (json r) as [body|]; [|done].
  destruct (Z.leb_spec 400 (status_code r)).
  - destruct (py_get body "error" _) as [error|]; simpl; [|done].
    by destruct (py_get error "message" _).
  - by intros [= ->].
Qed.

Lemma py_get_returns v key default out :
  py_get v key default = Ok out ->
  exists d, v = PDict d /\ out = from_option id default (d !! key).
Proof. destruct v; try done. intros [= <-]. by eexists. Qed.

(** X13. Container creation and publication return an identifier only
    when the host answered with a status below 400 and an object whose
    [id] member is truthy; the identifier is that member, unchanged. *)
Theorem returned_identifier (access_token user_id image_url caption : string)
    (container out : pyval) :
  let accepted (req : request) :=
    truthy out = true
    /\ exists r d, send req = Response r
         /\ (status_code r < 400)%Z
         /\ json r = Some (PDict d)
         /\ d !! "id" = Some out in
  (create_media_container send access_token user_id image_url caption = Ok out ->
   accepted (CreateContainer user_id image_url caption access_token))
  /\ (publish_container send access_token user_id container = Ok out ->
      accepted (PublishContainer user_id container access_token)).
Proof.
  assert (Hcommon : forall req missing,
    (response ← perform send req; data ← _handle_response response;
     found ← py_get data "id" PNone;
     if negb (truthy found) then Raise (ThreadsApiError missing) else Ok found)
    = Ok out ->
    truthy out = true
    /\ exists r d, send req = Response r
         /\ (status_code r < 400)%Z
         /\ json r = Some (PDict d)
         /\ d !! "id" = Some out).
  { intros req missing. unfold perform.
    destruct (send req) as [|r]; simpl; [done|].
    destruct (_handle_response r) as [data|] eqn:Hdata; simpl; [|done].
    apply handle_response_returns in Hdata as (Hjson & Hstatus).
    destruct (py_get data "id" PNone) as [found|] eqn:Hid; simpl; [|done].
    apply py_get_returns in Hid as (d & -> & ->).
    destruct (truthy (from_option id PNone (d !! "id"))) eqn:Htruthy; simpl;
      [|done].
    intros [= <-]. split; [done|]. exists r, d. repeat split; try done.
    destruct (d !! "id"); [done|]. discriminate Htruthy. }
  simpl. split; apply Hcommon.
Qed.

(** X14. An [id] member that is present but falsy (null, the empty
    string, zero, false, an empty array or object) counts as missing:
    with a status below 400 both calls fail with their missing-id
    error. *)
Theorem falsy_identifier_is_missing (access_token user_id image_url caption : string)
    (container : pyval) (r : response) (d : gmap string pyval) :
  json r = Some (PDict d) ->
  (status_code r < 400)%Z ->
  truthy (from_option id PNone (d !! "id")) = false ->
  (send (CreateContainer user_id image_url caption access_token) = Response r ->
   create_media_container send access_token user_id image_url caption
   = Raise (ThreadsApiError NoContainerId))
  /\ (send (PublishContainer user_id container access_token) = Response r ->
      publish_container send access_token user_id container
      = Raise (ThreadsApiError NoThreadId)).
Proof.
  intros Hjson Hstatus Hfalsy.
  unfold create_media_container, publish_container, perform.
  split; intros ->; simpl;
    rewrite (ThreadsApiFacts.handle_response_ok r _ Hjson Hstatus); simpl;
    by rewrite Hfalsy.
Qed.

(** X15. The status check does not require a [status] member: for a
    status code below 400 and an object body it returns the member when
    there is one and [None] otherwise, and never fails. *)
Theorem container_status_is_optional (access_token : string) (container : pyval)
    (r : response) (d : gmap string pyval) :
  send (ContainerStatus container access_token) = Response r ->
  json r = Some (PDict d) ->
  (status_code r < 400)%Z ->
  check_container_status send access_token container
  = Ok (match d !! "status" with Some status => status | None => PNone end).
Proof.
  intros Hsend Hjson Hstatus. unfold check_container_status, perform.
  rewrite Hsend. simpl.
  rewrite (ThreadsApiFacts.handle_response_ok r _ Hjson Hstatus). simpl.
  by destruct (d !! "status").
Qed.

(** A body that is not JSON fails every call with the parse error,
    whatever the status code. *)
Lemma unparsable_body_cases (access_token user_id image_url caption : string)
    (container : pyval) (r : response) :
  json r = None ->
  (send (CreateContainer user_id image_url caption access_token) = Response r ->
   create_media_container send access_token user_id image_url caption
   = Raise (ThreadsApiError ParseFailed))
  /\ (send (PublishContainer user_id container access_token) = Response r ->
      publish_container send access_token user_id container
      = Raise (ThreadsApiError ParseFailed))
  /\ (send (ContainerStatus container access_token) = Response r ->
      check_container_status send access_token container
      = Raise (ThreadsApiError ParseFailed))
  /\ (send (ProfileDetails user_id access_token) = Response r ->
      get_profile_details send access_token user_id
      = Raise (ThreadsApiError ParseFailed)).
Proof.
  intros Hjson.
  unfold create_media_container, publish_container, check_container_status,
    get_profile_details, perform, _handle_response.
  repeat split; intros ->; simpl; by rewrite Hjson.
Qed.

(** A JSON body that is not an object passes [_handle_response] when
    the status is below 400; only the calls that read a member fail. *)
Lemma non_object_body_cases (access_token user_id image_url caption : string)
    (container : pyval) (r : response) (body : pyval) :
  json r = Some body ->
  (status_code r < 400)%Z ->
  (forall d, body <> PDict d) ->
  (send (ProfileDetails user_id access_token) = Response r ->
   get_profile_details send access_token user_id = Ok body)
  /\ (send (CreateContainer user_id image_url caption access_token) = Response r ->
      create_media_container send access_token user_id image_url caption
      = Raise AttributeError)
  /\ (send (PublishContainer user_id container access_token) = Response r ->
      publish_container send access_token user_id container
      = Raise AttributeError)
  /\ (send (ContainerStatus container access_token) = Response r ->
      check_container_status send access_token container
      = Raise AttributeError).
Proof.
  intros Hjson Hstatus Hbody.
  assert (Hget : forall key default, py_get body key default = Raise AttributeError).
  { intros key default. destruct body; try done. by destruct (Hbody d). }
  unfold create_media_container, publish_container, check_container_status,
    get_profile_details, perform.
  repeat split; intros ->; simpl;
    rewrite (ThreadsApiFacts.handle_response_ok r _ Hjson Hstatus); simpl;
    by rewrite ?Hget.
Qed.

(** X16. A body that is not JSON fails all four calls with the parse
    error, whatever the status code.  A body that is JSON but not an
    object (an array, a string, a number), with a status below 400, is
    not rejected as a Threads error: the profile call returns it as it
    is, and the three calls that read a member fail with
    [AttributeError]. *)
Theorem malformed_body (access_token user_id image_url caption : string)
    (container : pyval) (r : response) :
  (json r = None ->
   (send (CreateContainer user_id image_url caption access_token) = Response r ->
    create_media_container send access_token user_id image_url caption
    = Raise (ThreadsApiError ParseFailed))
   /\ (send (PublishContainer user_id container access_token) = Response r ->
       publish_container send access_token user_id container
       = Raise (ThreadsApiError ParseFailed))
   /\ (send (ContainerStatus container access_token) = Response r ->
       check_container_status send access_token container
       = Raise (ThreadsApiError ParseFailed))
   /\ (send (ProfileDetails user_id access_token) = Response r ->
       get_profile_details send access_token user_id
       = Raise (ThreadsApiError ParseFailed)))
  /\ (forall body,
        json r = Some body -> (status_code r < 400)%Z ->
        (forall d, body <> PDict d) ->
        (send (ProfileDetails user_id access_token) = Response r ->
         get_profile_details send access_token user_id = Ok body)
        /\ (send (CreateContainer user_id image_url caption access_token)
            = Response r ->
            create_media_container send access_token user_id image_url caption
            = Raise AttributeError)
        /\ (send (PublishContainer user_id container access_token) = Response r ->
            publish_container send access_token user_id container
            = Raise AttributeError)
        /\ (send (ContainerStatus container access_token) = Response r ->
            check_container_status send access_token container
            = Raise AttributeError)).
Proof.
  split.
  - apply unparsable_body_cases.
  - intros body. apply non_object_body_cases.
Qed.

End Calls.

Lemma falsy_identifier_is_missing_witness :
  create_media_container
    (fun _ => Response (json_response 200 (PDict {[ "id" := PStr "" ]})))
    "token" "1789" "https://host/a.png" ""
  = Raise (ThreadsApiError NoContainerId)
  /\ publish_container
       (fun _ => Response (json_response 200 (PDict {[ "id" := PStr "" ]})))
       "token" "1789" (PStr "123")
     = Raise (ThreadsApiError NoThreadId).
Proof.
  pose (d := ({[ "id" := PStr "" ]} : gmap string pyval)).
  assert (Hstatus : (status_code (json_response 200 (PDict d)) < 400)%Z)
    by (simpl; lia).
  assert (Hfalsy : truthy (from_option id PNone (d !! "id")) = false)
    by (vm_compute; reflexivity).
  destruct (falsy_identifier_is_missing
              (fun _ => Response (json_response 200 (PDict d)))
              "token" "1789" "https://host/a.png" "" (PStr "123")
              (json_response 200 (PDict d)) d eq_refl Hstatus Hfalsy)
    as [Hcreate Hpublish].
  split; [apply Hcreate | apply Hpublish]; reflexivity.
Defined.

Lemma container_status_is_optional_witness :
  check_container_status (fun _ => Response empty_object_200) "token" (PStr "123")
  = Ok PNone.
Proof.
  apply (container_status_is_optional (fun _ => Response empty_object_200)
           "token" (PStr "123") empty_object_200 ∅ eq_refl eq_refl).
  simpl. lia.
Defined.

End ThreadsCallFacts.

(** ** Captions: the download, the text that is kept, the failures *)

Module CaptionTextFacts.
Import Caption Examples MoreExamples.

Lemma take_chars_prefix : forall s n,
  is_prefix (take_chars n s) s = true.
Proof.
  induction s as [|c s IH]; intros n; simpl; [done|].
  destruct (is_continuation c); simpl.
  - by rewrite Ascii.eqb_refl, IH.
  - destruct n; simpl; [done|]. by rewrite Ascii.eqb_refl, IH.
Qed.

Lemma take_chars_count : forall s n,
  char_count (take_chars n s) = Nat.min n (char_count s).
Proof.
  induction s as [|c s IH]; intros n; simpl; [by destruct n|].
  destruct (is_continuation c) eqn:Hc; simpl.
  - by rewrite Hc, IH.
  - destruct n; simpl; [done|]. by rewrite Hc, IH.
Qed.

Lemma take_chars_all : forall s n,
  (char_count s <= n)%nat -> take_chars n s = s.
Proof.
  induction s as [|c s IH]; intros n; simpl; [done|].
  destruct (is_continuation c).
  - intros Hn. by rewrite IH.
  - destruct n; [lia|]. intros Hn. rewrite IH; [done | lia].
Qed.

(** The cut falls between two characters: what is left out does not
    begin with a continuation byte. *)
Lemma take_chars_boundary : forall s n,
  exists rest,
    s = take_chars n s +:+ rest
    /\ match rest with
       | EmptyString => True
       | String c _ => is_continuation c = false
       end.
Proof.
  induction s as [|c s IH]; intros n; simpl; [by exists ""|].
  destruct (is_continuation c) eqn:Hc.
  - destruct (IH n) as (rest & Hs & Hrest). exists rest. split; [|done].
    change (String c s = String c (take_chars n s +:+ rest)). by rewrite <- Hs.
  - destruct n as [|n].
    + exists (String c s). by split.
    + destruct (IH n) as (rest & Hs & Hrest). exists rest. split; [|done].
      change (String c s = String c (take_chars n s +:+ rest)). by rewrite <- Hs.
Qed.

(** X17. When the image host answers with a status of 400 or more, the
    download fails with a caption error that carries the status and the
    beginning of the body: its first 200 characters, cut between two
    characters, and all of it when it has no more than 200. *)
Theorem download_error_is_bounded (get : string -> http_outcome) (url : string)
    (r : response) :
  get url = Response r ->
  (400 <= status_code r)%Z ->
  exists body,
    _download_image_bytes get url
    = Raise (ClaudeCaptionError (DownloadStatus (status_code r) body))
    /\ is_prefix body (text r) = true
    /\ char_count body = Nat.min 200 (char_count (text r))
    /\ ((char_count (text r) <= 200)%nat -> body = text r)
    /\ exists rest,
         text r = body +:+ rest
         /\ match rest with
            | EmptyString => True
            | String c _ => is_continuation c = false
            end.
Proof.
  intros Hget Hstatus. unfold _download_image_bytes. rewrite Hget.
  destruct (Z.leb_spec 400 (status_code r)); [|lia].
  eexists. split; [reflexivity|]. split; [apply take_chars_prefix|].
  split; [apply take_chars_count|]. split; [apply take_chars_all|].
  apply take_chars_boundary.
Qed.

Lemma download_error_is_bounded_witness :
  _download_image_bytes (fun _ => Response euro_error_404) "https://host/a.png"
  = Raise (ClaudeCaptionError (DownloadStatus 404 euros_150))
  /\ String.length euros_150 = 450%nat.
Proof.
  assert (Hstatus : (400 <= status_code euro_error_404)%Z) by (simpl; lia).
  destruct (download_error_is_bounded (fun _ => Response euro_error_404)
              "https://host/a.png" euro_error_404 eq_refl Hstatus)
    as (body & Hraise & _ & _ & Hall & _).
  assert (Hshort : (char_count (text euro_error_404) <= 200)%nat)
    by (vm_compute; lia).
  rewrite (Hall Hshort) in Hraise.
  split; [exact Hraise | vm_compute; reflexivity].
Defined.

Section WithBuiltins.
Context `{PyBuiltins}.

(** X18. A caption that is returned is either the non-empty stripped
    join of the answer's text parts, with nothing logged, or the
    configured fallback, with one warning logged: the empty string is
    returned only if it is the fallback. *)
Theorem caption_is_text_or_fallback `{ClaudeConfig C} (config : C)
    (image_url : string) (get : string -> http_outcome)
    (create : messages_request -> api_outcome)
    (records : list (log_level * string)) (text : string) :
  generate_caption config image_url get create = (records, Ok text) ->
  exists image content,
    _download_image_bytes get image_url = Ok image
    /\ create {| req_api_key := anthropic_api_key config;
                 req_model := claude_model config;
                 req_max_tokens := claude_max_tokens config;
                 req_image := image |} = ApiMessage content
    /\ ((records = []
         /\ text = str_strip (String.concat " " (caption_parts content))
         /\ text <> "")
        \/ (records
            = [(WARNING, "Claude returned no text content; using fallback caption")]
            /\ str_strip (String.concat " " (caption_parts content)) = ""
            /\ text = caption_fallback config)).
Proof.
  unfold generate_caption.
  destruct (_download_image_bytes get image_url) as [image|]; [|done].
  destruct (create _) as [|content] eqn:Hcreate; [done|].
  destruct (str_truthy _) eqn:Htext; simpl; intros [= <- <-];
    exists image, content; (split; [done|]); (split; [done|]).
  - left. apply str_truthy_spec in Htext. done.
  - right. split; [done|]. split; [|done].
    destruct (String.eqb_spec
                (str_strip (String.concat " " (caption_parts content))) "");
      [done|]. unfold str_truthy in Htext.
    by apply negb_false_iff, String.eqb_eq in Htext.
Qed.

(** X19. Caption generation fails in two ways only.  If the image
    cannot be downloaded it fails with the download's caption error,
    logs nothing and does not ask the model; if the model call raises
    an API error it logs one error record and fails with the caption
    error "Claude API call failed". *)
Theorem caption_failure_causes `{ClaudeConfig C} (config : C)
    (image_url : string) (get : string -> http_outcome)
    (create : messages_request -> api_outcome)
    (records : list (log_level * string)) (e : exn) :
  generate_caption config image_url get create = (records, Raise e) ->
  (_download_image_bytes get image_url = Raise e
   /\ records = []
   /\ (forall other, generate_caption config image_url get other = ([], Raise e))
   /\ exists why, e = ClaudeCaptionError why)
  \/ (exists image detail,
        _download_image_bytes get image_url = Ok image
        /\ create {| req_api_key := anthropic_api_key config;
                     req_model := claude_model config;
                     req_max_tokens := claude_max_tokens config;
                     req_image := image |} = ApiError detail
        /\ records = [(ERROR, "Claude API request failed: %s")]
        /\ e = ClaudeCaptionError ApiCallFailed).
Proof.
  unfold generate_caption.
  destruct (_download_image_bytes get image_url) as [image|e'] eqn:Hdown.
  - destruct (create _) as [detail|content] eqn:Hcreate.
    + intros [= <- <-]. right. by exists image, detail.
    + by destruct (negb _).
  - intros [= <- <-]. left. repeat split; try done.
    unfold _download_image_bytes in Hdown.
    destruct (get image_url) as [detail|r]; [injection Hdown as <-; by eexists|].
    destruct (400 <=? status_code r)%Z; [|done].
    injection Hdown as <-. by eexists.
Qed.


End WithBuiltins.

Lemma caption_is_text_or_fallback_witness :
  exists image content,
    _download_image_bytes (Orchestrator.image_get world_happy) "https://host/a.png"
    = Ok image
    /\ Orchestrator.messages_create world_happy
         {| req_api_key := anthropic_api_key settings_default;
            req_model := claude_model settings_default;
            req_max_tokens := claude_max_tokens settings_default;
            req_image := image |} = ApiMessage content
    /\ "Nice view"
       = AsciiBuiltins.strip
           (String.concat " " (@caption_parts AsciiBuiltins.builtins content)).
Proof.
  assert (Hrun : @generate_caption AsciiBuiltins.builtins _ _ settings_default
                   "https://host/a.png" (Orchestrator.image_get world_happy)
                   (Orchestrator.messages_create world_happy)
                 = ([], Ok "Nice view")) by (vm_compute; reflexivity).
  destruct (@caption_is_text_or_fallback AsciiBuiltins.builtins _ _
              settings_default "https://host/a.png"
              (Orchestrator.image_get world_happy)
              (Orchestrator.messages_create world_happy) [] "Nice view" Hrun)
    as (image & content & Hdown & Hcreate & [(_ & Htext & _)|(Hrecords & _)]).
  - by exists image, content.
  - discriminate Hrecords.
Defined.

Lemma caption_failure_causes_witness :
  exists image detail,
    _download_image_bytes (Orchestrator.image_get world_caption_fails)
      "https://host/a.png" = Ok image
    /\ Orchestrator.messages_create world_caption_fails
         {| req_api_key := anthropic_api_key settings_default;
            req_model := claude_model settings_default;
            req_max_tokens := claude_max_tokens settings_default;
            req_image := image |} = ApiError detail.
Proof.
  assert (Hrun : @generate_caption AsciiBuiltins.builtins _ _ settings_default
                   "https://host/a.png" (Orchestrator.image_get world_caption_fails)
                   (Orchestrator.messages_create world_caption_fails)
                 = ([(ERROR, "Claude API request failed: %s")],
                    Raise (ClaudeCaptionError ApiCallFailed)))
    by (vm_compute; reflexivity).
  destruct (@caption_failure_causes AsciiBuiltins.builtins _ _ settings_default
              "https://host/a.png" (Orchestrator.image_get world_caption_fails)
              (Orchestrator.messages_create world_caption_fails)
              [(ERROR, "Claude API request failed: %s")]
              (ClaudeCaptionError ApiCallFailed) Hrun)
    as [(_ & Hrecords & _)|(image & detail & Hdown & Hcreate & _)].
  - discriminate Hrecords.
  - by exists image, detail.
Defined.

End CaptionTextFacts.

(** ** The helpers of [main]: label, notification, [finish] *)

Module FlowFacts.
Import Config Storage Orchestrator Pipeline Examples.

(** X21. The account label never fails on a profile that is absent or
    an object, and it falls back to the user id exactly when the
    profile has neither a usable display name nor a usable username; a
    profile that is falsy counts as absent, and a truthy profile that is
    not an object raises [AttributeError]. *)
Theorem label_falls_back_to_user_id (details : option pyval) (user_id : string) :
  (from_option truthy false details = false ->
   _format_threads_label details user_id = Ok (UserId user_id))
  /\ (forall d, details = Some (PDict d) ->
      exists account,
        _format_threads_label details user_id = Ok account
        /\ (account = UserId user_id <->
            truthy (from_option id PNone (d !! "display_name")) = false
            /\ truthy (from_option id PNone (d !! "username")) = false))
  /\ (forall v, details = Some v -> truthy v = true -> (forall d, v <> PDict d) ->
      _format_threads_label details user_id = Raise AttributeError).
Proof.
  unfold _format_threads_label. repeat split.
  - by intros ->.
  - intros d ->. simpl.
    destruct (negb (bool_decide (d = ∅))) eqn:Hd; simpl.
    + destruct (truthy (from_option id PNone (d !! "display_name"))),
        (truthy (from_option id PNone (d !! "username")));
        simpl; eexists; (split; [reflexivity|]); split;
        first [ by intros [] | done | by intros [? ?] ].
    + apply negb_false_iff, bool_decide_eq_true in Hd. subst d.
      rewrite !lookup_empty. simpl. by eexists.
  - intros v -> Hv Hnot. simpl. rewrite Hv. by destruct v; try done; destruct (Hnot d).
Qed.

Section Flow.
Context `{PyBuiltins}.
Variable w : World.

(** X22. The notification is best effort: it never raises, it sends
    nothing unless both the bot token and the chat id are set and
    non-empty, and otherwise it sends the message once; a missing
    response or a status from 400 to 599 adds one warning record and
    nothing else. *)
Theorem telegram_is_best_effort (bot chat : option string)
    (message : list notice_line) (st : run_state) :
  exists evs,
    _send_telegram_message w bot chat message st = (Ok tt, add_events evs st)
    /\ if opt_truthy bot && opt_truthy chat
       then exists records,
         evs = SendTelegram (default "" bot) (default "" chat) message :: records
         /\ records
            = (if match telegram w (default "" bot) (default "" chat) message with
                  | NoResponse _ => true
                  | Response r =>
                      (400 <=? status_code r)%Z && (status_code r <? 600)%Z
                  end
               then [Log WARNING "Failed to send Telegram notification: %s"]
               else [])
       else evs = [].
Proof.
  unfold _send_telegram_message.
  destruct (opt_truthy bot), (opt_truthy chat); simpl;
    try (exists []; by rewrite OrchestratorFacts.add_events_nil).
  unfold mbind, M_bind, log, emit, modify, skip, mret, M_ret. simpl.
  destruct (telegram w _ _ _) as [?|r];
    [|destruct ((400 <=? status_code r)%Z && (status_code r <? 600)%Z)];
    rewrite ?OrchestratorFacts.add_events_add_events;
    eexists; (split; [reflexivity|]); by eexists.
Qed.

Variables bot chat : option string.
Variable account : label.

(** X23. [finish] returns the code it is given and never raises,
    whatever the revocation and the notification answer.  When a link is
    held and the client exists it requests the revocation of that link
    exactly once and forgets the link; otherwise it requests none.
    Besides that it only adds records and the notification. *)
Theorem finish_returns_its_code (code : Z) (error : option exn) (st : run_state) :
  exists evs,
    finish w bot chat account code error st
    = (Ok code, add_events evs (after_revocation st))
    /\ forallb is_notification evs = true
    /\ revoked (trace (finish w bot chat account code error st).2)
       = (revoked (trace st)
          ++ match par_request st, storage st with
             | Some par, Some _ => [par]
             | _, _ => []
             end)%list
    /\ par_request (finish w bot chat account code error st).2
       = match storage st with
         | Some _ => None
         | None => par_request st
         end.
Proof.
  destruct (OrchestratorFacts.finish_spec w bot chat account code error st)
    as (evs & Hfin & Hevs).
  exists evs. split; [exact Hfin|]. split; [exact Hevs|].
  rewrite Hfin. simpl.
  apply OrchestratorFacts.notifications_silent in Hevs as (_ & Hr & _).
  rewrite OrchestratorFacts.revoked_app, Hr, app_nil_r.
  unfold after_revocation.
  destruct (par_request st) as [par|] eqn:Hpar, (storage st) as [client|]; simpl;
    rewrite ?OrchestratorFacts.revoked_app, ?app_nil_r; simpl; by rewrite ?Hpar.
Qed.

End Flow.
End FlowFacts.

(** ** Whole runs: exit status, deletion, order of the calls *)

Module RunFacts.
Import Config Storage Orchestrator Pipeline Examples MoreExamples.

Lemma deletions_app t1 t2 :
  deletions (t1 ++ t2) = (deletions t1 ++ deletions t2)%list.
Proof. apply omap_app. Qed.

Lemma steps_app t1 t2 : steps (t1 ++ t2) = (steps t1 ++ steps t2)%list.
Proof. apply omap_app. Qed.

Lemma notifications_delete_nothing t :
  forallb is_notification t = true -> deletions t = [].
Proof.
  induction t as [|e t IH]; [done|]. simpl.
  intros [He Ht]%andb_true_iff. destruct e; try discriminate; simpl; by apply IH.
Qed.

Lemma ascending_weaken lo lo' l :
  (lo <= lo')%nat -> ascending lo' l = true -> ascending lo l = true.
Proof.
  destruct l as [|x l]; [done|]. simpl.
  intros Hlo [Hx Hl]%andb_true_iff. apply andb_true_iff. split; [|done].
  apply Nat.leb_le. apply Nat.leb_le in Hx. lia.
Qed.

Lemma records_have_no_step (records : list (log_level * string)) :
  steps ((fun r => Log r.1 r.2) <$> records) = [].
Proof. induction records as [|r records IH]; [done|]. exact IH. Qed.

Lemma records_delete_nothing (records : list (log_level * string)) :
  omap (fun e => match e with DeleteObject obj => Some obj | _ => None end)
    ((fun r => Log r.1 r.2) <$> records) = [].
Proof. induction records as [|r records IH]; [done|]. exact IH. Qed.

Section Flow.
Context `{PyBuiltins}.
Variable w : World.
Variable settings : Settings.
Variables bot chat : option string.
Variable account : label.

Ltac run_monad :=
  unfold mbind, M_bind, mret, M_ret, log, emit, modify, skip, raise, lift, get;
  simpl.

(** The two outcomes of [time.sleep] in the wait block. *)
Ltac sleep_cases :=
  try (unfold time_sleep;
       match goal with
       | |- context [(?a <=? max_sleep_seconds)%Z] =>
           destruct (Z.leb_spec a max_sleep_seconds)
       end;
       unfold emit, modify, raise; simpl).

(** *** The exit status and the deletion *)

Lemma finish_keeps code error st :
  exists st',
    finish w bot chat account code error st = (Ok code, st')
    /\ thread_id st' = thread_id st
    /\ selected_object st' = selected_object st
    /\ deletions (trace st') = deletions (trace st).
Proof.
  destruct (OrchestratorFacts.finish_spec w bot chat account code error st)
    as (evs & -> & Hevs).
  eexists. split; [reflexivity|].
  apply notifications_delete_nothing in Hevs. simpl.
  rewrite deletions_app, Hevs, app_nil_r.
  unfold after_revocation.
  destruct (par_request st), (storage st); simpl;
    rewrite ?deletions_app, ?app_nil_r; done.
Qed.

Lemma finish_failed obj error st :
  pending obj st -> settled obj (finish w bot chat account 1 error st).
Proof.
  intros (Hth & Hsel & Hdel).
  destruct (finish_keeps 1 error st) as (st' & -> & Hth' & Hsel' & Hdel').
  unfold settled, verdict. simpl. rewrite Hth', Hsel', Hdel', Hth. done.
Qed.

Lemma finish_unpublished error st :
  thread_id st = None -> deletions (trace st) = [] ->
  unpublished (finish w bot chat account 1 error st).
Proof.
  intros Hth Hdel.
  destruct (finish_keeps 1 error st) as (st' & -> & Hth' & _ & Hdel').
  unfold unpublished, verdict. simpl. rewrite Hth', Hdel', Hth. done.
Qed.

Lemma crash_settled obj e st : pending obj st -> settled obj (Raise e, st).
Proof.
  intros (Hth & Hsel & Hdel). unfold settled, verdict. simpl.
  by rewrite Hth, Hsel, Hdel.
Qed.

Ltac pending_now :=
  match goal with
  | Hp : pending _ _ |- _ => destruct Hp as (? & ? & ?)
  end;
  unfold pending, deletions in *; simpl;
  repeat (progress (rewrite ?omap_app, ?records_delete_nothing; simpl));
  repeat match goal with
         | Hd : omap _ _ = _ |- _ => rewrite Hd
         end;
  done.

Lemma delete_block_settled client obj thread st :
  thread_id st = Some thread -> selected_object st = Some obj ->
  deletions (trace st) = [] ->
  settled obj (delete_block w bot chat account client obj st).
Proof.
  intros Hth Hsel Hdel. unfold delete_block, delete_object, wrap_sdk. run_monad.
  destruct (delete_answer w obj) as [[]|message str|str]; simpl;
    rewrite ?OrchestratorFacts.add_events_add_events;
    match goal with
    | |- context [finish ?w ?b ?c ?a ?code ?err ?st1] =>
        destruct (finish_keeps code err st1) as (st' & -> & Hth' & Hsel' & Hdel')
    end;
    unfold settled, verdict; simpl in *;
    rewrite Hth', Hsel', Hdel', Hth, deletions_app, Hdel; done.
Qed.

Lemma publish_block_settled client obj container st :
  pending obj st ->
  settled obj (publish_block w settings bot chat account client obj container st).
Proof.
  intros Hp. unfold publish_block, fail_with. run_monad.
  destruct (ThreadsApi.publish_container _ _ _ _) as [thread|[]]; simpl;
    rewrite ?OrchestratorFacts.add_events_add_events;
    first [ apply (delete_block_settled _ _ thread); pending_now
          | apply crash_settled; pending_now
          | apply finish_failed; pending_now ].
Qed.

Lemma wait_block_settled client obj container st :
  pending obj st ->
  settled obj (wait_block w settings bot chat account client obj container st).
Proof.
  intros Hp. unfold wait_block. run_monad.
  destruct (negb _); simpl; sleep_cases;
    try (destruct (ThreadsApi.check_container_status _ _ _) as [status|[]]; simpl;
         [destruct (truthy status); simpl|..]);
    rewrite ?OrchestratorFacts.add_events_add_events;
    first [ apply publish_block_settled; pending_now
          | apply crash_settled; pending_now ].
Qed.

Lemma container_block_settled client obj url st :
  pending obj st ->
  settled obj (container_block w settings bot chat account client obj url st).
Proof.
  intros Hp. unfold container_block, fail_with. run_monad.
  destruct (ThreadsApi.create_media_container _ _ _ _ _) as [container|[]]; simpl;
    rewrite ?OrchestratorFacts.add_events_add_events;
    first [ apply wait_block_settled; pending_now
          | apply crash_settled; pending_now
          | apply finish_failed; pending_now ].
Qed.

Lemma caption_block_settled client obj url st :
  pending obj st ->
  settled obj (caption_block w settings bot chat account client obj url st).
Proof.
  intros Hp. unfold caption_block. run_monad.
  destruct (enable_captioning settings); simpl.
  - destruct (Caption.generate_caption _ _ _ _) as [records outcome]. simpl.
    destruct outcome as [text|[]]; simpl;
      rewrite ?OrchestratorFacts.add_events_add_events;
      first [ apply container_block_settled; pending_now
            | apply crash_settled; pending_now ].
  - apply container_block_settled; pending_now.
Qed.

Lemma crash_unpublished e st :
  thread_id st = None -> deletions (trace st) = [] -> unpublished (Raise e, st).
Proof. intros Hth Hdel. by repeat split. Qed.

Ltac quiet_now :=
  unfold deletions in *; simpl;
  repeat (progress (rewrite ?omap_app; simpl));
  repeat match goal with
         | Hd : omap _ _ = _ |- _ => rewrite Hd
         end;
  done.

Lemma select_block_settled client st :
  thread_id st = None -> deletions (trace st) = [] ->
  unpublished (select_block w settings bot chat account client st)
  \/ exists obj, settled obj (select_block w settings bot chat account client st).
Proof.
  intros Hth Hdel. unfold select_block, attempt, select_and_presign, fail_with.
  run_monad.
  destruct (list_png_objects _ _ _ _) as [objects|[]]; simpl;
    rewrite ?OrchestratorFacts.add_events_add_events;
    try (left; first [apply finish_unpublished | apply crash_unpublished]; quiet_now).
  destruct (choose_random_object _ _) as [selected|[]]; simpl;
    rewrite ?OrchestratorFacts.add_events_add_events;
    try (left; first [apply finish_unpublished | apply crash_unpublished]; quiet_now).
  destruct (generate_presigned_url _ _ _ _ _ _) as [par|[]]; simpl;
    rewrite ?OrchestratorFacts.add_events_add_events;
    try (left; first [apply finish_unpublished | apply crash_unpublished]; quiet_now).
  right. exists selected. apply caption_block_settled.
  unfold pending. split; [done|]. split; [done|]. quiet_now.
Qed.

Lemma storage_block_settled st :
  thread_id st = None -> deletions (trace st) = [] ->
  unpublished (storage_block w settings bot chat account st)
  \/ exists obj, settled obj (storage_block w settings bot chat account st).
Proof.
  intros Hth Hdel. unfold storage_block, fail_with. run_monad.
  destruct (Storage.init _ _ _ _) as [client|[]]; simpl;
    rewrite ?OrchestratorFacts.add_events_add_events;
    try (left; first [apply finish_unpublished | apply crash_unpublished]; quiet_now).
  apply select_block_settled; quiet_now.
Qed.

(** *** The order of the calls *)

Lemma ascending_app k k' l l' :
  ascending k (l ++ [k']) = true -> ascending k' l' = true ->
  ascending k (l ++ l') = true.
Proof.
  revert k. induction l as [|x l IH]; intros k; simpl.
  - rewrite andb_true_r. intros Hk%Nat.leb_le.
    apply ascending_weaken. lia.
  - intros [Hx Hl]%andb_true_iff Hl'. apply andb_true_iff. split; [done|].
    by apply IH.
Qed.

(** The events [pre] lead from [t] to the state in which the next
    block starts; that block's calls come after theirs. *)
Lemma ordered_extend k k' (t pre started final : list event) :
  started = (t ++ pre)%list ->
  (exists evs, final = (started ++ evs)%list /\ ascending k' (steps evs) = true) ->
  ascending k (steps pre ++ [k']) = true ->
  exists evs, final = (t ++ evs)%list /\ ascending k (steps evs) = true.
Proof.
  intros -> (evs & -> & Hevs) Hpre. exists (pre ++ evs)%list.
  split; [by rewrite app_assoc|]. rewrite steps_app. by eapply ascending_app.
Qed.

Ltac trace_grows :=
  simpl; rewrite <- ?app_assoc;
  first [ reflexivity | symmetry; apply app_nil_r ].

Ltac ends_here :=
  first [ exists []; split; [symmetry; apply app_nil_r | reflexivity]
        | eexists; split; [simpl; rewrite <- ?app_assoc; reflexivity
                          | vm_compute; reflexivity] ].

Ltac then_block lemma :=
  eapply ordered_extend; [ | apply lemma | ];
  [ trace_grows | vm_compute; reflexivity ].

Lemma send_telegram_order b c message st :
  exists evs,
    _send_telegram_message w b c message st = (Ok tt, add_events evs st)
    /\ ascending 12 (steps evs) = true.
Proof.
  unfold _send_telegram_message.
  destruct (negb (opt_truthy b) || negb (opt_truthy c)).
  - exists []. by rewrite OrchestratorFacts.add_events_nil.
  - unfold mbind, M_bind, log, emit, modify, skip, mret, M_ret. simpl.
    destruct (telegram w _ _ _) as [?|r];
      [|destruct ((400 <=? status_code r)%Z && (status_code r <? 600)%Z)];
      rewrite ?OrchestratorFacts.add_events_add_events; by eexists.
Qed.

Lemma finish_notifies_last code error st :
  exists evs,
    finish w bot chat account code error st
    = (Ok code, add_events evs (after_revocation st))
    /\ ascending 12 (steps evs) = true.
Proof.
  assert (Hnotify : forall message st0 pre st1,
    st1 = add_events pre st0 ->
    steps pre = [] ->
    exists evs,
      (let (r0, st'0) :=
         (if opt_truthy bot && opt_truthy chat
          then _send_telegram_message w bot chat message
          else skip) st1 in
       match r0 with
       | Ok _ => (Ok code, st'0)
       | Raise e => (Raise e, st'0)
       end) = (Ok code, add_events evs st0)
      /\ ascending 12 (steps evs) = true).
  { intros message st0 pre st1 -> Hpre.
    destruct (opt_truthy bot && opt_truthy chat).
    - destruct (send_telegram_order bot chat message (add_events pre st0))
        as (evs & -> & Hevs).
      exists (pre ++ evs)%list. rewrite OrchestratorFacts.add_events_add_events.
      split; [done|]. by rewrite steps_app, Hpre.
    - exists pre. split; [done|]. by rewrite Hpre. }
  unfold finish, after_revocation.
  unfold mbind, M_bind, get at 1. simpl.
  destruct (par_request st) as [par|], (storage st) as [client|];
    try (by apply (Hnotify _ st []); [rewrite OrchestratorFacts.add_events_nil|]).
  unfold revoke_preauthenticated_request, wrap_sdk.
  destruct (revoke_answer w par) as [[]|message str|str]; simpl.
  - by apply (Hnotify _ _ []); [rewrite OrchestratorFacts.add_events_nil|].
  - by apply (Hnotify _ (set_par_request None (add_events [RevokeLink par] st))
             [Log WARNING "Failed to revoke pre-authenticated request: %s"]).
  - by apply (Hnotify _ (set_par_request None (add_events [RevokeLink par] st))
             [Log WARNING "Failed to revoke pre-authenticated request: %s"]).
Qed.

Lemma finish_order code error st :
  exists evs,
    trace (finish w bot chat account code error st).2 = (trace st ++ evs)%list
    /\ ascending 11 (steps evs) = true.
Proof.
  destruct (finish_notifies_last code error st) as (evs & -> & Hevs). simpl.
  unfold after_revocation.
  destruct (par_request st) as [par|], (storage st) as [client|]; simpl;
    try (exists evs; split; [done|]; by apply (ascending_weaken 11 12); [lia|]).
  exists (RevokeLink par :: evs). split; [by rewrite <- app_assoc|]. done.
Qed.

Lemma delete_block_order client obj st :
  exists evs,
    trace (delete_block w bot chat account client obj st).2 = (trace st ++ evs)%list
    /\ ascending 10 (steps evs) = true.
Proof.
  unfold delete_block, delete_object, wrap_sdk. run_monad.
  destruct (delete_answer w obj) as [[]|message str|str]; simpl;
    rewrite ?OrchestratorFacts.add_events_add_events;
    then_block finish_order.
Qed.

Lemma publish_block_order client obj container st :
  exists evs,
    trace (publish_block w settings bot chat account client obj container st).2
    = (trace st ++ evs)%list
    /\ ascending 9 (steps evs) = true.
Proof.
  unfold publish_block, fail_with. run_monad.
  destruct (ThreadsApi.publish_container _ _ _ _) as [thread|[]]; simpl;
    rewrite ?OrchestratorFacts.add_events_add_events;
    first [ then_block delete_block_order
          | then_block finish_order
          | ends_here ].
Qed.

Lemma wait_block_order client obj container st :
  exists evs,
    trace (wait_block w settings bot chat account client obj container st).2
    = (trace st ++ evs)%list
    /\ ascending 7 (steps evs) = true.
Proof.
  unfold wait_block. run_monad.
  destruct (negb _); simpl; sleep_cases;
    try (destruct (ThreadsApi.check_container_status _ _ _) as [status|[]]; simpl;
         [destruct (truthy status); simpl|..]);
    rewrite ?OrchestratorFacts.add_events_add_events;
    first [ then_block publish_block_order | ends_here ].
Qed.

Lemma container_block_order client obj url st :
  exists evs,
    trace (container_block w settings bot chat account client obj url st).2
    = (trace st ++ evs)%list
    /\ ascending 6 (steps evs) = true.
Proof.
  unfold container_block, fail_with. run_monad.
  destruct (ThreadsApi.create_media_container _ _ _ _ _) as [container|[]]; simpl;
    rewrite ?OrchestratorFacts.add_events_add_events;
    first [ then_block wait_block_order
          | then_block finish_order
          | ends_here ].
Qed.

Lemma caption_block_order client obj url st :
  exists evs,
    trace (caption_block w settings bot chat account client obj url st).2
    = (trace st ++ evs)%list
    /\ ascending 5 (steps evs) = true.
Proof.
  unfold caption_block. run_monad.
  destruct (enable_captioning settings); simpl.
  - destruct (Caption.generate_caption _ _ _ _) as [records outcome]. simpl.
    destruct outcome as [text|[]]; simpl;
      rewrite ?OrchestratorFacts.add_events_add_events;
      first [ eapply ordered_extend;
              [ | apply container_block_order | ];
              [ trace_grows
              | simpl; rewrite ?steps_app, records_have_no_step; reflexivity ]
            | eexists; split;
              [ simpl; rewrite <- ?app_assoc; reflexivity
              | simpl; rewrite ?steps_app, records_have_no_step; reflexivity ] ].
  - then_block container_block_order.
Qed.

Lemma select_block_order client st :
  exists evs,
    trace (select_block w settings bot chat account client st).2
    = (trace st ++ evs)%list
    /\ ascending 2 (steps evs) = true.
Proof.
  unfold select_block, attempt, select_and_presign, fail_with. run_monad.
  destruct (list_png_objects _ _ _ _) as [objects|[]]; simpl;
    rewrite ?OrchestratorFacts.add_events_add_events;
    try first [ then_block finish_order | ends_here ].
  destruct (choose_random_object _ _) as [selected|[]]; simpl;
    rewrite ?OrchestratorFacts.add_events_add_events;
    try first [ then_block finish_order | ends_here ].
  destruct (generate_presigned_url _ _ _ _ _ _) as [par|[]]; simpl;
    rewrite ?OrchestratorFacts.add_events_add_events;
    first [ then_block caption_block_order
          | then_block finish_order
          | ends_here ].
Qed.

Lemma storage_block_order st :
  exists evs,
    trace (storage_block w settings bot chat account st).2 = (trace st ++ evs)%list
    /\ ascending 1 (steps evs) = true.
Proof.
  unfold storage_block, fail_with. run_monad.
  destruct (Storage.init _ _ _ _) as [client|[]]; simpl;
    rewrite ?OrchestratorFacts.add_events_add_events;
    first [ then_block select_block_order
          | then_block finish_order
          | ends_here ].
Qed.

(** *** The image handed to the captioner and to the platform *)

Lemma media_calls_app t1 t2 :
  media_calls (t1 ++ t2) = (media_calls t1 ++ media_calls t2)%list.
Proof. apply omap_app. Qed.

Lemma late_calls_hand_nothing evs : forall k,
  (7 <= k)%nat -> ascending k (steps evs) = true -> media_calls evs = [].
Proof.
  induction evs as [|e evs IH]; intros k Hk; [done|].
  destruct e; simpl; try (intros [Hle Hrest]%andb_true_iff);
    try (apply Nat.leb_le in Hle; lia);
    first [ by apply (IH k) | eapply IH; [|exact Hrest]; lia ].
Qed.

Lemma media_extend (t pre started final : list event)
    (expected later : list (string * option string)) :
  started = (t ++ pre)%list ->
  (exists evs, final = (started ++ evs)%list /\ media_calls evs = later) ->
  (media_calls pre ++ later)%list = expected ->
  exists evs, final = (t ++ evs)%list /\ media_calls evs = expected.
Proof.
  intros -> (evs & -> & Hevs) <-. exists (pre ++ evs)%list.
  split; [by rewrite app_assoc|]. by rewrite media_calls_app, Hevs.
Qed.

Lemma quiet_block k (started final : list event) :
  (exists evs, final = (started ++ evs)%list /\ ascending k (steps evs) = true) ->
  (7 <= k)%nat ->
  exists evs, final = (started ++ evs)%list /\ media_calls evs = [].
Proof.
  intros (evs & -> & Hevs) Hk. exists evs. split; [done|].
  by apply (late_calls_hand_nothing evs k).
Qed.

Ltac then_quiet lemma :=
  eapply media_extend;
  [ | eapply quiet_block; [apply lemma | lia] | ];
  [ trace_grows | reflexivity ].

Lemma container_block_media client obj url st :
  exists evs,
    trace (container_block w settings bot chat account client obj url st).2
    = (trace st ++ evs)%list
    /\ media_calls evs = [(url, Some (caption_payload st))].
Proof.
  unfold container_block, fail_with, caption_payload. run_monad.
  destruct (ThreadsApi.create_media_container _ _ _ _ _) as [container|[]]; simpl;
    rewrite ?OrchestratorFacts.add_events_add_events;
    first [ then_quiet wait_block_order
          | then_quiet finish_order
          | eexists; split; [simpl; rewrite <- ?app_assoc; reflexivity
                            | reflexivity] ].
Qed.

Lemma records_hand_nothing (records : list (log_level * string)) :
  media_calls ((fun r => Log r.1 r.2) <$> records) = [].
Proof. induction records as [|r records IH]; [done|]. exact IH. Qed.

Lemma media_calls_cons e t :
  media_calls (e :: t) = (media_calls [e] ++ media_calls t)%list.
Proof. apply (media_calls_app [e] t). Qed.

Ltac media_now :=
  repeat first
    [ rewrite media_calls_app
    | rewrite records_hand_nothing
    | match goal with
      | |- context [media_calls (?e :: ?t)] =>
          lazymatch t with
          | [] => fail
          | _ => rewrite (media_calls_cons e t)
          end
      end ];
  repeat match goal with
         | Hm : media_calls _ = _ |- _ => rewrite Hm
         end;
  reflexivity.

Lemma payload_of_caption text st :
  caption st = Some text -> caption_payload st = text.
Proof.
  intros Hc. unfold caption_payload. rewrite Hc. simpl.
  destruct (str_truthy text) eqn:Ht; [done|].
  unfold str_truthy in Ht. by apply negb_false_iff, String.eqb_eq in Ht.
Qed.

Lemma caption_block_media client obj url st :
  exists evs posted,
    trace (caption_block w settings bot chat account client obj url st).2
    = (trace st ++ evs)%list
    /\ media_calls evs
       = ((if enable_captioning settings then [(url, None)] else []) ++ posted)%list
    /\ (posted = [] \/ posted = [(url, Some (posted_text w settings url))]).
Proof.
  unfold caption_block, posted_text. run_monad.
  destruct (enable_captioning settings); simpl.
  - destruct (Caption.generate_caption _ _ _ _) as [records outcome]. simpl.
    destruct outcome as [text|[]]; simpl;
      rewrite ?OrchestratorFacts.add_events_add_events;
      try (eexists _, []; split; [simpl; rewrite <- ?app_assoc; reflexivity|];
           split; [|by left]; media_now);
      match goal with
      | |- context [container_block ?w ?s ?b ?c ?a ?cl ?o ?u ?st1] =>
          destruct (container_block_media cl o u st1) as (evs & -> & Hevs);
          rewrite (payload_of_caption _ st1 eq_refl) in Hevs
      end;
      eexists _, _; (split; [simpl; rewrite <- ?app_assoc; reflexivity|]);
      (split; [|right; reflexivity]); media_now.
  - match goal with
    | |- context [container_block ?w ?s ?b ?c ?a ?cl ?o ?u ?st1] =>
        destruct (container_block_media cl o u st1) as (evs & -> & Hevs);
        rewrite (payload_of_caption "" st1 eq_refl) in Hevs
    end.
    eexists _, _. split; [simpl; rewrite <- ?app_assoc; reflexivity|].
    split; [|right; reflexivity]. media_now.
Qed.

Local Abbreviation hands_out_link := (hands_out_link w settings).

Ltac after_finish :=
  match goal with
  | |- context [finish ?w ?b ?c ?a ?code ?err ?st1] =>
      let evs := fresh "evs" in
      let Hevs := fresh "Hevs" in
      destruct (finish_order code err st1) as (evs & -> & Hevs);
      apply (late_calls_hand_nothing evs 11) in Hevs; [|lia]
  end;
  eexists; (split; [simpl; rewrite <- ?app_assoc; reflexivity|]);
  left; media_now.

Ltac stops_quietly :=
  eexists; (split; [simpl; rewrite <- ?app_assoc;
                    first [reflexivity | symmetry; apply app_nil_r]|]);
  left; media_now.

Lemma select_block_media client st :
  exists evs,
    trace (select_block w settings bot chat account client st).2
    = (trace st ++ evs)%list
    /\ hands_out_link evs.
Proof.
  unfold select_block, attempt, select_and_presign, fail_with. run_monad.
  destruct (list_png_objects _ _ _ _) as [objects|[]]; simpl;
    rewrite ?OrchestratorFacts.add_events_add_events; simpl;
    try first [ after_finish | stops_quietly ].
  destruct (choose_random_object _ _) as [selected|[]]; simpl;
    rewrite ?OrchestratorFacts.add_events_add_events; simpl;
    try first [ after_finish | stops_quietly ].
  destruct (generate_presigned_url _ _ _ _ _ _) as [par|[]]; simpl;
    rewrite ?OrchestratorFacts.add_events_add_events; simpl;
    try first [ after_finish | stops_quietly ].
  match goal with
  | |- context [caption_block ?w ?s ?b ?c ?a ?cl ?o ?u ?st1] =>
      destruct (caption_block_media cl o u st1) as (evs & posted & -> & Hevs & Hposted)
  end.
  eexists. split; [simpl; rewrite <- ?app_assoc; reflexivity|].
  right. exists par, posted. split; [|split; [|exact Hposted]].
  - simpl. rewrite !elem_of_cons. auto 10.
  - media_now.
Qed.

Lemma storage_block_media st :
  exists evs,
    trace (storage_block w settings bot chat account st).2 = (trace st ++ evs)%list
    /\ hands_out_link evs.
Proof.
  unfold storage_block, fail_with. run_monad.
  destruct (Storage.init _ _ _ _) as [client|[]]; simpl;
    rewrite ?OrchestratorFacts.add_events_add_events;
    try first [ after_finish | stops_quietly ].
  match goal with
  | |- context [select_block ?w ?s ?b ?c ?a ?cl ?st1] =>
      destruct (select_block_media cl st1) as (evs & -> & Hevs)
  end.
  eexists. split; [simpl; rewrite <- ?app_assoc; reflexivity|].
  destruct Hevs as [Hnone|(par & posted & Hin & Hevs & Hposted)].
  - left. media_now.
  - right. exists par, posted. split; [|split; [|exact Hposted]].
    + apply elem_of_cons. by right.
    + media_now.
Qed.

End Flow.

Section Main.
Context `{PyBuiltins}.

(** Every run ends having published and deleted nothing, or settled
    on the object it selected. *)
Lemma run_publication w :
  unpublished (run w) \/ exists obj, settled obj (run w).
Proof.
  destruct (load_settings (environ w)) as [settings|e] eqn:Hload.
  - unfold run, main. rewrite Hload.
    unfold log, emit, mbind, M_bind, modify, lift, mret, M_ret, raise. simpl.
    destruct (ThreadsApi.get_profile_details _ _ _) as [details|[]]; simpl;
      try (left; by repeat split).
    + destruct (_format_threads_label (Some details) _) as [account|e]; simpl;
        [|left; by repeat split].
      by apply storage_block_settled.
    + by apply storage_block_settled.
  - left.
    destruct (OrchestratorFacts.run_config_failure w e Hload)
      as (Hres & Hnot & _ & Hth & _).
    unfold unpublished, verdict. rewrite Hres, Hth. simpl.
    split; [done|]. split; [done|]. by apply notifications_delete_nothing.
Qed.

(** X24. The exit status of [main] tells whether a thread was
    published: it is 0 exactly when a thread id was recorded and 1
    otherwise, and an exception leaves [main] only while nothing is
    published: once the publish call has succeeded, the run cannot
    fail. *)
Theorem exit_status_tells_publication (w : World) :
  match (run w).1 with
  | Ok code =>
      (code = 0%Z /\ thread_id (run w).2 <> None)
      \/ (code = 1%Z /\ thread_id (run w).2 = None)
  | Raise _ => thread_id (run w).2 = None
  end.
Proof.
  assert (Hverdict : verdict (run w)).
  { destruct (run_publication w) as [(Hv & _)|(obj & Hv & _)]; exact Hv. }
  unfold verdict in Hverdict.
  destruct (run w).1 as [code|e]; [|exact Hverdict].
  destruct (thread_id (run w).2) as [thread|]; simpl in Hverdict; subst code.
  - by left.
  - by right.
Qed.

(** X25. A run deletes at most one object, the one it selected, and
    it does so exactly when a thread was published: without a recorded
    thread id no deletion is ever requested. *)
Theorem deletion_follows_publication (w : World) :
  deletions (trace (run w).2)
  = match thread_id (run w).2, selected_object (run w).2 with
    | Some _, Some obj => [obj]
    | _, _ => []
    end.
Proof.
  destruct (run_publication w) as [(_ & Hth & Hdel)|(obj & _ & Hsel & Hdel)].
  - by rewrite Hdel, Hth.
  - rewrite Hdel, Hsel. by destruct (thread_id (run w).2).
Qed.

(** X26. A run issues at most one link.  When [main] returns, the
    revocation of every issued link has been requested exactly once and
    no link is held any more; when an exception leaves [main], no
    revocation has been requested and the issued link, if any, is still
    held. *)
Theorem link_accounting (w : World) :
  (length (issued (trace (run w).2)) <= 1)%nat
  /\ match (run w).1 with
     | Ok _ =>
         revoked (trace (run w).2) = issued (trace (run w).2)
         /\ par_request (run w).2 = None
     | Raise _ =>
         revoked (trace (run w).2) = []
         /\ par_request (run w).2 = head (issued (trace (run w).2))
     end.
Proof.
  assert (Hfresh : fresh (run w).2 ->
    (length (issued (trace (run w).2)) <= 1)%nat
    /\ match (run w).1 with
       | Ok _ =>
           revoked (trace (run w).2) = issued (trace (run w).2)
           /\ par_request (run w).2 = None
       | Raise _ =>
           revoked (trace (run w).2) = []
           /\ par_request (run w).2 = head (issued (trace (run w).2))
       end).
  { intros (Hp & _ & _ & _ & Hi & Hr & _). rewrite Hi, Hr, Hp.
    split; [simpl; lia|]. by destruct (run w).1. }
  destruct (load_settings (environ w)) as [settings|e] eqn:Hload.
  - destruct (OrchestratorFacts.run_settled w settings Hload)
      as [Hlinkless|(par & Hi & Hrev & _)]; [by apply Hfresh|].
    rewrite Hi. split; [simpl; lia|].
    destruct (run w).1; destruct Hrev as (-> & ->); done.
  - destruct (OrchestratorFacts.run_config_failure w e Hload) as (_ & _ & Hf).
    by apply Hfresh.
Qed.

(** X27. The calls of a run follow the pipeline: profile, storage
    client, listing, link request, link, caption, container, sleep,
    status check, publication, deletion, revocation, notification.
    Each is made at most once, none is made after a later one, and
    steps are only ever skipped, never repeated or reordered. *)
Theorem calls_follow_the_pipeline (w : World) :
  ascending 0 (steps (trace (run w).2)) = true.
Proof.
  assert (Hfrom_start : forall final,
    (exists evs, final = ([] ++ evs)%list /\ ascending 0 (steps evs) = true) ->
    ascending 0 (steps final) = true).
  { by intros final (evs & -> & Hevs). }
  apply Hfrom_start. unfold run, main.
  destruct (load_settings (environ w)) as [settings|e] eqn:Hload.
  - unfold log, emit, mbind, M_bind, modify, lift, mret, M_ret, raise. simpl.
    destruct (ThreadsApi.get_profile_details _ _ _) as [details|[]]; simpl;
      try (eexists; split; reflexivity).
    + destruct (_format_threads_label (Some details) _) as [account|e']; simpl;
        [|eexists; split; reflexivity].
      eapply (ordered_extend 0 _ []); [ | apply storage_block_order | ];
        [ reflexivity | reflexivity ].
    + eapply (ordered_extend 0 _ []); [ | apply storage_block_order | ];
        [ reflexivity | reflexivity ].
  - rewrite (ConfigFacts.load_settings_error_kind _ _ Hload).
    unfold log, emit, mbind, M_bind, modify. simpl.
    destruct (send_telegram_order w (environ w !! "TELEGRAM_BOT_TOKEN")
                (environ w !! "TELEGRAM_CHAT_ID") [Heading false; ErrorLine e]
                (add_events [Log ERROR "Configuration error: %s"] initial))
      as (evs & -> & Hevs).
    simpl. exists (Log ERROR "Configuration error: %s" :: evs).
    split; [done|]. simpl. by apply (ascending_weaken 0 12); [lia|].
Qed.

(** X28. A profile answer that is JSON but not an object ends the run
    before anything else is done: [_format_threads_label] raises
    [AttributeError], [main] does not catch it, and neither the storage
    nor the notification is reached. *)
Theorem malformed_profile_stops_the_run (w : World) (settings : Settings)
    (r : response) (body : pyval) :
  load_settings (environ w) = Ok settings ->
  threads w (ThreadsApi.ProfileDetails (threads_user_id settings)
               (threads_access_token settings)) = Response r ->
  json r = Some body ->
  (status_code r < 400)%Z ->
  truthy body = true ->
  (forall d, body <> PDict d) ->
  run w = (Raise AttributeError,
           add_events [GetProfile (threads_user_id settings)] initial).
Proof.
  intros Hload Hsend Hjson Hstatus Htruthy Hnot. unfold run, main. rewrite Hload.
  unfold log, emit, mbind, M_bind, modify, lift, mret, M_ret, raise. simpl.
  unfold ThreadsApi.get_profile_details, ThreadsApi.perform. rewrite Hsend. simpl.
  rewrite (ThreadsApiFacts.handle_response_ok r _ Hjson Hstatus). simpl.
  unfold _format_threads_label. simpl. rewrite Htruthy.
  destruct body; try done. by destruct (Hnot d).
Qed.

Lemma notifications_hand_nothing t :
  forallb is_notification t = true -> media_calls t = [].
Proof.
  induction t as [|e t IH]; [done|]. simpl.
  intros [He Ht]%andb_true_iff. destruct e; try discriminate; by apply IH.
Qed.

(** With the settings loaded, what a run hands out is nothing or the
    URL of the link it issued. *)
Lemma run_media w settings :
  load_settings (environ w) = Ok settings ->
  hands_out_link w settings (trace (run w).2).
Proof.
  intros Hload. unfold run, main. rewrite Hload.
  unfold log, emit, mbind, M_bind, modify, lift, mret, M_ret, raise. simpl.
  assert (Hblock : forall bot chat account pre st,
    trace st = pre -> media_calls pre = [] ->
    hands_out_link w settings
      (trace (storage_block w settings bot chat account st).2)).
  { intros bot chat account pre st Hpre Hquiet.
    destruct (storage_block_media w settings bot chat account st)
      as (evs & -> & Hevs).
    rewrite Hpre.
    destruct Hevs as [Hnone|(par & posted & Hin & Hevs & Hposted)].
    - left. by rewrite media_calls_app, Hquiet, Hnone.
    - right. exists par, posted. split; [|split; [|exact Hposted]].
      + apply elem_of_app. by right.
      + by rewrite media_calls_app, Hquiet, Hevs. }
  destruct (ThreadsApi.get_profile_details _ _ _) as [details|[]]; simpl;
    try (by left).
  - destruct (_format_threads_label (Some details) _) as [account|e]; simpl;
      [|by left].
    by eapply Hblock.
  - by eapply Hblock.
Qed.

Lemma issued_elem par t : LinkIssued par ∈ t -> par ∈ issued t.
Proof.
  intros Hin. unfold issued. apply list_elem_of_omap.
  exists (LinkIssued par). by split.
Qed.

(** X29. The image is handed to the captioner and to the platform only
    under the URL of the link issued in the same run: a run that issues
    no link calls neither. *)
Theorem image_goes_out_under_issued_link (w : World) (url : string)
    (text : option string) :
  (url, text) ∈ media_calls (trace (run w).2) ->
  exists par, issued (trace (run w).2) = [par] /\ url = par_url par.
Proof.
  intros Hcall.
  destruct (load_settings (environ w)) as [settings|e] eqn:Hload.
  - destruct (run_media w settings Hload)
      as [Hnone|(par & posted & Hin & Hcalls & Hposted)].
    { rewrite Hnone in Hcall. by apply elem_of_nil in Hcall. }
    exists par. split.
    + apply issued_elem in Hin.
      pose proof (OrchestratorFacts.at_most_one_link w) as Hone.
      destruct (issued (trace (run w).2)) as [|first [|second rest]];
        [by apply elem_of_nil in Hin| |simpl in Hone; lia].
      by apply list_elem_of_singleton in Hin as ->.
    + rewrite Hcalls in Hcall. apply elem_of_app in Hcall as [Hcall|Hcall].
      * destruct (enable_captioning settings);
          [|by apply elem_of_nil in Hcall].
        by apply list_elem_of_singleton in Hcall as [= -> _].
      * destruct Hposted as [->| ->]; [by apply elem_of_nil in Hcall|].
        by apply list_elem_of_singleton in Hcall as [= -> _].
  - destruct (OrchestratorFacts.run_config_failure w e Hload) as (_ & Hnot & _).
    rewrite (notifications_hand_nothing _ Hnot) in Hcall.
    by apply elem_of_nil in Hcall.
Qed.

(** X30. The captioner is asked only when captioning is enabled, and
    the text that goes out with the container request is exactly the
    caption [generate_caption] returns for the image, or the empty
    string when captioning is disabled or fails.  A run makes at most
    one caption request and at most one container request. *)
Theorem posted_text_is_the_caption (w : World) (settings : Settings) :
  load_settings (environ w) = Ok settings ->
  (forall url, (url, None) ∈ media_calls (trace (run w).2) ->
     enable_captioning settings = true)
  /\ (forall url text, (url, Some text) ∈ media_calls (trace (run w).2) ->
        text = posted_text w settings url)
  /\ (enable_captioning settings = false ->
      forall url text, (url, Some text) ∈ media_calls (trace (run w).2) ->
        text = "")
  /\ (length (filter (fun call => call.2 = None)
                 (media_calls (trace (run w).2))) <= 1)%nat
  /\ (length (filter (fun call => call.2 <> None)
                 (media_calls (trace (run w).2))) <= 1)%nat.
Proof.
  intros Hload.
  assert (Hasked : forall url, (url, None) ∈ media_calls (trace (run w).2) ->
                     enable_captioning settings = true).
  { intros url Hin.
    destruct (run_media w settings Hload)
      as [Hnone|(par & posted & _ & Hcalls & Hposted)].
    { rewrite Hnone in Hin. by apply elem_of_nil in Hin. }
    rewrite Hcalls in Hin. apply elem_of_app in Hin as [Hin|Hin].
    - destruct (enable_captioning settings); [done|].
      by apply elem_of_nil in Hin.
    - destruct Hposted as [->| ->]; [by apply elem_of_nil in Hin|].
      by apply list_elem_of_singleton in Hin. }
  assert (Hposted : forall url text,
    (url, Some text) ∈ media_calls (trace (run w).2) ->
    text = posted_text w settings url).
  { intros url text Hin.
    destruct (run_media w settings Hload)
      as [Hnone|(par & posted & _ & Hcalls & Hposted)].
    { rewrite Hnone in Hin. by apply elem_of_nil in Hin. }
    rewrite Hcalls in Hin. apply elem_of_app in Hin as [Hin|Hin].
    - destruct (enable_captioning settings);
        [by apply list_elem_of_singleton in Hin | by apply elem_of_nil in Hin].
    - destruct Hposted as [->| ->]; [by apply elem_of_nil in Hin|].
      by apply list_elem_of_singleton in Hin as [= -> ->]. }
  split; [exact Hasked|]. split; [exact Hposted|]. split.
  - intros Hoff url text Hin. rewrite (Hposted url text Hin).
    unfold posted_text. by rewrite Hoff.
  - split;
      (destruct (run_media w settings Hload)
         as [->|(par & posted & _ & -> & [->| ->])];
       destruct (enable_captioning settings); simpl; lia).
Qed.

End Main.

Lemma malformed_profile_stops_the_run_witness :
  @run AsciiBuiltins.builtins world_profile_array
  = (Raise AttributeError,
     add_events [GetProfile (threads_user_id settings_complete)] initial).
Proof.
  assert (Hstatus : (status_code (json_response 200 (PList [PStr "quotes"])) < 400)%Z)
    by (simpl; lia).
  assert (Hnot : forall d, PList [PStr "quotes"] <> PDict d) by discriminate.
  exact (@malformed_profile_stops_the_run AsciiBuiltins.builtins
           world_profile_array settings_complete
           (json_response 200 (PList [PStr "quotes"])) (PList [PStr "quotes"])
           ltac:(vm_compute; reflexivity) eq_refl eq_refl Hstatus eq_refl Hnot).
Defined.

Lemma image_goes_out_under_issued_link_witness :
  exists par,
    issued (trace (@run AsciiBuiltins.builtins world_happy).2) = [par]
    /\ par_url issued_link = par_url par.
Proof.
  apply (@image_goes_out_under_issued_link AsciiBuiltins.builtins world_happy
           (par_url issued_link) None).
  vm_compute. repeat first [apply list_elem_of_here | apply list_elem_of_further].
Defined.

Lemma posted_text_is_the_caption_witness :
  "Nice view"
  = @posted_text AsciiBuiltins.builtins world_happy settings_complete
      (par_url issued_link).
Proof.
  assert (Hload : @load_settings AsciiBuiltins.builtins (environ world_happy)
                  = Ok settings_complete) by (vm_compute; reflexivity).
  destruct (@posted_text_is_the_caption AsciiBuiltins.builtins world_happy
              settings_complete Hload) as (_ & Hposted & _).
  apply Hposted. vm_compute.
  repeat first [apply list_elem_of_here | apply list_elem_of_further].
Defined.

End RunFacts.
